(** * Inventario: point-of-sale stores

    A shallow embedding of the two Pinia stores that implement the checkout
    workflow of the bookstore application:

    - [src/stores/books.ts]  (catalogue, [getBookById], [updateBook],
      [updateStock]);
    - [src/stores/sales.ts]  (draft sale, derived totals, [completeSale]);

    and of the script of the sale screen ([src/components/NoAccess.vue])
    that calls them.

    Conventions of the embedding.

    - A TypeScript [number] that the database schema declares [INTEGER]
      (stock, quantity) is a [Z].  A monetary [number] (price, subtotal, tax,
      discount, total, amount paid) is a [number] of the interface
      [Number.JsNumber]: the stores are written over its operations, in the
      order in which the code applies them, and read at the doubles of
      IEEE 754 ([Binary64.numbers]) and at the rationals ([Exact.numbers]).
      The amounts of the customers store are read at the rationals only.
    - A string is the sequence of the bytes of its UTF-8 encoding.
    - An optional field ([x?: T], or a value that may be [null]) is an
      [option].
    - A reactive [ref] is a record field of the store's state; a function that
      mutates refs takes the state and returns the new one.
    - A function that can [throw] returns a sum: [inl] carries the thrown
      value, [inr] the returned one.  State written before the [throw] is
      kept, as in JavaScript.
    - The hosted database is outside the repository.  It is an arbitrary
      deterministic state machine behind the interface [Remote]; each
      [await supabase...] is one call of that interface. *)

From Stdlib Require Import ZArith QArith Qminmax String Ascii List Bool Lia.
From Stdlib Require Import DecimalString Lqa Qround Permutation Sorted.
From Stdlib Require Import Floats.SpecFloat.
Import ListNotations.

Local Open Scope string_scope.
Local Open Scope Z_scope.

(** ** JavaScript array and string primitives used by the stores *)

Module Js.

(** [a.findIndex(p)], with [None] for [-1]. *)
Fixpoint findIndex {A : Type} (p : A -> bool) (l : list A) : option nat :=
  match l with
  | [] => None
  | x :: r => if p x then Some O else option_map S (findIndex p r)
  end.

(** [a.splice(i, 1)]: the array without its element at index [i]. *)
Fixpoint splice1 {A : Type} (i : nat) (l : list A) : list A :=
  match l, i with
  | [], _ => []
  | _ :: r, O => r
  | x :: r, S j => x :: splice1 j r
  end.

(** [a[i] = v] for an index inside the array. *)
Fixpoint assign {A : Type} (i : nat) (v : A) (l : list A) : list A :=
  match l, i with
  | [], _ => []
  | _ :: r, O => v :: r
  | x :: r, S j => x :: assign j v r
  end.

(** [const o = a.find(p); if (o) { mutate o }]: [find] returns a reference
    to the first element satisfying [p], so the mutation [f] is seen at that
    position of the array and nowhere else. *)
Fixpoint mutateFirst {A : Type} (p : A -> bool) (f : A -> A) (l : list A)
  : list A :=
  match l with
  | [] => []
  | x :: r => if p x then f x :: r else x :: mutateFirst p f r
  end.

(** ASCII lower-casing, for case-insensitive regular expressions. *)
Definition lower (c : ascii) : ascii :=
  let n := nat_of_ascii c in
  if ((65 <=? n)%nat && (n <=? 90)%nat)%bool then ascii_of_nat (n + 32) else c.

Fixpoint toLowerCase (s : string) : string :=
  match s with
  | EmptyString => EmptyString
  | String c r => String (lower c) (toLowerCase r)
  end.

(** [hay.includes(needle)]. *)
Fixpoint includes (needle hay : string) : bool :=
  (String.prefix needle hay
   || match hay with
      | EmptyString => false
      | String _ r => includes needle r
      end)%bool.

(** [s.split(sep)[0]] for a one-character separator. *)
Fixpoint splitHead (sep : ascii) (s : string) : string :=
  match s with
  | EmptyString => EmptyString
  | String c r => if Ascii.eqb c sep then EmptyString else String c (splitHead sep r)
  end.

(** White space and line terminators as [trim] sees them (ECMA-262,
    WhiteSpace and LineTerminator).  Those of one byte: TAB, LF, VT, FF, CR
    and SP. *)
Definition isSpace (c : ascii) : bool :=
  let n := nat_of_ascii c in
  ((n =? 32) || ((9 <=? n) && (n <=? 13)))%nat%bool.

(** Of two bytes: U+00A0. *)
Definition isSpace2 (c1 c2 : ascii) : bool :=
  ((nat_of_ascii c1 =? 194) && (nat_of_ascii c2 =? 160))%nat%bool.

(** Of three bytes: U+1680, U+2000 to U+200A, U+2028, U+2029, U+202F,
    U+205F, U+3000 and U+FEFF. *)
Definition isSpace3 (c1 c2 c3 : ascii) : bool :=
  let n1 := nat_of_ascii c1 in
  let n2 := nat_of_ascii c2 in
  let n3 := nat_of_ascii c3 in
  (((n1 =? 225) && (n2 =? 154) && (n3 =? 128))
   || ((n1 =? 226) && (n2 =? 128)
       && (((128 <=? n3) && (n3 <=? 138)) || (n3 =? 168) || (n3 =? 169)
           || (n3 =? 175)))
   || ((n1 =? 226) && (n2 =? 129) && (n3 =? 159))
   || ((n1 =? 227) && (n2 =? 128) && (n3 =? 128))
   || ((n1 =? 239) && (n2 =? 187) && (n3 =? 191)))%nat%bool.

(** [s.trim() === '']: every character of [s] is white space. *)
Fixpoint isBlank (s : string) : bool :=
  match s with
  | EmptyString => true
  | String c1 r1 =>
      if isSpace c1 then isBlank r1
      else
        match r1 with
        | EmptyString => false
        | String c2 r2 =>
            if isSpace2 c1 c2 then isBlank r2
            else
              match r2 with
              | EmptyString => false
              | String c3 r3 => if isSpace3 c1 c2 c3 then isBlank r3 else false
              end
        end
  end.

(** [String(n)] for an integer. *)
Definition stringOfZ (n : Z) : string :=
  NilZero.string_of_int (Z.to_int n).

(** [s.padStart(2, '0')] *)
Definition padStart2 (s : string) : string :=
  match s with
  | EmptyString => "00"
  | String c EmptyString => String "0"%char s
  | _ => s
  end.

(** [x || null] on an optional string: the empty string is falsy. *)
Definition orNull (s : option string) : option string :=
  match s with
  | Some EmptyString => None
  | _ => s
  end.

(** A thrown value: [new Error(message)], or the error object handed back
    by the database client. *)
Record RemoteError := {
  code : option string;
  message : string;
  (** whether the client's error object is an [instanceof Error] *)
  isError : bool
}.

Inductive Exn :=
| Error (msg : string)
| Thrown (e : RemoteError).

(** [err instanceof Error ? err.message : fallback] *)
Definition messageOr (fallback : string) (err : Exn) : string :=
  match err with
  | Error msg => msg
  | Thrown e => if isError e then message e else fallback
  end.

(** [new Date()] as far as the stores read it. *)
Record Date := {
  getFullYear : Z;
  getMonth : Z;
  getDate : Z;
  toTimeString : string
}.

End Js.

(** ** Numbers

    A TypeScript [number] that holds an amount of money is an IEEE-754
    double.  The stores are written once, over the operations of [JsNumber],
    and read at two instances: [Binary64.numbers], the doubles of the code,
    and [Exact.numbers], the rationals, where no operation rounds.  A
    property proved for every instance holds of the code as it runs; one
    stated at [Exact.numbers] says what the amounts are before rounding. *)

Module Number.

(** The type of the amounts. *)
Class Carrier := number : Type.

(** The operations on amounts that the modelled code uses. *)
Class JsNumber {C : Carrier} := {
  (** an integer read as a [number]: an integer literal, a quantity *)
  ofZ : Z -> number;
  (** [a + b], [a - b], [a * b], [a / b] *)
  add : number -> number -> number;
  sub : number -> number -> number;
  mul : number -> number -> number;
  div : number -> number -> number;
  (** [a <= b]; [a >= b] is [leb b a] *)
  leb : number -> number -> bool;
  (** [Math.max(a, b)], [Math.min(a, b)] and [Math.ceil(a)] *)
  max : number -> number -> number;
  min : number -> number -> number;
  ceil : number -> number
}.

(** A decimal literal: [decimal 8 2] is [0.08] and [decimal 2599 2] is
    [25.99].  The quotient of the two integers is rounded once, to the
    nearest [number]; so is the literal when the program is read (for a
    literal of at most 15 digits, both integers being doubles). *)
Definition decimal {C : Carrier} {N : JsNumber} (digits : Z) (places : nat) : number :=
  div (ofZ digits) (ofZ (10 ^ Z.of_nat places)).

End Number.

Abbreviation number := Number.number.

#[global] Hint Mode Number.JsNumber ! : typeclass_instances.

Declare Scope num_scope.
Delimit Scope num_scope with num.
Infix "+" := Number.add : num_scope.
Infix "-" := Number.sub : num_scope.
Infix "*" := Number.mul : num_scope.
Infix "/" := Number.div : num_scope.
Infix "<=?" := Number.leb : num_scope.

(** *** Doubles

    The binary64 format of IEEE 754 as the standard library specifies it
    ([SpecFloat], precision 53, round to nearest, ties to even): what a
    JavaScript engine computes.  [Math.max], [Math.min] and [Math.ceil] are
    written out after ECMA-262: [NaN] is contagious, [+0] is above [-0]. *)

Module Binary64.

Definition prec : Z := 53.
Definition emax : Z := 1024.

Definition ofZ (z : Z) : spec_float := binary_normalize prec emax z 0 false.

Definition add : spec_float -> spec_float -> spec_float := SFadd prec emax.
Definition sub : spec_float -> spec_float -> spec_float := SFsub prec emax.
Definition mul : spec_float -> spec_float -> spec_float := SFmul prec emax.
Definition div : spec_float -> spec_float -> spec_float := SFdiv prec emax.

Definition leb : spec_float -> spec_float -> bool := SFleb.

Definition max (a b : spec_float) : spec_float :=
  match SFcompare a b with
  | None => S754_nan
  | Some Lt => b
  | Some Gt => a
  | Some Eq => match a with S754_zero true => b | _ => a end
  end.

Definition min (a b : spec_float) : spec_float :=
  match SFcompare a b with
  | None => S754_nan
  | Some Lt => a
  | Some Gt => b
  | Some Eq => match a with S754_zero false => b | _ => a end
  end.

(** The least integer that is not below [x]; the integer part of a double
    is a double.  A negative [x] above [-1] gives [-0]. *)
Definition ceil (x : spec_float) : spec_float :=
  match x with
  | S754_finite s m (Zneg k) =>
      let unit := Z.pow_pos 2 k in
      if s then
        match Z.pos m / unit with
        | Z0 => S754_zero true
        | q => binary_normalize prec emax (- q) 0 true
        end
      else binary_normalize prec emax ((Z.pos m + unit - 1) / unit) 0 false
  | _ => x
  end.

Definition carrier : Number.Carrier := spec_float.

Definition numbers : @Number.JsNumber carrier :=
  {| Number.ofZ := ofZ;
     Number.add := add; Number.sub := sub; Number.mul := mul; Number.div := div;
     Number.leb := leb; Number.max := max; Number.min := min;
     Number.ceil := ceil |}.

End Binary64.

(** *** Exact numbers *)

Module Exact.

Definition ceil (q : Q) : Q := inject_Z (Qceiling q).

Definition carrier : Number.Carrier := Q.

Definition numbers : @Number.JsNumber carrier :=
  {| Number.ofZ := inject_Z;
     Number.add := Qplus; Number.sub := Qminus; Number.mul := Qmult;
     Number.div := Qdiv;
     Number.leb := Qle_bool; Number.max := Qmax; Number.min := Qmin;
     Number.ceil := ceil |}.

End Exact.

(** ** [src/lib/supabase.ts]: row types and the database interface *)

Module Supabase.

Section WithNumbers.
Context {C : Number.Carrier} {N : Number.JsNumber}.

Record Book := {
  id : string;
  title : string;
  author : string;
  isbn : string;
  genre : string;
  price : number;
  stock : Z;
  description : option string;
  created_at : option string;
  updated_at : option string
}.

(** [Partial<Book>] as [mapToSupabaseBook] builds it for insert and update.
    [isbn] may be set to [null]. *)
Record BookPatch := {
  set_title : option string;
  set_author : option string;
  set_isbn : option (option string);
  set_genre : option string;
  set_price : option number;
  set_stock : option Z;
  set_description : option string
}.

Record Sale := {
  sale_id : string;
  sale_customer_id : option string;
  sale_total : number;
  sale_subtotal : number;
  sale_tax : number;
  sale_discount : number;
  sale_payment_method : string;
  sale_status : string;
  sale_created_at : option string;
  sale_updated_at : option string
}.

(** The object [saleInsert] of [completeSale]. *)
Record SaleInsert := {
  ins_customer_id : option string;
  ins_total : number;
  ins_subtotal : number;
  ins_tax : number;
  ins_discount : number;
  ins_payment_method : string;
  ins_status : string
}.

(** One element of [itemsRows] of [completeSale]. *)
Record SaleItemInsert := {
  sale_ref : string;
  book_id : string;
  quantity : Z;
  unit_price : number;
  total_price : number
}.

(** The requests the two stores send on the modelled paths.  [DB] is the
    state of the hosted database; every request may change it and answers
    with [data] or with [error]. *)
Class Remote (DB : Type) := {
  (** [from('sales').insert([row]).select().single()] *)
  insertSale : DB -> SaleInsert -> DB * (Js.RemoteError + Sale);
  (** [from('sale_items').insert(rows)] *)
  insertSaleItems : DB -> list SaleItemInsert -> DB * option Js.RemoteError;
  (** [from('books').update(patch).eq('id', id).select().single()] *)
  updateBookRow : DB -> string -> BookPatch -> DB * (Js.RemoteError + Book)
}.

End WithNumbers.

End Supabase.

(** ** [src/stores/books.ts] *)

Module Books.

Section WithNumbers.
Context {C : Number.Carrier} {N : Number.JsNumber}.

Inductive Condition := New | Used | Damaged.

(** [AppBook extends Book] *)
Record AppBook := {
  id : string;
  title : string;
  author : string;
  isbn : string;
  genre : string;
  price : number;
  stock : Z;
  description : option string;
  created_at : option string;
  updated_at : option string;
  cost : option number;
  quantity : Z;
  publishedYear : option Z;
  condition : option Condition;
  location : option string;
  dateAdded : option string
}.

(** [Partial<AppBook>]: the argument [updates] of [updateBook]. *)
Record Updates := {
  u_id : option string;
  u_title : option string;
  u_author : option string;
  u_isbn : option string;
  u_genre : option string;
  u_price : option number;
  u_stock : option Z;
  u_description : option string;
  u_created_at : option string;
  u_updated_at : option string;
  u_cost : option number;
  u_quantity : option Z;
  u_publishedYear : option Z;
  u_condition : option Condition;
  u_location : option string;
  u_dateAdded : option string
}.

Definition noUpdates : Updates :=
  {| u_id := None; u_title := None; u_author := None; u_isbn := None;
     u_genre := None; u_price := None; u_stock := None;
     u_description := None; u_created_at := None; u_updated_at := None;
     u_cost := None; u_quantity := None; u_publishedYear := None;
     u_condition := None; u_location := None; u_dateAdded := None |}.

(** The object literal [{ stock: newStock }]. *)
Definition stockOnly (newStock : Z) : Updates :=
  {| u_id := None; u_title := None; u_author := None; u_isbn := None;
     u_genre := None; u_price := None; u_stock := Some newStock;
     u_description := None; u_created_at := None; u_updated_at := None;
     u_cost := None; u_quantity := None; u_publishedYear := None;
     u_condition := None; u_location := None; u_dateAdded := None |}.

(** The refs of the store that the modelled functions touch. *)
Record State := {
  books : list AppBook;
  loading : bool;
  error : option string
}.

Definition setBooks (l : list AppBook) (s : State) : State :=
  {| books := l; loading := loading s; error := error s |}.
Definition setLoading (b : bool) (s : State) : State :=
  {| books := books s; loading := b; error := error s |}.
Definition setError (e : option string) (s : State) : State :=
  {| books := books s; loading := loading s; error := e |}.

Definition mapToAppBook (book : Supabase.Book) : AppBook :=
  {| id := Supabase.id book;
     title := Supabase.title book;
     author := Supabase.author book;
     isbn := Supabase.isbn book;
     genre := Supabase.genre book;
     price := Supabase.price book;
     stock := Supabase.stock book;
     description := Supabase.description book;
     created_at := Supabase.created_at book;
     updated_at := Supabase.updated_at book;
     cost := None;
     quantity := Supabase.stock book;
     publishedYear := None;
     condition := None;
     location := None;
     dateAdded := option_map (Js.splitHead "T"%char) (Supabase.created_at book) |}.

Definition mapToSupabaseBook (book : Updates) : Supabase.BookPatch :=
  {| Supabase.set_title := u_title book;
     Supabase.set_author := u_author book;
     Supabase.set_isbn :=
       match u_isbn book with
       | Some s => if Js.isBlank s then Some None else Some (Some s)
       | None => None
       end;
     Supabase.set_genre := u_genre book;
     Supabase.set_price := u_price book;
     Supabase.set_stock :=
       match u_quantity book with
       | Some q => Some q
       | None => u_stock book
       end;
     Supabase.set_description := u_description book |}.

Definition hasId (i : string) (book : AppBook) : bool := String.eqb (id book) i.

Definition getBookById (s : State) (i : string) : option AppBook :=
  find (hasId i) (books s).

(** The [friendly] message of the [catch] block of [updateBook]. *)
Definition updateFriendly (err : Js.Exn) : string :=
  match err with
  | Js.Thrown e =>
      if match Js.code e with Some c => String.eqb c "23505" | None => false end
      then "El ISBN ya existe. Por favor ingrese un ISBN único o deje el campo vacío."
      else if (match Js.code e with Some c => String.eqb c "42501" | None => false end
               || Js.includes "row-level security" (Js.toLowerCase (Js.message e))
               || Js.includes "permission denied" (Js.toLowerCase (Js.message e)))%bool
      then "No tienes permisos para actualizar libros."
      else "Error al actualizar libro"
  | Js.Error msg =>
      if (Js.includes "row-level security" (Js.toLowerCase msg)
          || Js.includes "permission denied" (Js.toLowerCase msg))%bool
      then "No tienes permisos para actualizar libros."
      else "Error al actualizar libro"
  end.

Section WithRemote.
Context {DB : Type} {remote : Supabase.Remote DB}.

Definition updateBook (db : DB) (s : State) (i : string) (updates : Updates)
  : DB * State * (Js.Exn + AppBook) :=
  let s1 := setError None (setLoading true s) in
  let supabaseUpdates := mapToSupabaseBook updates in
  match Supabase.updateBookRow db i supabaseUpdates with
  | (db', inl supabaseError) =>
      let friendly := updateFriendly (Js.Thrown supabaseError) in
      (db', setLoading false (setError (Some friendly) s1),
       inl (Js.Error friendly))
  | (db', inr data) =>
      let updatedBook := mapToAppBook data in
      let s2 :=
        match Js.findIndex (hasId i) (books s1) with
        | Some index => setBooks (Js.assign index updatedBook (books s1)) s1
        | None => s1
        end in
      (db', setLoading false s2, inr updatedBook)
  end.

Definition updateStock (db : DB) (s : State) (i : string) (quantity : Z)
  : DB * State * (Js.Exn + unit) :=
  match find (hasId i) (books s) with
  | None => (db, s, inr tt)
  | Some book =>
      let newStock := Z.max 0 (stock book + quantity) in
      match updateBook db s i (stockOnly newStock) with
      | (db', s', inl err) =>
          (db', setError (Some (Js.messageOr "Error al actualizar stock" err)) s',
           inl err)
      | (db', s', inr _) => (db', s', inr tt)
      end
  end.

End WithRemote.

End WithNumbers.

End Books.

(** ** [src/stores/sales.ts] *)

Module Sales.

Inductive PaymentMethod := cash | card | digital.

Definition paymentMethodString (m : PaymentMethod) : string :=
  match m with
  | cash => "cash"
  | card => "card"
  | digital => "digital"
  end.

(** [interface AppSaleItem] *)
Module Item.
Section WithNumbers.
Context {C : Number.Carrier} {N : Number.JsNumber}.
Record t := {
  bookId : string;
  title : string;
  author : string;
  price : number;
  quantity : Z;
  subtotal : number
}.
End WithNumbers.
End Item.

(** [interface AppSale] *)
Module Sale.
Section WithNumbers.
Context {C : Number.Carrier} {N : Number.JsNumber}.
Record t := {
  id : string;
  customerId : option string;
  customerName : option string;
  total : number;
  subtotal : number;
  tax : number;
  discount : number;
  paymentMethod : PaymentMethod;
  status : string;
  items : list Item.t;
  time : string;
  date : string;
  notes : option string;
  created_at : option string;
  updated_at : option string
}.
End WithNumbers.
End Sale.

(** The object held by the ref [currentSale]: the draft sale. *)
Module Draft.
Section WithNumbers.
Context {C : Number.Carrier} {N : Number.JsNumber}.
Record t := {
  items : list Item.t;
  customerId : option string;
  customerName : option string;
  paymentMethod : PaymentMethod;
  discount : number;
  notes : option string
}.

Definition setItems (l : list Item.t) (d : t) : t :=
  {| items := l; customerId := customerId d; customerName := customerName d;
     paymentMethod := paymentMethod d; discount := discount d;
     notes := notes d |}.
End WithNumbers.
End Draft.

Section WithNumbers.
Context {C : Number.Carrier} {N : Number.JsNumber}.

Record State := {
  sales : list Sale.t;
  loading : bool;
  error : option string;
  currentSale : Draft.t
}.

Definition setSales (l : list Sale.t) (s : State) : State :=
  {| sales := l; loading := loading s; error := error s;
     currentSale := currentSale s |}.
Definition setLoading (b : bool) (s : State) : State :=
  {| sales := sales s; loading := b; error := error s;
     currentSale := currentSale s |}.
Definition setError (e : option string) (s : State) : State :=
  {| sales := sales s; loading := loading s; error := e;
     currentSale := currentSale s |}.
Definition setCurrentSale (d : Draft.t) (s : State) : State :=
  {| sales := sales s; loading := loading s; error := error s;
     currentSale := d |}.

(** The initial value of the ref [currentSale], also what
    [clearCurrentSale] assigns. *)
Definition emptyDraft : Draft.t :=
  {| Draft.items := []; Draft.customerId := None; Draft.customerName := None;
     Draft.paymentMethod := cash; Draft.discount := Number.ofZ 0;
     Draft.notes := None |}.

Definition initial : State :=
  {| sales := []; loading := false; error := None; currentSale := emptyDraft |}.

Definition formatYYYYMMDDLocal (d : Js.Date) : string :=
  let y := Js.getFullYear d in
  let m := Js.padStart2 (Js.stringOfZ (Js.getMonth d + 1)) in
  let day := Js.padStart2 (Js.stringOfZ (Js.getDate d)) in
  Js.stringOfZ y ++ "-" ++ m ++ "-" ++ day.

(** *** Derived values *)

Definition currentSaleSubtotal (s : State) : number :=
  fold_left (fun sum item => (sum + Item.subtotal item)%num)
            (Draft.items (currentSale s)) (Number.ofZ 0).

Definition currentSaleTotal (s : State) : number :=
  let subtotal := currentSaleSubtotal s in
  let discountAmount :=
    ((subtotal * Draft.discount (currentSale s)) / Number.ofZ 100)%num in
  let tax := (subtotal * Number.decimal 8 2)%num in
  (subtotal - discountAmount + tax)%num.

(** *** Actions on the draft *)

Definition forBook (bookId : string) (item : Item.t) : bool :=
  String.eqb (Item.bookId item) bookId.

Definition unavailable : string := "Libro no disponible o stock insuficiente".

(** [addItemToCurrentSale(bookId, quantity = 1)].  The catalogue is read
    through [booksStore.getBookById] and never written. *)
Definition addItemToCurrentSale
    (booksStore : Books.State) (s : State) (bookId : string) (quantity : Z)
  : State * (Js.Exn + unit) :=
  match Books.getBookById booksStore bookId with
  | None => (s, inl (Js.Error unavailable))
  | Some book =>
      if Books.stock book <? quantity then (s, inl (Js.Error unavailable))
      else
        let items := Draft.items (currentSale s) in
        match find (forBook bookId) items with
        | Some _ =>
            let bump (existingItem : Item.t) :=
              let quantity' := Item.quantity existingItem + quantity in
              {| Item.bookId := Item.bookId existingItem;
                 Item.title := Item.title existingItem;
                 Item.author := Item.author existingItem;
                 Item.price := Item.price existingItem;
                 Item.quantity := quantity';
                 Item.subtotal :=
                   (Item.price existingItem * Number.ofZ quantity')%num |} in
            (setCurrentSale
               (Draft.setItems (Js.mutateFirst (forBook bookId) bump items)
                               (currentSale s)) s,
             inr tt)
        | None =>
            let newItem :=
              {| Item.bookId := bookId;
                 Item.title := Books.title book;
                 Item.author := Books.author book;
                 Item.price := Books.price book;
                 Item.quantity := quantity;
                 Item.subtotal := (Books.price book * Number.ofZ quantity)%num |} in
            (setCurrentSale
               (Draft.setItems (items ++ [newItem])%list (currentSale s)) s,
             inr tt)
        end
  end.

(** The call [addItemToCurrentSale(bookId)], with the default quantity. *)
Definition addItemToCurrentSale1 booksStore s bookId :=
  addItemToCurrentSale booksStore s bookId 1.

Definition removeItemFromCurrentSale (s : State) (bookId : string) : State :=
  let items := Draft.items (currentSale s) in
  match Js.findIndex (forBook bookId) items with
  | Some index =>
      setCurrentSale (Draft.setItems (Js.splice1 index items) (currentSale s)) s
  | None => s
  end.

Definition updateItemQuantity (s : State) (bookId : string) (quantity : Z)
  : State :=
  let items := Draft.items (currentSale s) in
  match find (forBook bookId) items with
  | Some _ =>
      if quantity <=? 0 then removeItemFromCurrentSale s bookId
      else
        let assignQuantity (item : Item.t) :=
          {| Item.bookId := Item.bookId item;
             Item.title := Item.title item;
             Item.author := Item.author item;
             Item.price := Item.price item;
             Item.quantity := quantity;
             Item.subtotal := (Item.price item * Number.ofZ quantity)%num |} in
        setCurrentSale
          (Draft.setItems (Js.mutateFirst (forBook bookId) assignQuantity items)
                          (currentSale s)) s
  | None => s
  end.

Definition setCustomer (s : State) (customerId customerName : option string)
  : State :=
  let d := currentSale s in
  setCurrentSale
    {| Draft.items := Draft.items d; Draft.customerId := customerId;
       Draft.customerName := customerName;
       Draft.paymentMethod := Draft.paymentMethod d;
       Draft.discount := Draft.discount d; Draft.notes := Draft.notes d |} s.

Definition setPaymentMethod (s : State) (method : PaymentMethod) : State :=
  let d := currentSale s in
  setCurrentSale
    {| Draft.items := Draft.items d; Draft.customerId := Draft.customerId d;
       Draft.customerName := Draft.customerName d;
       Draft.paymentMethod := method;
       Draft.discount := Draft.discount d; Draft.notes := Draft.notes d |} s.

Definition setDiscount (s : State) (discount : number) : State :=
  let d := currentSale s in
  setCurrentSale
    {| Draft.items := Draft.items d; Draft.customerId := Draft.customerId d;
       Draft.customerName := Draft.customerName d;
       Draft.paymentMethod := Draft.paymentMethod d;
       Draft.discount :=
         Number.max (Number.ofZ 0) (Number.min (Number.ofZ 100) discount);
       Draft.notes := Draft.notes d |} s.

Definition setNotes (s : State) (notes : string) : State :=
  let d := currentSale s in
  setCurrentSale
    {| Draft.items := Draft.items d; Draft.customerId := Draft.customerId d;
       Draft.customerName := Draft.customerName d;
       Draft.paymentMethod := Draft.paymentMethod d;
       Draft.discount := Draft.discount d; Draft.notes := Some notes |} s.

Definition clearCurrentSale (s : State) : State := setCurrentSale emptyDraft s.

(** *** Checkout *)

Definition noItems : string := "No se puede completar la venta sin artÃ­culos".

Section WithRemote.
Context {DB : Type} {remote : Supabase.Remote DB}.

(** The loop [for (const item of currentSale.value.items)
    await booksStore.updateStock(item.bookId, -item.quantity)]; a
    rejected [await] leaves the loop. *)
Fixpoint updateStocks (db : DB) (booksStore : Books.State)
    (items : list Item.t) : DB * Books.State * (Js.Exn + unit) :=
  match items with
  | [] => (db, booksStore, inr tt)
  | item :: rest =>
      match Books.updateStock db booksStore (Item.bookId item)
                              (- Item.quantity item) with
      | (db', booksStore', inl err) => (db', booksStore', inl err)
      | (db', booksStore', inr _) => updateStocks db' booksStore' rest
      end
  end.

(** The object [saleInsert]. *)
Definition saleInsertOf (s : State) : Supabase.SaleInsert :=
  let subtotal := currentSaleSubtotal s in
  let discountAmount :=
    ((subtotal * Draft.discount (currentSale s)) / Number.ofZ 100)%num in
  let tax := (subtotal * Number.decimal 8 2)%num in
  let total := (subtotal - discountAmount + tax)%num in
  {| Supabase.ins_customer_id := Js.orNull (Draft.customerId (currentSale s));
     Supabase.ins_total := total;
     Supabase.ins_subtotal := subtotal;
     Supabase.ins_tax := tax;
     Supabase.ins_discount := Draft.discount (currentSale s);
     Supabase.ins_payment_method :=
       paymentMethodString (Draft.paymentMethod (currentSale s));
     Supabase.ins_status := "completed" |}.

(** The array [itemsRows]. *)
Definition itemsRowsOf (saleRow : Supabase.Sale) (s : State)
  : list Supabase.SaleItemInsert :=
  map (fun it =>
         {| Supabase.sale_ref := Supabase.sale_id saleRow;
            Supabase.book_id := Item.bookId it;
            Supabase.quantity := Item.quantity it;
            Supabase.unit_price := Item.price it;
            Supabase.total_price := Item.subtotal it |})
      (Draft.items (currentSale s)).

(** The object [newSale]. *)
Definition newSaleOf (now : Js.Date) (saleRow : Supabase.Sale) (s : State)
  : Sale.t :=
  let subtotal := currentSaleSubtotal s in
  let discountAmount :=
    ((subtotal * Draft.discount (currentSale s)) / Number.ofZ 100)%num in
  let tax := (subtotal * Number.decimal 8 2)%num in
  let total := (subtotal - discountAmount + tax)%num in
  {| Sale.id := Supabase.sale_id saleRow;
     Sale.customerId := Draft.customerId (currentSale s);
     Sale.customerName := Draft.customerName (currentSale s);
     Sale.total := total;
     Sale.subtotal := subtotal;
     Sale.tax := tax;
     Sale.discount := Draft.discount (currentSale s);
     Sale.paymentMethod := Draft.paymentMethod (currentSale s);
     Sale.status := "completed";
     Sale.items := Draft.items (currentSale s);
     Sale.time := Js.splitHead " "%char (Js.toTimeString now);
     Sale.date := formatYYYYMMDDLocal now;
     Sale.notes := Draft.notes (currentSale s);
     Sale.created_at := Supabase.sale_created_at saleRow;
     Sale.updated_at := Supabase.sale_updated_at saleRow |}.

(** The [try] block of [completeSale]. *)
Definition completeSaleTry (now : Js.Date) (db : DB)
    (booksStore : Books.State) (s : State)
  : DB * Books.State * State * (Js.Exn + Sale.t) :=
  match Supabase.insertSale db (saleInsertOf s) with
  | (db1, inl saleErr) => (db1, booksStore, s, inl (Js.Thrown saleErr))
  | (db1, inr saleRow) =>
      let itemsRows := itemsRowsOf saleRow s in
      match (if (0 <? length itemsRows)%nat
             then Supabase.insertSaleItems db1 itemsRows
             else (db1, None)) with
      | (db2, Some itemsErr) => (db2, booksStore, s, inl (Js.Thrown itemsErr))
      | (db2, None) =>
          match updateStocks db2 booksStore (Draft.items (currentSale s)) with
          | (db3, booksStore', inl err) => (db3, booksStore', s, inl err)
          | (db3, booksStore', inr _) =>
              let newSale := newSaleOf now saleRow s in
              (db3, booksStore',
               clearCurrentSale (setSales (newSale :: sales s) s),
               inr newSale)
          end
      end
  end.

Definition completeSale (now : Js.Date) (db : DB)
    (booksStore : Books.State) (s : State)
  : DB * Books.State * State * (Js.Exn + Sale.t) :=
  match Draft.items (currentSale s) with
  | [] => (db, booksStore, s, inl (Js.Error noItems))
  | _ :: _ =>
      let s1 := setError None (setLoading true s) in
      match completeSaleTry now db booksStore s1 with
      | (db', booksStore', s2, inl err) =>
          (db', booksStore',
           setLoading false
             (setError (Some (Js.messageOr "Error completing sale" err)) s2),
           inl err)
      | (db', booksStore', s2, inr newSale) =>
          (db', booksStore', setLoading false s2, inr newSale)
      end
  end.

End WithRemote.

End WithNumbers.

End Sales.

(** ** Sequences of cart operations *)

Module Cart.

Section WithNumbers.
Context {C : Number.Carrier} {N : Number.JsNumber}.

Inductive Op :=
| addItem (bookId : string) (quantity : Z)
| removeItem (bookId : string)
| setQuantity (bookId : string) (quantity : Z).

(** One call from the caller's side.  A call of [addItemToCurrentSale] that
    throws is caught by the caller; the store is as the call left it. *)
Definition apply (booksStore : Books.State) (op : Op) (s : Sales.State)
  : Sales.State :=
  match op with
  | addItem bookId quantity =>
      fst (Sales.addItemToCurrentSale booksStore s bookId quantity)
  | removeItem bookId => Sales.removeItemFromCurrentSale s bookId
  | setQuantity bookId quantity => Sales.updateItemQuantity s bookId quantity
  end.

(** A sequence of calls; each one is paired with the catalogue as it is at
    the moment of the call, since the catalogue may change in between. *)
Definition run (ops : list (Books.State * Op)) (s : Sales.State) : Sales.State :=
  fold_left (fun st step => apply (fst step) (snd step) st) ops s.

Definition items (s : Sales.State) : list Sales.Item.t :=
  Sales.Draft.items (Sales.currentSale s).

Definition bookIds (s : Sales.State) : list string :=
  map Sales.Item.bookId (items s).

(** The sum of [unitPrice * quantity] over the lines, in array order. *)
Definition priceTimesQuantity (l : list Sales.Item.t) : number :=
  fold_left (fun sum item =>
               (sum + Sales.Item.price item
                      * Number.ofZ (Sales.Item.quantity item))%num)
            l (Number.ofZ 0).

(** The lines of the draft are those left by some sequence of calls applied
    to an empty draft. *)
Definition built (s : Sales.State) : Prop :=
  exists (ops : list (Books.State * Op)) (s0 : Sales.State),
    items s = items (run ops (Sales.clearCurrentSale s0)).

(** A line whose stored subtotal is its unit price times its quantity. *)
Definition consistent (item : Sales.Item.t) : Prop :=
  Sales.Item.subtotal item
  = (Sales.Item.price item * Number.ofZ (Sales.Item.quantity item))%num.

(** Every [addItem] of the sequence asks for a positive quantity. *)
Definition addsPositive (ops : list (Books.State * Op)) : Prop :=
  Forall (fun step =>
            match snd step with
            | addItem _ quantity => 0 < quantity
            | _ => True
            end) ops.

End WithNumbers.

End Cart.

(** ** A reference database

    An in-memory implementation of [Supabase.Remote] that follows
    [supabase-schema.sql]: the [CHECK] constraints of [books], [sales] and
    [sale_items], the foreign key of [sale_items.book_id], and generated
    identifiers.  [online = false] makes every request fail in transport.
    It is used to run the stores on concrete inputs. *)

Module MemoryDb.

Section WithNumbers.
Context {C : Number.Carrier} {N : Number.JsNumber}.

Record t := {
  bookRows : list Supabase.Book;
  saleRows : list Supabase.Sale;
  saleItemRows : list Supabase.SaleItemInsert;
  online : bool;
  clock : string
}.

Definition transport : Js.RemoteError :=
  {| Js.code := None; Js.message := "TypeError: Failed to fetch";
     Js.isError := false |}.

Definition checkViolation : Js.RemoteError :=
  {| Js.code := Some "23514"; Js.message := "violates check constraint";
     Js.isError := false |}.

Definition foreignKeyViolation : Js.RemoteError :=
  {| Js.code := Some "23503"; Js.message := "violates foreign key constraint";
     Js.isError := false |}.

Definition noRows : Js.RemoteError :=
  {| Js.code := Some "PGRST116";
     Js.message := "JSON object requested, multiple (or no) rows returned";
     Js.isError := false |}.

Definition nonNegative (q : number) : bool := (Number.ofZ 0 <=? q)%num.

Definition rowHasId (i : string) (row : Supabase.Book) : bool :=
  String.eqb (Supabase.id row) i.

Definition insertSale (db : t) (row : Supabase.SaleInsert)
  : t * (Js.RemoteError + Supabase.Sale) :=
  if negb (online db) then (db, inl transport)
  else if negb (nonNegative (Supabase.ins_total row)
                && nonNegative (Supabase.ins_subtotal row)
                && nonNegative (Supabase.ins_tax row)
                && nonNegative (Supabase.ins_discount row))
  then (db, inl checkViolation)
  else
    let stored :=
      {| Supabase.sale_id :=
           "sale-" ++ Js.stringOfZ (Z.of_nat (S (length (saleRows db))));
         Supabase.sale_customer_id := Supabase.ins_customer_id row;
         Supabase.sale_total := Supabase.ins_total row;
         Supabase.sale_subtotal := Supabase.ins_subtotal row;
         Supabase.sale_tax := Supabase.ins_tax row;
         Supabase.sale_discount := Supabase.ins_discount row;
         Supabase.sale_payment_method := Supabase.ins_payment_method row;
         Supabase.sale_status := Supabase.ins_status row;
         Supabase.sale_created_at := Some (clock db);
         Supabase.sale_updated_at := Some (clock db) |} in
    ({| bookRows := bookRows db; saleRows := stored :: saleRows db;
        saleItemRows := saleItemRows db; online := online db;
        clock := clock db |},
     inr stored).

Definition itemAccepted (db : t) (row : Supabase.SaleItemInsert) : option Js.RemoteError :=
  if negb (existsb (rowHasId (Supabase.book_id row)) (bookRows db))
  then Some foreignKeyViolation
  else if negb ((0 <? Supabase.quantity row)
                && nonNegative (Supabase.unit_price row)
                && nonNegative (Supabase.total_price row))
  then Some checkViolation
  else None.

Definition insertSaleItems (db : t) (rows : list Supabase.SaleItemInsert)
  : t * option Js.RemoteError :=
  if negb (online db) then (db, Some transport)
  else
    match List.find (fun r => match r with Some _ => true | None => false end)
                    (map (itemAccepted db) rows) with
    | Some refusal => (db, refusal)
    | None =>
        ({| bookRows := bookRows db; saleRows := saleRows db;
            saleItemRows := (saleItemRows db ++ rows)%list;
            online := online db; clock := clock db |},
         None)
    end.

Definition patched (db : t) (patch : Supabase.BookPatch) (row : Supabase.Book)
  : Supabase.Book :=
  let field {A : Type} (new : option A) (old : A) : A :=
    match new with Some v => v | None => old end in
  {| Supabase.id := Supabase.id row;
     Supabase.title := field (Supabase.set_title patch) (Supabase.title row);
     Supabase.author := field (Supabase.set_author patch) (Supabase.author row);
     Supabase.isbn :=
       match Supabase.set_isbn patch with
       | Some (Some v) => v
       | Some None => ""
       | None => Supabase.isbn row
       end;
     Supabase.genre := field (Supabase.set_genre patch) (Supabase.genre row);
     Supabase.price := field (Supabase.set_price patch) (Supabase.price row);
     Supabase.stock := field (Supabase.set_stock patch) (Supabase.stock row);
     Supabase.description :=
       match Supabase.set_description patch with
       | Some v => Some v
       | None => Supabase.description row
       end;
     Supabase.created_at := Supabase.created_at row;
     Supabase.updated_at := Some (clock db) |}.

Definition updateBookRow (db : t) (i : string) (patch : Supabase.BookPatch)
  : t * (Js.RemoteError + Supabase.Book) :=
  if negb (online db) then (db, inl transport)
  else
    match List.find (rowHasId i) (bookRows db) with
    | None => (db, inl noRows)
    | Some row =>
        let row' := patched db patch row in
        if negb (nonNegative (Supabase.price row') && (0 <=? Supabase.stock row'))
        then (db, inl checkViolation)
        else
          ({| bookRows := Js.mutateFirst (rowHasId i) (fun _ => row') (bookRows db);
              saleRows := saleRows db; saleItemRows := saleItemRows db;
              online := online db; clock := clock db |},
           inr row')
    end.

#[export] Instance remote : Supabase.Remote t :=
  {| Supabase.insertSale := insertSale;
     Supabase.insertSaleItems := insertSaleItems;
     Supabase.updateBookRow := updateBookRow |}.

End WithNumbers.

End MemoryDb.

(** ** What the checkout expects of the database *)

Section Expectations.
Context {C : Number.Carrier} {N : Number.JsNumber}.
Context {DB : Type} {remote : Supabase.Remote DB}.

(** An accepted update of a book answers with the row that was asked for:
    its [id] is the one of the request and its [stock] is the one written. *)
Definition answersWithUpdatedRow : Prop :=
  forall (db db' : DB) (i : string) (patch : Supabase.BookPatch)
         (row : Supabase.Book),
    Supabase.updateBookRow db i patch = (db', inr row) ->
    Supabase.id row = i /\
    (forall v, Supabase.set_stock patch = Some v -> Supabase.stock row = v).

End Expectations.

(** ** Sample data

    [Samples] holds the data over any numbers; [Sample] is [Samples] read at
    the doubles, the numbers of the code. *)

Module Samples.

Section WithNumbers.
Context {C : Number.Carrier} {N : Number.JsNumber}.

Definition book (i : string) (p : number) (n : Z) : Supabase.Book :=
  {| Supabase.id := i; Supabase.title := "Title " ++ i;
     Supabase.author := "Author " ++ i; Supabase.isbn := "isbn-" ++ i;
     Supabase.genre := "Fiction"; Supabase.price := p; Supabase.stock := n;
     Supabase.description := None;
     Supabase.created_at := Some "2024-05-01T10:00:00+00:00";
     Supabase.updated_at := Some "2024-05-01T10:00:00+00:00" |}.

(** B1 at 10.00 and B2 at 12.50, three copies of each. *)
Definition rows : list Supabase.Book :=
  [book "B1" (Number.ofZ 10) 3; book "B2" (Number.decimal 125 1) 3].

Definition db : MemoryDb.t :=
  {| MemoryDb.bookRows := rows; MemoryDb.saleRows := [];
     MemoryDb.saleItemRows := []; MemoryDb.online := true;
     MemoryDb.clock := "2024-06-01T12:00:00+00:00" |}.

Definition offline : MemoryDb.t :=
  {| MemoryDb.bookRows := rows; MemoryDb.saleRows := [];
     MemoryDb.saleItemRows := []; MemoryDb.online := false;
     MemoryDb.clock := "2024-06-01T12:00:00+00:00" |}.

(** The catalogue after [loadBooks]. *)
Definition catalogue : Books.State :=
  {| Books.books := map Books.mapToAppBook rows; Books.loading := false;
     Books.error := None |}.

(** A catalogue page that holds [B1] only. *)
Definition firstPage : Books.State :=
  {| Books.books := [Books.mapToAppBook (book "B1" (Number.ofZ 10) 3)];
     Books.loading := false; Books.error := None |}.

(** The draft after [addItem B1 3] on an empty draft. *)
Definition threeOfB1 : Sales.State :=
  Cart.run [(catalogue, Cart.addItem "B1" 3)] Sales.initial.

(** The draft after [addItem B1 2; addItem B2 1]. *)
Definition twoLines : Sales.State :=
  Cart.run [(catalogue, Cart.addItem "B1" 2); (catalogue, Cart.addItem "B2" 1)]
           Sales.initial.

(** A catalogue of one book, B3, at a given price, with twenty copies. *)
Definition priced (p : number) : Books.State :=
  {| Books.books := [Books.mapToAppBook (book "B3" p 20)];
     Books.loading := false; Books.error := None |}.

(** The draft of one copy of B3 at 25.99. *)
Definition oneAt2599 : Sales.State :=
  Cart.run [(priced (Number.decimal 2599 2), Cart.addItem "B3" 1)] Sales.initial.

(** B3 at 1.00, in the catalogue and in the database, and the draft of seven
    copies of it. *)
Definition atOne : Books.State := priced (Number.ofZ 1).

Definition dbAtOne : MemoryDb.t :=
  {| MemoryDb.bookRows := [book "B3" (Number.ofZ 1) 20]; MemoryDb.saleRows := [];
     MemoryDb.saleItemRows := []; MemoryDb.online := true;
     MemoryDb.clock := "2024-06-01T12:00:00+00:00" |}.

Definition sevenAt1 : Sales.State :=
  Cart.run [(atOne, Cart.addItem "B3" 7)] Sales.initial.

End WithNumbers.

End Samples.

Module Sample.

#[local] Existing Instance Binary64.numbers.

Definition ten : @number Binary64.carrier := Number.ofZ 10.
Definition twelve : @number Binary64.carrier := Number.ofZ 12.
Definition twelveFifty : @number Binary64.carrier := Number.decimal 125 1.

Definition book : string -> @number Binary64.carrier -> Z -> Supabase.Book :=
  Samples.book.
Definition rows : list (@Supabase.Book Binary64.carrier) := Samples.rows.
Definition db : @MemoryDb.t Binary64.carrier := Samples.db.
Definition offline : @MemoryDb.t Binary64.carrier := Samples.offline.
Definition catalogue : @Books.State Binary64.carrier := Samples.catalogue.
Definition firstPage : @Books.State Binary64.carrier := Samples.firstPage.
Definition threeOfB1 : @Sales.State Binary64.carrier := Samples.threeOfB1.
Definition twoLines : @Sales.State Binary64.carrier := Samples.twoLines.
Definition oneAt2599 : @Sales.State Binary64.carrier := Samples.oneAt2599.
Definition atOne : @Books.State Binary64.carrier := Samples.atOne.
Definition dbAtOne : @MemoryDb.t Binary64.carrier := Samples.dbAtOne.
Definition sevenAt1 : @Sales.State Binary64.carrier := Samples.sevenAt1.

Definition now : Js.Date :=
  {| Js.getFullYear := 2024; Js.getMonth := 5; Js.getDate := 1;
     Js.toTimeString := "12:00:00 GMT+0000 (Coordinated Universal Time)" |}.

End Sample.

(** ** A database that stops answering

    The reference database behind a connection that carries [budget] more
    requests and then fails in transport, as when the network drops in the
    middle of a checkout. *)

Module FlakyDb.

Section WithNumbers.
Context {C : Number.Carrier} {N : Number.JsNumber}.

Record t := {
  inner : MemoryDb.t;
  budget : nat
}.

Definition insertSale (db : t) (row : Supabase.SaleInsert)
  : t * (Js.RemoteError + Supabase.Sale) :=
  match budget db with
  | O => (db, inl MemoryDb.transport)
  | S n =>
      let (inner', answer) := MemoryDb.insertSale (inner db) row in
      ({| inner := inner'; budget := n |}, answer)
  end.

Definition insertSaleItems (db : t) (rows : list Supabase.SaleItemInsert)
  : t * option Js.RemoteError :=
  match budget db with
  | O => (db, Some MemoryDb.transport)
  | S n =>
      let (inner', answer) := MemoryDb.insertSaleItems (inner db) rows in
      ({| inner := inner'; budget := n |}, answer)
  end.

Definition updateBookRow (db : t) (i : string) (patch : Supabase.BookPatch)
  : t * (Js.RemoteError + Supabase.Book) :=
  match budget db with
  | O => (db, inl MemoryDb.transport)
  | S n =>
      let (inner', answer) := MemoryDb.updateBookRow (inner db) i patch in
      ({| inner := inner'; budget := n |}, answer)
  end.

#[export] Instance remote : Supabase.Remote t :=
  {| Supabase.insertSale := insertSale;
     Supabase.insertSaleItems := insertSaleItems;
     Supabase.updateBookRow := updateBookRow |}.

End WithNumbers.

(** The sample database behind a connection good for [n] requests. *)
Definition sample (n : nat) : t := {| inner := Sample.db; budget := n |}.

End FlakyDb.

(** ** More JavaScript primitives: sorting, sets and plain objects *)

Module JsArray.

(** [a.sort(compareFn)], where [compareFn a b] is given by its sign: [Lt]
    puts [a] first, [Gt] puts [b] first and [Eq] keeps the order of the
    array, the sort being stable.  For a comparator that orders its
    arguments consistently, as a difference of numbers does, every stable
    sort returns the same array; insertion from the right is one. *)
Fixpoint insert {A : Type} (compareFn : A -> A -> comparison) (x : A) (l : list A)
  : list A :=
  match l with
  | [] => [x]
  | y :: r =>
      match compareFn x y with
      | Gt => y :: insert compareFn x r
      | _ => x :: y :: r
      end
  end.

Definition sort {A : Type} (compareFn : A -> A -> comparison) (l : list A) : list A :=
  fold_right (insert compareFn) [] l.

(** The sign of a number returned by a comparator. *)
Definition signZ (n : Z) : comparison := n ?= 0.
Definition signQ (q : Q) : comparison := (q ?= 0)%Q.

(** [a.slice(0, n)] *)
Definition slice0 {A : Type} (n : nat) (l : list A) : list A := firstn n l.

(** [[...new Set(a)]]: the elements in the order of their first occurrence. *)
Definition uniq (l : list string) : list string :=
  fold_left (fun seen x =>
               if existsb (String.eqb x) seen then seen else (seen ++ [x])%list)
            l [].

(** [a.includes(x)] and [a.indexOf(x)] on an array of strings. *)
Definition includes (x : string) (l : list string) : bool := existsb (String.eqb x) l.
Definition indexOf (x : string) (l : list string) : option nat :=
  Js.findIndex (String.eqb x) l.

End JsArray.

(** A plain object used as a dictionary: [const o = {}], [o[k]], [o[k] = v],
    [Object.entries(o)]. *)

Module JsObject.

(** The own properties, in the order of their creation. *)
Definition t (V : Type) : Type := list (string * V).

Definition hasKey {V : Type} (k : string) (kv : string * V) : bool :=
  String.eqb (fst kv) k.

Definition getOwn {V : Type} (k : string) (o : t V) : option V :=
  option_map snd (find (hasKey k) o).

(** [o[k] = v]: an existing property keeps its place. *)
Definition set {V : Type} (k : string) (v : V) (o : t V) : t V :=
  match find (hasKey k) o with
  | Some _ => Js.mutateFirst (hasKey k) (fun _ => (k, v)) o
  | None => (o ++ [(k, v)])%list
  end.

(** The names that [{}] inherits from [Object.prototype]: for these, [o[k]]
    is truthy although [o] has no such property of its own. *)
Definition inherited (k : string) : bool :=
  existsb (String.eqb k)
    ["constructor"; "__defineGetter__"; "__defineSetter__"; "hasOwnProperty";
     "__lookupGetter__"; "__lookupSetter__"; "isPrototypeOf";
     "propertyIsEnumerable"; "toString"; "valueOf"; "__proto__";
     "toLocaleString"].

(** An array index: a canonical numeric string below 2^32 - 1. *)
Definition arrayIndex (k : string) : option N :=
  match NilZero.uint_of_string k with
  | Some u =>
      let n := N.of_uint u in
      if (String.eqb (NilZero.string_of_uint (N.to_uint n)) k
          && (n <=? 4294967294)%N)%bool
      then Some n else None
  | None => None
  end.

Definition isIndex {V : Type} (kv : string * V) : bool :=
  match arrayIndex (fst kv) with Some _ => true | None => false end.

Definition compareIndex {V : Type} (a b : string * V) : comparison :=
  match arrayIndex (fst a), arrayIndex (fst b) with
  | Some m, Some n => (m ?= n)%N
  | _, _ => Eq
  end.

(** [Object.entries(o)]: the array indices in ascending order, then the
    other names in the order of their creation. *)
Definition entries {V : Type} (o : t V) : list (string * V) :=
  (JsArray.sort compareIndex (filter isIndex o)
   ++ filter (fun kv => negb (isIndex kv)) o)%list.

End JsObject.

(** ** [src/stores/sales.ts]: derived values and queries *)

Module SalesViews.

Section WithNumbers.
Context {C : Number.Carrier} {N : Number.JsNumber}.

Definition totalSales (s : Sales.State) : nat := length (Sales.sales s).

Definition totalRevenue (s : Sales.State) : number :=
  fold_left (fun sum sale => (sum + Sales.Sale.total sale)%num) (Sales.sales s)
            (Number.ofZ 0).

Definition hasId (id : string) (sale : Sales.Sale.t) : bool :=
  String.eqb (Sales.Sale.id sale) id.

Definition getSaleById (s : Sales.State) (id : string) : option Sales.Sale.t :=
  find (hasId id) (Sales.sales s).

(** [sale.date >= startDate && sale.date <= endDate]: strings are compared
    character by character, by character code. *)
Definition getSalesByDateRange (s : Sales.State) (startDate endDate : string)
  : list Sales.Sale.t :=
  filter (fun sale => ((startDate <=? Sales.Sale.date sale)%string
                       && (Sales.Sale.date sale <=? endDate)%string)%bool)
         (Sales.sales s).

Definition getRevenueByDateRange (s : Sales.State) (startDate endDate : string)
  : number :=
  fold_left (fun sum sale => (sum + Sales.Sale.total sale)%num)
            (getSalesByDateRange s startDate endDate) (Number.ofZ 0).

(** One step of the [forEach] of [salesByDate].  When [sale.date] is a name
    inherited from [Object.prototype], [grouped[sale.date]] is truthy and has
    no [push]: the call throws a [TypeError], here [None]. *)
Definition groupSale (grouped : option (JsObject.t (list Sales.Sale.t)))
    (sale : Sales.Sale.t) : option (JsObject.t (list Sales.Sale.t)) :=
  match grouped with
  | None => None
  | Some o =>
      let date := Sales.Sale.date sale in
      match JsObject.getOwn date o with
      | Some group => Some (JsObject.set date (group ++ [sale])%list o)
      | None =>
          if JsObject.inherited date then None
          else Some (JsObject.set date [sale] o)
      end
  end.

Definition salesByDate (s : Sales.State) : option (JsObject.t (list Sales.Sale.t)) :=
  fold_left groupSale (Sales.sales s) (Some []).

(** The values of the object [bookSales] of [topSellingBooks]. *)
Record BookSales := {
  title : string;
  author : string;
  quantity : Z;
  revenue : number
}.

End WithNumbers.

(** One element of the array returned by [topSellingBooks]. *)
Module Top.
Section WithNumbers.
Context {C : Number.Carrier} {N : Number.JsNumber}.
Record t := {
  bookId : string;
  title : string;
  author : string;
  quantity : Z;
  revenue : number
}.
End WithNumbers.
End Top.

Section WithNumbers.
Context {C : Number.Carrier} {N : Number.JsNumber}.

(** One step of the inner [forEach] of [topSellingBooks].  When
    [item.bookId] is a name inherited from [Object.prototype],
    [bookSales[item.bookId]] is truthy without being a property of
    [bookSales]: the two additions land on the inherited value and
    [bookSales] gets no property. *)
Definition countItem (bookSales : JsObject.t BookSales) (item : Sales.Item.t)
  : JsObject.t BookSales :=
  let bookId := Sales.Item.bookId item in
  match JsObject.getOwn bookId bookSales with
  | Some data =>
      JsObject.set bookId
        {| title := title data; author := author data;
           quantity := quantity data + Sales.Item.quantity item;
           revenue := (revenue data + Sales.Item.subtotal item)%num |}
        bookSales
  | None =>
      if JsObject.inherited bookId then bookSales
      else
        JsObject.set bookId
          {| title := Sales.Item.title item; author := Sales.Item.author item;
             quantity := 0 + Sales.Item.quantity item;
             revenue := (Number.ofZ 0 + Sales.Item.subtotal item)%num |}
          bookSales
  end.

Definition bookSalesOf (s : Sales.State) : JsObject.t BookSales :=
  fold_left (fun bookSales sale => fold_left countItem (Sales.Sale.items sale) bookSales)
            (Sales.sales s) [].

Definition toTop (entry : string * BookSales) : Top.t :=
  {| Top.bookId := fst entry; Top.title := title (snd entry);
     Top.author := author (snd entry); Top.quantity := quantity (snd entry);
     Top.revenue := revenue (snd entry) |}.

Definition byQuantityDescending (a b : Top.t) : comparison :=
  JsArray.signZ (Top.quantity b - Top.quantity a).

Definition topSellingBooks (s : Sales.State) : list Top.t :=
  JsArray.slice0 10
    (JsArray.sort byQuantityDescending (map toTop (JsObject.entries (bookSalesOf s)))).

(** Every line sold, in the order in which [topSellingBooks] visits them. *)
Definition linesSold (s : Sales.State) : list Sales.Item.t :=
  flat_map Sales.Sale.items (Sales.sales s).

(** The number of copies of a book over a list of lines. *)
Definition copiesOf (bookId : string) (l : list Sales.Item.t) : Z :=
  fold_left (fun n item => n + Sales.Item.quantity item)
            (filter (Sales.forBook bookId) l) 0.

(** [data] is what the lines of [l] for the book [bookId] add up to: there is
    such a line, the title and author are those of the first one, the
    quantity and the revenue are the sums over all of them, in order. *)
Definition sumsUp (bookId : string) (l : list Sales.Item.t) (data : BookSales)
  : Prop :=
  exists first rest,
    filter (Sales.forBook bookId) l = first :: rest
    /\ title data = Sales.Item.title first
    /\ author data = Sales.Item.author first
    /\ quantity data = copiesOf bookId l
    /\ revenue data
       = fold_left (fun sum item => (sum + Sales.Item.subtotal item)%num)
                   (first :: rest) (Number.ofZ 0).

(** The object [bookSales] after the lines [seen]: one property per book of
    [seen] whose identifier is not an inherited name, holding what the lines
    of that book add up to. *)
Definition tallies (seen : list Sales.Item.t) (bookSales : JsObject.t BookSales)
  : Prop :=
  NoDup (map fst bookSales)
  /\ (forall k data, In (k, data) bookSales ->
        JsObject.inherited k = false /\ sumsUp k seen data)
  /\ (forall item, In item seen ->
        JsObject.inherited (Sales.Item.bookId item) = false ->
        In (Sales.Item.bookId item) (map fst bookSales)).

End WithNumbers.

End SalesViews.

(** ** A sample list of sales *)

Module Ledger.

#[local] Existing Instance Binary64.numbers.

Definition line (bookId : string) (price : Z) (quantity : Z)
  : @Sales.Item.t Binary64.carrier :=
  {| Sales.Item.bookId := bookId; Sales.Item.title := "Title " ++ bookId;
     Sales.Item.author := "Author " ++ bookId; Sales.Item.price := Number.ofZ price;
     Sales.Item.quantity := quantity;
     Sales.Item.subtotal := (Number.ofZ price * Number.ofZ quantity)%num |}.

Definition sale (id date : string) (lines : list Sales.Item.t) (total : Z)
  : @Sales.Sale.t Binary64.carrier :=
  {| Sales.Sale.id := id; Sales.Sale.customerId := None;
     Sales.Sale.customerName := None; Sales.Sale.total := Number.ofZ total;
     Sales.Sale.subtotal := Number.ofZ total; Sales.Sale.tax := Number.ofZ 0;
     Sales.Sale.discount := Number.ofZ 0;
     Sales.Sale.paymentMethod := Sales.cash; Sales.Sale.status := "completed";
     Sales.Sale.items := lines; Sales.Sale.time := "12:00:00";
     Sales.Sale.date := date; Sales.Sale.notes := None;
     Sales.Sale.created_at := None; Sales.Sale.updated_at := None |}.

(** Three sales on two days: B1 is sold three times, B2 four times, and a
    book whose identifier is the array index 7 once. *)
Definition state : @Sales.State Binary64.carrier :=
  {| Sales.sales :=
       [sale "s3" "2024-06-02" [line "B1" 10 1; line "B2" 5 4] 30;
        sale "s2" "2024-06-01" [line "7" 8 1] 8;
        sale "s1" "2024-06-01" [line "B1" 10 2] 20];
     Sales.loading := false; Sales.error := None;
     Sales.currentSale := Sales.emptyDraft |}.

End Ledger.

(** ** [src/stores/books.ts]: derived values, filters, loading, adding and
    deleting *)

Module Inventory.

Section WithNumbers.
Context {C : Number.Carrier} {N : Number.JsNumber}.

(** The requests of the books store besides the update of a row. *)
Class Table (DB : Type) := {
  (** [from('books').select(...).order('created_at', ...).range(from, to)];
      [data] may be [null] *)
  selectRange : DB -> Z -> Z -> DB * (Js.RemoteError + option (list Supabase.Book));
  (** [from('books').select(...).or(...ilike...).limit(limit).order('title')] *)
  searchRows : DB -> string -> Z
               -> DB * (Js.RemoteError + option (list Supabase.Book));
  (** [from('books').insert([row]).select().single()] *)
  insertRow : DB -> Supabase.BookPatch -> DB * (Js.RemoteError + Supabase.Book);
  (** [from('books').delete().eq('id', id)] *)
  deleteRow : DB -> string -> DB * option Js.RemoteError
}.

(** *** Derived values *)

Definition totalBooks (s : Books.State) : Z :=
  fold_left (fun sum book => sum + Books.stock book) (Books.books s) 0.

Definition totalValue (s : Books.State) : number :=
  fold_left (fun sum book =>
               (sum + Books.price book * Number.ofZ (Books.stock book))%num)
            (Books.books s) (Number.ofZ 0).

Definition lowStockBooks (s : Books.State) : list Books.AppBook :=
  filter (fun book => Books.stock book <=? 2) (Books.books s).

Definition outOfStockBooks (s : Books.State) : list Books.AppBook :=
  filter (fun book => Books.stock book =? 0) (Books.books s).

Definition genres (s : Books.State) : list string :=
  JsArray.uniq (map Books.genre (Books.books s)).

(** *** Filters *)

(** The refs [searchQuery], [selectedGenre] and [selectedCondition]. *)
Record Filters := {
  searchQuery : string;
  selectedGenre : string;
  selectedCondition : string
}.

Definition setSearchQuery (f : Filters) (query : string) : Filters :=
  {| searchQuery := query; selectedGenre := selectedGenre f;
     selectedCondition := selectedCondition f |}.

Definition setGenreFilter (f : Filters) (genre : string) : Filters :=
  {| searchQuery := searchQuery f; selectedGenre := genre;
     selectedCondition := selectedCondition f |}.

Definition setConditionFilter (f : Filters) (condition : string) : Filters :=
  {| searchQuery := searchQuery f; selectedGenre := selectedGenre f;
     selectedCondition := condition |}.

Definition clearFilters (f : Filters) : Filters :=
  {| searchQuery := ""; selectedGenre := ""; selectedCondition := "" |}.

(** A non-empty string is truthy. *)
Definition truthy (s : string) : bool := negb (String.eqb s "").

Definition conditionName (c : Books.Condition) : string :=
  match c with
  | Books.New => "new"
  | Books.Used => "used"
  | Books.Damaged => "damaged"
  end.

(** [book.condition === selected] *)
Definition conditionIs (selected : string) (book : Books.AppBook) : bool :=
  match Books.condition book with
  | Some c => String.eqb (conditionName c) selected
  | None => false
  end.

Section Filtered.
(** [String.prototype.toLowerCase], which follows the Unicode case mapping,
    is not reproduced: it is taken as it is. *)
Variable toLowerCase : string -> string.

(** [book.isbn?.toLowerCase()]: the interface declares [isbn] a string, and
    so does the model. *)
Definition matches (query : string) (book : Books.AppBook) : bool :=
  (Js.includes query (toLowerCase (Books.title book))
   || Js.includes query (toLowerCase (Books.author book))
   || Js.includes query (toLowerCase (Books.isbn book))
   || Js.includes query (toLowerCase (Books.genre book)))%bool.

Definition filteredBooks (f : Filters) (s : Books.State) : list Books.AppBook :=
  let filtered := Books.books s in
  let filtered :=
    if truthy (searchQuery f)
    then filter (matches (toLowerCase (searchQuery f))) filtered
    else filtered in
  let filtered :=
    if truthy (selectedGenre f)
    then filter (fun book => String.eqb (Books.genre book) (selectedGenre f)) filtered
    else filtered in
  let filtered :=
    if truthy (selectedCondition f)
    then filter (conditionIs (selectedCondition f)) filtered
    else filtered in
  filtered.

End Filtered.

(** *** The edit form *)

(** [{ ...book }]: the copy that the edit form of the inventory hands to
    [updateBook]. *)
Definition spread (book : Books.AppBook) : Books.Updates :=
  {| Books.u_id := Some (Books.id book);
     Books.u_title := Some (Books.title book);
     Books.u_author := Some (Books.author book);
     Books.u_isbn := Some (Books.isbn book);
     Books.u_genre := Some (Books.genre book);
     Books.u_price := Some (Books.price book);
     Books.u_stock := Some (Books.stock book);
     Books.u_description := Books.description book;
     Books.u_created_at := Books.created_at book;
     Books.u_updated_at := Books.updated_at book;
     Books.u_cost := Books.cost book;
     Books.u_quantity := Some (Books.quantity book);
     Books.u_publishedYear := Books.publishedYear book;
     Books.u_condition := Books.condition book;
     Books.u_location := Books.location book;
     Books.u_dateAdded := Books.dateAdded book |}.

(** *** Loading, adding and deleting *)

Definition addFriendly (err : Js.Exn) : string :=
  match err with
  | Js.Thrown e =>
      if match Js.code e with Some c => String.eqb c "23505" | None => false end
      then "El ISBN ya existe. Por favor ingrese un ISBN único o deje el campo vacío."
      else "Error al agregar libro"
  | Js.Error _ => "Error al agregar libro"
  end.

Definition deleteFriendly (err : Js.Exn) : string :=
  match err with
  | Js.Thrown e =>
      if match Js.code e with Some c => String.eqb c "23503" | None => false end
      then "No se puede eliminar el libro porque tiene ventas asociadas."
      else if (match Js.code e with Some c => String.eqb c "42501" | None => false end
               || Js.includes "row-level security" (Js.toLowerCase (Js.message e))
               || Js.includes "permission denied" (Js.toLowerCase (Js.message e)))%bool
      then "No tienes permisos para eliminar libros."
      else "Error al eliminar libro"
  | Js.Error msg =>
      if (Js.includes "row-level security" (Js.toLowerCase msg)
          || Js.includes "permission denied" (Js.toLowerCase msg))%bool
      then "No tienes permisos para eliminar libros."
      else "Error al eliminar libro"
  end.

(** [data?.map(mapToAppBook) || []] *)
Definition mapped (data : option (list Supabase.Book)) : list Books.AppBook :=
  match data with
  | Some rows => map Books.mapToAppBook rows
  | None => []
  end.

Section WithTable.
Context {DB : Type} {table : Table DB}.

(** [loadBooks(limit = 1000, offset = 0)]; an error is recorded, not thrown. *)
Definition loadBooks (db : DB) (s : Books.State) (limit offset : Z)
  : DB * Books.State :=
  let s1 := Books.setError None (Books.setLoading true s) in
  match selectRange db offset (offset + limit - 1) with
  | (db', inl supabaseError) =>
      (db',
       Books.setLoading false
         (Books.setError
            (Some (Js.messageOr "Error al cargar libros" (Js.Thrown supabaseError)))
            s1))
  | (db', inr data) =>
      let s2 :=
        if offset =? 0 then Books.setBooks (mapped data) s1
        else Books.setBooks (Books.books s1 ++ mapped data)%list s1 in
      (db', Books.setLoading false s2)
  end.

Definition loadMoreBooks (db : DB) (s : Books.State) : DB * Books.State :=
  if negb (Books.loading s)
  then loadBooks db s 100 (Z.of_nat (length (Books.books s)))
  else (db, s).

(** [searchBooks(query, limit = 50)] returns the rows found, or [[]] after
    recording an error. *)
Definition searchBooks (db : DB) (s : Books.State) (query : string) (limit : Z)
  : DB * Books.State * list Books.AppBook :=
  let s1 := Books.setError None (Books.setLoading true s) in
  match searchRows db query limit with
  | (db', inl supabaseError) =>
      (db',
       Books.setLoading false
         (Books.setError
            (Some (Js.messageOr "Error al buscar libros" (Js.Thrown supabaseError)))
            s1),
       [])
  | (db', inr data) => (db', Books.setLoading false s1, mapped data)
  end.

Definition addBook (db : DB) (s : Books.State) (book : Books.Updates)
  : DB * Books.State * (Js.Exn + Books.AppBook) :=
  let s1 := Books.setError None (Books.setLoading true s) in
  let supabaseBook := Books.mapToSupabaseBook book in
  match insertRow db supabaseBook with
  | (db', inl supabaseError) =>
      let friendly := addFriendly (Js.Thrown supabaseError) in
      (db', Books.setLoading false (Books.setError (Some friendly) s1),
       inl (Js.Error friendly))
  | (db', inr data) =>
      let newBook := Books.mapToAppBook data in
      (db', Books.setLoading false (Books.setBooks (newBook :: Books.books s1) s1),
       inr newBook)
  end.

Definition deleteBook (db : DB) (s : Books.State) (i : string)
  : DB * Books.State * (Js.Exn + unit) :=
  let s1 := Books.setError None (Books.setLoading true s) in
  match deleteRow db i with
  | (db', Some supabaseError) =>
      let friendly := deleteFriendly (Js.Thrown supabaseError) in
      (db', Books.setLoading false (Books.setError (Some friendly) s1),
       inl (Js.Error friendly))
  | (db', None) =>
      let s2 :=
        match Js.findIndex (Books.hasId i) (Books.books s1) with
        | Some index => Books.setBooks (Js.splice1 index (Books.books s1)) s1
        | None => s1
        end in
      (db', Books.setLoading false s2, inr tt)
  end.

End WithTable.

(** A book as [mapToAppBook] makes it from a row of the database. *)
Definition fromRow (book : Books.AppBook) : Prop :=
  exists row, book = Books.mapToAppBook row.

End WithNumbers.

End Inventory.

(** The reference database as a table of books: rows are kept newest
    first; [isbn] is unique, [title], [author], [genre] and [price] are
    required, and a book that a sold line refers to cannot be deleted (the
    foreign key of [context.sql]). *)

Module MemoryTable.

Section WithNumbers.
Context {C : Number.Carrier} {N : Number.JsNumber}.

Definition selectRange (db : MemoryDb.t) (from to : Z)
  : MemoryDb.t * (Js.RemoteError + option (list Supabase.Book)) :=
  if negb (MemoryDb.online db) then (db, inl MemoryDb.transport)
  else (db, inr (Some (firstn (Z.to_nat (to - from + 1))
                              (skipn (Z.to_nat from) (MemoryDb.bookRows db))))).

Definition rowMatches (query : string) (row : Supabase.Book) : bool :=
  (Js.includes (Js.toLowerCase query) (Js.toLowerCase (Supabase.title row))
   || Js.includes (Js.toLowerCase query) (Js.toLowerCase (Supabase.author row))
   || Js.includes (Js.toLowerCase query) (Js.toLowerCase (Supabase.isbn row))
   || Js.includes (Js.toLowerCase query) (Js.toLowerCase (Supabase.genre row)))%bool.

Definition searchRows (db : MemoryDb.t) (query : string) (limit : Z)
  : MemoryDb.t * (Js.RemoteError + option (list Supabase.Book)) :=
  if negb (MemoryDb.online db) then (db, inl MemoryDb.transport)
  else (db, inr (Some (firstn (Z.to_nat limit)
                              (filter (rowMatches query) (MemoryDb.bookRows db))))).

Definition uniqueViolation : Js.RemoteError :=
  {| Js.code := Some "23505";
     Js.message := "duplicate key value violates unique constraint";
     Js.isError := false |}.

Definition notNullViolation : Js.RemoteError :=
  {| Js.code := Some "23502"; Js.message := "violates not-null constraint";
     Js.isError := false |}.

Definition insertRow (db : MemoryDb.t) (patch : Supabase.BookPatch)
  : MemoryDb.t * (Js.RemoteError + Supabase.Book) :=
  if negb (MemoryDb.online db) then (db, inl MemoryDb.transport)
  else
    match Supabase.set_title patch, Supabase.set_author patch,
          Supabase.set_genre patch, Supabase.set_price patch with
    | Some title, Some author, Some genre, Some price =>
        let isbn := match Supabase.set_isbn patch with
                    | Some (Some v) => Some v
                    | _ => None
                    end in
        let stock := match Supabase.set_stock patch with Some n => n | None => 0 end in
        if match isbn with
           | Some v => existsb (fun row => String.eqb (Supabase.isbn row) v)
                               (MemoryDb.bookRows db)
           | None => false
           end
        then (db, inl uniqueViolation)
        else if negb (MemoryDb.nonNegative price && (0 <=? stock))
        then (db, inl MemoryDb.checkViolation)
        else
          let row :=
            {| Supabase.id :=
                 "book-" ++ Js.stringOfZ (Z.of_nat (S (length (MemoryDb.bookRows db))));
               Supabase.title := title; Supabase.author := author;
               Supabase.isbn := match isbn with Some v => v | None => "" end;
               Supabase.genre := genre; Supabase.price := price;
               Supabase.stock := stock;
               Supabase.description := Supabase.set_description patch;
               Supabase.created_at := Some (MemoryDb.clock db);
               Supabase.updated_at := Some (MemoryDb.clock db) |} in
          ({| MemoryDb.bookRows := row :: MemoryDb.bookRows db;
              MemoryDb.saleRows := MemoryDb.saleRows db;
              MemoryDb.saleItemRows := MemoryDb.saleItemRows db;
              MemoryDb.online := MemoryDb.online db;
              MemoryDb.clock := MemoryDb.clock db |},
           inr row)
    | _, _, _, _ => (db, inl notNullViolation)
    end.

Definition deleteRow (db : MemoryDb.t) (i : string)
  : MemoryDb.t * option Js.RemoteError :=
  if negb (MemoryDb.online db) then (db, Some MemoryDb.transport)
  else if existsb (fun item => String.eqb (Supabase.book_id item) i)
                  (MemoryDb.saleItemRows db)
  then (db, Some MemoryDb.foreignKeyViolation)
  else
    ({| MemoryDb.bookRows :=
          filter (fun row => negb (MemoryDb.rowHasId i row)) (MemoryDb.bookRows db);
        MemoryDb.saleRows := MemoryDb.saleRows db;
        MemoryDb.saleItemRows := MemoryDb.saleItemRows db;
        MemoryDb.online := MemoryDb.online db;
        MemoryDb.clock := MemoryDb.clock db |},
     None).

#[export] Instance table : Inventory.Table MemoryDb.t :=
  {| Inventory.selectRange := selectRange;
     Inventory.searchRows := searchRows;
     Inventory.insertRow := insertRow;
     Inventory.deleteRow := deleteRow |}.

End WithNumbers.

End MemoryTable.

(** ** The customers store (second half of [src/stores/books.ts]):
    purchases, preferred genres, ranking *)

Module Customers.

(** [interface Customer] of [src/lib/supabase.ts] *)
Record Customer := {
  row_id : string;
  row_name : string;
  row_email : string;
  row_phone : string;
  row_address : string;
  row_created_at : option string;
  row_updated_at : option string
}.

(** [AppCustomer extends Customer] *)
Record AppCustomer := {
  id : string;
  name : string;
  email : string;
  phone : string;
  address : string;
  created_at : option string;
  updated_at : option string;
  dateJoined : option string;
  totalPurchases : option Z;
  totalSpent : option Q;
  lastPurchase : option string;
  notes : option string;
  isRegular : option bool;
  preferredGenres : option (list string)
}.

Definition mapToAppCustomer (customer : Customer) : AppCustomer :=
  {| id := row_id customer; name := row_name customer;
     email := row_email customer; phone := row_phone customer;
     address := row_address customer;
     created_at := row_created_at customer;
     updated_at := row_updated_at customer;
     dateJoined := option_map (Js.splitHead "T"%char) (row_created_at customer);
     totalPurchases := Some 0;
     totalSpent := Some 0%Q;
     lastPurchase := None;
     notes := None;
     isRegular := Some false;
     preferredGenres := Some [] |}.

(** [x || 0] on an optional number. *)
Definition orZero (x : option Z) : Z :=
  match x with Some n => n | None => 0 end.

Definition orZeroQ (x : option Q) : Q :=
  match x with
  | Some q => if Qeq_bool q 0 then 0%Q else q
  | None => 0%Q
  end.

Definition hasId (i : string) (customer : AppCustomer) : bool :=
  String.eqb (id customer) i.

Definition getCustomerById (customers : list AppCustomer) (i : string)
  : option AppCustomer :=
  find (hasId i) customers.

Definition totalCustomers (customers : list AppCustomer) : nat := length customers.

(** [customer.isRegular] as a condition. *)
Definition regular (customer : AppCustomer) : bool :=
  match isRegular customer with Some b => b | None => false end.

Definition regularCustomers (customers : list AppCustomer) : list AppCustomer :=
  filter regular customers.

(** The assignments of [recordPurchase] on the customer found; [nowIso] is
    [new Date().toISOString()]. *)
Definition purchased (amount : Q) (nowIso : string) (customer : AppCustomer)
  : AppCustomer :=
  let purchases := orZero (totalPurchases customer) + 1 in
  {| id := id customer; name := name customer; email := email customer;
     phone := phone customer; address := address customer;
     created_at := created_at customer; updated_at := updated_at customer;
     dateJoined := dateJoined customer;
     totalPurchases := Some purchases;
     totalSpent := Some (orZeroQ (totalSpent customer) + amount)%Q;
     lastPurchase := Some (Js.splitHead "T"%char nowIso);
     notes := notes customer;
     isRegular := if 3 <=? orZero (Some purchases) then Some true
                  else isRegular customer;
     preferredGenres := preferredGenres customer |}.

Definition recordPurchase (customers : list AppCustomer) (customerId : string)
    (amount : Q) (nowIso : string) : list AppCustomer :=
  match find (hasId customerId) customers with
  | Some _ => Js.mutateFirst (hasId customerId) (purchased amount nowIso) customers
  | None => customers
  end.

Definition withGenres (genres : option (list string)) (customer : AppCustomer)
  : AppCustomer :=
  {| id := id customer; name := name customer; email := email customer;
     phone := phone customer; address := address customer;
     created_at := created_at customer; updated_at := updated_at customer;
     dateJoined := dateJoined customer;
     totalPurchases := totalPurchases customer;
     totalSpent := totalSpent customer;
     lastPurchase := lastPurchase customer;
     notes := notes customer;
     isRegular := isRegular customer;
     preferredGenres := genres |}.

Definition addPreferredGenre (customers : list AppCustomer) (customerId genre : string)
  : list AppCustomer :=
  match find (hasId customerId) customers with
  | Some _ =>
      Js.mutateFirst (hasId customerId)
        (fun customer =>
           let genres := match preferredGenres customer with
                         | Some l => l
                         | None => []
                         end in
           if JsArray.includes genre genres then withGenres (Some genres) customer
           else withGenres (Some (genres ++ [genre])%list) customer)
        customers
  | None => customers
  end.

Definition removePreferredGenre (customers : list AppCustomer)
    (customerId genre : string) : list AppCustomer :=
  match find (hasId customerId) customers with
  | Some _ =>
      Js.mutateFirst (hasId customerId)
        (fun customer =>
           match preferredGenres customer with
           | Some genres =>
               match JsArray.indexOf genre genres with
               | Some index => withGenres (Some (Js.splice1 index genres)) customer
               | None => customer
               end
           | None => customer
           end)
        customers
  | None => customers
  end.

Definition bySpentDescending (a b : AppCustomer) : comparison :=
  JsArray.signQ (orZeroQ (totalSpent b) - orZeroQ (totalSpent a)).

Definition topCustomers (customers : list AppCustomer) : list AppCustomer :=
  JsArray.slice0 10 (JsArray.sort bySpentDescending customers).

(** What [getCustomerPurchaseHistory] returns. *)
Definition getCustomerPurchaseHistory (customers : list AppCustomer) (i : string)
  : option (option Z * option Q * option string) :=
  match getCustomerById customers i with
  | Some customer =>
      Some (totalPurchases customer, totalSpent customer, lastPurchase customer)
  | None => None
  end.

(** A sequence of purchases of one customer: amounts and times. *)
Definition recordAll (customers : list AppCustomer) (customerId : string)
    (purchases : list (Q * string)) : list AppCustomer :=
  fold_left (fun cs p => recordPurchase cs customerId (fst p) (snd p))
            purchases customers.

Definition sample : list AppCustomer :=
  map mapToAppCustomer
      [{| row_id := "C1"; row_name := "Ana"; row_email := "ana@example.org";
          row_phone := "555-0101"; row_address := "Calle 1";
          row_created_at := Some "2024-01-05T09:00:00+00:00";
          row_updated_at := None |};
       {| row_id := "C2"; row_name := "Luis"; row_email := "luis@example.org";
          row_phone := "555-0102"; row_address := "Calle 2";
          row_created_at := Some "2024-02-07T09:00:00+00:00";
          row_updated_at := None |}].

End Customers.

(** ** The sale screen

    The script of the sale component ([src/components/NoAccess.vue], the
    [<script setup>] block that starts at line 1266, and the inline handlers
    of its template): the caller of the draft and of [completeSale]. *)

Module SaleScreen.

Section WithNumbers.
Context {C : Number.Carrier} {N : Number.JsNumber}.

(** The refs of the component that the modelled functions touch; [alerts]
    collects the messages passed to [alert], latest first. *)
Record Form := {
  searchQuery : string;
  selectedCustomer : string;
  paymentMethod : Sales.PaymentMethod;
  amountPaid : number;
  showReceiptModal : bool;
  lastSaleId : string;
  lastAmountPaid : number;
  alerts : list string
}.

Definition initial : Form :=
  {| searchQuery := ""; selectedCustomer := ""; paymentMethod := Sales.cash;
     amountPaid := Number.ofZ 0; showReceiptModal := false; lastSaleId := "";
     lastAmountPaid := Number.ofZ 0; alerts := [] |}.

Definition subtotal (s : Sales.State) : number := Sales.currentSaleSubtotal s.
Definition tax (s : Sales.State) : number := (subtotal s * Number.decimal 8 2)%num.
Definition total (s : Sales.State) : number := (subtotal s + tax s)%num.

Definition change (f : Form) (s : Sales.State) : number :=
  Number.max (Number.ofZ 0) (amountPaid f - total s)%num.

Definition canCompleteSale (f : Form) (s : Sales.State) : bool :=
  ((0 <? length (Sales.Draft.items (Sales.currentSale s)))%nat
   && (total s <=? amountPaid f)%num)%bool.

Definition setAmountPaid (amount : number) (f : Form) : Form :=
  {| searchQuery := searchQuery f; selectedCustomer := selectedCustomer f;
     paymentMethod := paymentMethod f; amountPaid := amount;
     showReceiptModal := showReceiptModal f; lastSaleId := lastSaleId f;
     lastAmountPaid := lastAmountPaid f; alerts := alerts f |}.

Definition alert (msg : string) (f : Form) : Form :=
  {| searchQuery := searchQuery f; selectedCustomer := selectedCustomer f;
     paymentMethod := paymentMethod f; amountPaid := amountPaid f;
     showReceiptModal := showReceiptModal f; lastSaleId := lastSaleId f;
     lastAmountPaid := lastAmountPaid f; alerts := msg :: alerts f |}.

(** The two quick-amount buttons: [amountPaid = Math.ceil(total)] and
    [amountPaid = Math.ceil(total / 5) * 5]. *)
Definition payCeil (f : Form) (s : Sales.State) : Form :=
  setAmountPaid (Number.ceil (total s)) f.

Definition payCeilToFive (f : Form) (s : Sales.State) : Form :=
  setAmountPaid (Number.ceil (total s / Number.ofZ 5) * Number.ofZ 5)%num f.

(** [addToSale(book)]: the search box is emptied unless the store throws. *)
Definition addToSale (booksStore : Books.State) (f : Form) (s : Sales.State)
    (bookId : string) : Form * Sales.State * (Js.Exn + unit) :=
  match Sales.addItemToCurrentSale booksStore s bookId 1 with
  | (s', inl err) => (f, s', inl err)
  | (s', inr _) =>
      ({| searchQuery := ""; selectedCustomer := selectedCustomer f;
          paymentMethod := paymentMethod f; amountPaid := amountPaid f;
          showReceiptModal := showReceiptModal f; lastSaleId := lastSaleId f;
          lastAmountPaid := lastAmountPaid f; alerts := alerts f |},
       s', inr tt)
  end.

Definition removeFromSale (s : Sales.State) (bookId : string) : Sales.State :=
  Sales.removeItemFromCurrentSale s bookId.

Definition updateQuantity (s : Sales.State) (bookId : string) (quantity : Z)
  : Sales.State :=
  if quantity <=? 0 then removeFromSale s bookId
  else Sales.updateItemQuantity s bookId quantity.

(** The [:disabled] condition of the [+] button of a line:
    [item.quantity >= (getBookById(item.bookId)?.quantity || 0)]. *)
Definition plusDisabled (booksStore : Books.State) (item : Sales.Item.t) : bool :=
  match Books.getBookById booksStore (Sales.Item.bookId item) with
  | Some book => Books.quantity book <=? Sales.Item.quantity item
  | None => 0 <=? Sales.Item.quantity item
  end.

Definition clearSale (f : Form) (s : Sales.State) : Form * Sales.State :=
  ({| searchQuery := searchQuery f; selectedCustomer := "";
      paymentMethod := paymentMethod f; amountPaid := Number.ofZ 0;
      showReceiptModal := showReceiptModal f; lastSaleId := lastSaleId f;
      lastAmountPaid := lastAmountPaid f; alerts := alerts f |},
   Sales.clearCurrentSale s).

(** The draft as the screen prepares it before calling the store:
    [setCustomer(customer?.id, customer?.name)], [setPaymentMethod],
    [setNotes('')]. *)
Definition prepared (customers : list Customers.AppCustomer) (f : Form)
    (s : Sales.State) : Sales.State :=
  let customer :=
    if Inventory.truthy (selectedCustomer f)
    then Customers.getCustomerById customers (selectedCustomer f)
    else None in
  Sales.setNotes
    (Sales.setPaymentMethod
       (Sales.setCustomer s (option_map Customers.id customer)
                          (option_map Customers.name customer))
       (paymentMethod f))
    "".

Section WithRemote.
Context {DB : Type} {remote : Supabase.Remote DB}.

(** [completeSale()] of the screen. *)
Definition completeSale (now : Js.Date) (db : DB) (booksStore : Books.State)
    (customers : list Customers.AppCustomer) (f : Form) (s : Sales.State)
  : DB * Books.State * Form * Sales.State :=
  if negb (canCompleteSale f s)
  then
    (db, booksStore,
     alert "Por favor asegúrese de que todos los artículos estén agregados y el pago sea suficiente" f,
     s)
  else
    match Sales.completeSale now db booksStore (prepared customers f s) with
    | (db', booksStore', s', inr completedSale) =>
        (db', booksStore',
         {| searchQuery := searchQuery f; selectedCustomer := "";
            paymentMethod := Sales.cash; amountPaid := Number.ofZ 0;
            showReceiptModal := true;
            lastSaleId := Sales.Sale.id completedSale;
            lastAmountPaid := amountPaid f; alerts := alerts f |},
         Sales.clearCurrentSale s')
    | (db', booksStore', s', inl _) =>
        (db', booksStore', alert "Hubo un problema al completar la venta." f, s')
    end.

End WithRemote.

End WithNumbers.

End SaleScreen.

(** * Properties *)

#[local] Existing Instance Binary64.numbers.
#[local] Existing Instance Exact.numbers.
#[local] Existing Instance MemoryDb.remote.

(** ** Array primitives *)

Lemma find_some_split {A : Type} (p : A -> bool) (l : list A) (x : A) :
  find p l = Some x ->
  exists pre post,
    l = (pre ++ x :: post)%list /\ Forall (fun y => p y = false) pre /\ p x = true.
Proof.
  induction l as [|y r IH]; simpl; [discriminate|].
  destruct (p y) eqn:Hy.
  - intros [= ->]. exists [], r. repeat split; auto.
  - intros Hr. destruct (IH Hr) as (pre & post & -> & Hpre & Hx).
    exists (y :: pre), post. repeat split; auto.
Qed.

Lemma mutateFirst_at {A : Type} (p : A -> bool) (f : A -> A) pre x post :
  Forall (fun y => p y = false) pre -> p x = true ->
  Js.mutateFirst p f (pre ++ x :: post) = (pre ++ f x :: post)%list.
Proof.
  intros Hpre Hx. induction Hpre as [|y pre Hy _ IH]; simpl.
  - now rewrite Hx.
  - now rewrite Hy, IH.
Qed.

Lemma mutateFirst_Forall {A : Type} (P : A -> Prop) p f (l : list A) :
  (forall x, P x -> P (f x)) -> Forall P l -> Forall P (Js.mutateFirst p f l).
Proof.
  intros Hf Hl. induction Hl as [|x r Hx Hr IH]; simpl; [constructor|].
  destruct (p x); constructor; auto.
Qed.

Lemma splice1_Forall {A : Type} (P : A -> Prop) (i : nat) (l : list A) :
  Forall P l -> Forall P (Js.splice1 i l).
Proof.
  intros Hl. revert i. induction Hl as [|x r Hx Hr IH]; intros [|j]; simpl; auto.
Qed.

Lemma findIndex_of_find {A : Type} (p : A -> bool) (l : list A) (x : A) :
  find p l = Some x -> exists n, Js.findIndex p l = Some n /\ nth_error l n = Some x.
Proof.
  induction l as [|y r IH]; simpl; [discriminate|].
  destruct (p y).
  - intros [= ->]. now exists O.
  - intros Hr. destruct (IH Hr) as (n & -> & Hn). now exists (S n).
Qed.

Lemma findIndex_none_of_find {A : Type} (p : A -> bool) (l : list A) :
  find p l = None -> Js.findIndex p l = None.
Proof.
  induction l as [|y r IH]; simpl; auto.
  destruct (p y); [discriminate|].
  intros Hr. now rewrite (IH Hr).
Qed.

(** [a[i] = v] where [i] is [findIndex(p)] and [v] satisfies [p]: a later
    [find(p)] returns [v]. *)
Lemma find_assign_same {A : Type} (p : A -> bool) (l : list A) n v :
  Js.findIndex p l = Some n -> p v = true -> find p (Js.assign n v l) = Some v.
Proof.
  revert n. induction l as [|y r IH]; simpl; intros n; [discriminate|].
  destruct (p y) eqn:Hy.
  - intros [= <-] Hv. simpl. now rewrite Hv.
  - destruct (Js.findIndex p r) as [m|] eqn:Hm; simpl; [|discriminate].
    intros [= <-] Hv. simpl. rewrite Hy. auto.
Qed.

(** The same assignment is invisible to a [find] on a predicate that rejects
    both the old and the new element. *)
Lemma find_assign_other {A : Type} (p q : A -> bool) (l : list A) n v :
  Js.findIndex p l = Some n -> q v = false ->
  (forall x, p x = true -> q x = false) ->
  find q (Js.assign n v l) = find q l.
Proof.
  revert n. induction l as [|y r IH]; simpl; intros n; [discriminate|].
  destruct (p y) eqn:Hy.
  - intros [= <-] Hv Hpq. simpl. now rewrite Hv, (Hpq y Hy).
  - destruct (Js.findIndex p r) as [m|] eqn:Hm; simpl; [|discriminate].
    intros [= <-] Hv Hpq. simpl. destruct (q y); auto.
Qed.

(** ** Doubles *)

(** Comparing the other way round gives the opposite answer. *)
Lemma compare_opposite (a b : spec_float) :
  SFcompare b a = option_map CompOpp (SFcompare a b).
Proof.
  destruct a as [[|]|[|]| |[|] m1 e1], b as [[|]|[|]| |[|] m2 e2]; try reflexivity.
  - simpl. rewrite (Z.compare_antisym e1 e2).
    destruct (e1 ?= e2) eqn:He; simpl; try reflexivity.
    pose proof (Pos.compare_antisym m1 m2) as H. unfold Pos.compare in H.
    now rewrite H.
  - simpl. rewrite (Z.compare_antisym e1 e2).
    destruct (e1 ?= e2) eqn:He; simpl; try reflexivity.
    pose proof (Pos.compare_antisym m1 m2) as H. unfold Pos.compare in H.
    now rewrite H.
Qed.

(** [Math.max(0, Math.min(100, d))] in doubles is [NaN] for [NaN] and is
    otherwise at least 0 and at most 100. *)
Lemma clamped_to_percent (d : spec_float) :
  let r := Binary64.max (Binary64.ofZ 0) (Binary64.min (Binary64.ofZ 100) d) in
  (r = S754_nan <-> d = S754_nan)
  /\ (r <> S754_nan ->
      Binary64.leb (Binary64.ofZ 0) r = true
      /\ Binary64.leb r (Binary64.ofZ 100) = true).
Proof.
  intros r.
  assert (H : match r with
              | S754_nan => d = S754_nan
              | _ => Binary64.leb (Binary64.ofZ 0) r = true
                     /\ Binary64.leb r (Binary64.ofZ 100) = true
              end);
    [|split; [split; [intros Hr; now rewrite Hr in H
                     |intros Hd; subst r; now rewrite Hd]
             |intros Hr; destruct r; auto; congruence]].
  subst r. unfold Binary64.min.
  destruct (SFcompare (Binary64.ofZ 100) d) as [[| |]|] eqn:Hhundred.
  - vm_compute; auto.
  - vm_compute; auto.
  - unfold Binary64.max.
    destruct (SFcompare (Binary64.ofZ 0) d) as [[| |]|] eqn:Hzero.
    + vm_compute; auto.
    + assert (Hd : SFcompare d (Binary64.ofZ 100) = Some Lt).
      { rewrite compare_opposite, Hhundred. reflexivity. }
      destruct d; try discriminate; unfold Binary64.leb, SFleb;
        rewrite ?Hzero, ?Hd; auto.
    + vm_compute; auto.
    + destruct d; discriminate.
  - destruct d; try discriminate. reflexivity.
Qed.

(** A double strictly between 0 and 100 is left as it is. *)
Lemma percent_is_kept (d : spec_float) :
  SFltb (Binary64.ofZ 0) d = true -> SFltb d (Binary64.ofZ 100) = true ->
  Binary64.max (Binary64.ofZ 0) (Binary64.min (Binary64.ofZ 100) d) = d.
Proof.
  unfold SFltb. intros Hzero Hhundred.
  destruct (SFcompare (Binary64.ofZ 0) d) as [[| |]|] eqn:Hz; try discriminate.
  destruct (SFcompare d (Binary64.ofZ 100)) as [[| |]|] eqn:Hh; try discriminate.
  unfold Binary64.min. rewrite compare_opposite, Hh. cbn [option_map CompOpp].
  unfold Binary64.max. now rewrite Hz.
Qed.

(** [Math.max(0, x)] in doubles: [NaN] for [NaN], and otherwise [+0] or a
    positive double, never [-0] and never a negative one. *)
Lemma max_zero_is_not_negative (x : spec_float) :
  match Binary64.max (Binary64.ofZ 0) x with
  | S754_nan => x = S754_nan
  | S754_zero sign | S754_infinity sign | S754_finite sign _ _ => sign = false
  end.
Proof.
  destruct x as [[|]|[|]| |[|] m e]; reflexivity.
Qed.

(** ** The draft: every line stays consistent *)

Section ConsistentLines.
Context {C : Number.Carrier} {N : Number.JsNumber}.

Lemma run_invariant (P : Sales.State -> Prop) :
  (forall booksStore op s, P s -> P (Cart.apply booksStore op s)) ->
  forall ops s, P s -> P (Cart.run ops s).
Proof.
  intros Hstep ops. unfold Cart.run.
  induction ops as [|[booksStore op] ops IH]; simpl; auto.
Qed.

Lemma removeItem_Forall (P : Sales.Item.t -> Prop) s bookId :
  Forall P (Cart.items s) ->
  Forall P (Cart.items (Sales.removeItemFromCurrentSale s bookId)).
Proof.
  unfold Sales.removeItemFromCurrentSale, Cart.items. intros H.
  destruct (Js.findIndex _ _); simpl; auto using splice1_Forall.
Qed.

Lemma apply_consistent booksStore op s :
  Forall Cart.consistent (Cart.items s) ->
  Forall Cart.consistent (Cart.items (Cart.apply booksStore op s)).
Proof.
  intros H. destruct op as [bookId q|bookId|bookId q]; simpl.
  - unfold Sales.addItemToCurrentSale.
    destruct (Books.getBookById booksStore bookId) as [book|]; simpl; auto.
    destruct (Books.stock book <? q); simpl; auto.
    destruct (find _ _); unfold Cart.items; simpl.
    + apply mutateFirst_Forall; auto. intros x _. reflexivity.
    + apply Forall_app. split; auto. repeat constructor.
  - now apply removeItem_Forall.
  - unfold Sales.updateItemQuantity.
    destruct (find _ _); auto.
    destruct (q <=? 0).
    + now apply removeItem_Forall.
    + unfold Cart.items; simpl. apply mutateFirst_Forall; auto.
      intros x _. reflexivity.
Qed.

Lemma subtotal_of_consistent (l : list Sales.Item.t) :
  Forall Cart.consistent l ->
  forall acc,
    fold_left (fun sum item => (sum + Sales.Item.subtotal item)%num) l acc
    = fold_left (fun sum item =>
                   (sum + Sales.Item.price item
                          * Number.ofZ (Sales.Item.quantity item))%num) l acc.
Proof.
  induction 1 as [|item r Hitem _ IH]; intros acc; simpl; auto.
  rewrite Hitem. apply IH.
Qed.

(** C6.  For every sequence of [addItem], [removeItem] and [setQuantity]
    calls applied to an empty draft (whatever the catalogue is at each call,
    and whether or not a call throws), the draft's subtotal equals the sum
    over its lines of unit price times quantity. *)
Theorem subtotal_is_sum_of_price_times_quantity :
  forall (ops : list (Books.State * Cart.Op)) (s0 : Sales.State),
    let s := Cart.run ops (Sales.clearCurrentSale s0) in
    Sales.currentSaleSubtotal s = Cart.priceTimesQuantity (Cart.items s).
Proof.
  intros ops s0 s. unfold Sales.currentSaleSubtotal, Cart.priceTimesQuantity.
  apply subtotal_of_consistent. subst s.
  apply (run_invariant (fun st => Forall Cart.consistent (Cart.items st))).
  - intros; now apply apply_consistent.
  - constructor.
Qed.

End ConsistentLines.

(** ** The draft: totals *)

(** C2.  For every draft and every discount, the subtotal is the sum of the
    line subtotals, added from 0 in the order of the lines, and the total is
    [subtotal - (subtotal * discount) / 100 + subtotal * 0.08], computed in
    this order: this holds for the doubles of the code as for any numbers.
    Over exact numbers the total is
    [subtotal * (1 - discount/100) + subtotal * 0.08], the second summand
    being the 8% tax; in doubles the two expressions are rounded at
    different places and can differ in the last digit. *)
Theorem total_is_discounted_subtotal_plus_tax :
  (forall (C : Number.Carrier) (N : Number.JsNumber) (s : Sales.State),
      let subtotal := Sales.currentSaleSubtotal s in
      let discount := Sales.Draft.discount (Sales.currentSale s) in
      subtotal
      = fold_left (fun sum item => (sum + Sales.Item.subtotal item)%num)
                  (Cart.items s) (Number.ofZ 0)
      /\ Sales.currentSaleTotal s
         = (subtotal - subtotal * discount / Number.ofZ 100
            + subtotal * Number.decimal 8 2)%num)
  /\ (forall s : @Sales.State Exact.carrier,
         let subtotal : Q := Sales.currentSaleSubtotal s in
         let discount : Q := Sales.Draft.discount (Sales.currentSale s) in
         (Sales.currentSaleTotal s
          == subtotal * (1 - discount / 100) + subtotal * (8 # 100))%Q).
Proof.
  split.
  - intros C N s subtotal discount. split; reflexivity.
  - intros s subtotal discount.
    change (Sales.currentSaleTotal s)
      with (subtotal - subtotal * discount / inject_Z 100
            + subtotal * (inject_Z 8 / inject_Z (10 ^ 2)))%Q.
    change (inject_Z 100) with 100%Q. change (inject_Z 8) with 8%Q.
    change (inject_Z (10 ^ 2)) with 100%Q.
    field.
Qed.

(** In doubles [subtotal * (1 - discount/100) + subtotal * 0.08] is not the
    total.  One copy of a book at 25.99 and a discount of 5: the total is
    26.7697 and that expression gives the double just below,
    26.769699999999997. *)
Lemma total_differs_from_factored_expression :
  let s := Sales.setDiscount Sample.oneAt2599 (Number.ofZ 5) in
  let subtotal := Sales.currentSaleSubtotal s in
  let discount := Sales.Draft.discount (Sales.currentSale s) in
  subtotal = Number.decimal 2599 2
  /\ discount = Number.ofZ 5
  /\ Sales.currentSaleTotal s = Number.decimal 267697 4
  /\ (subtotal * (Number.ofZ 1 - discount / Number.ofZ 100)
      + subtotal * Number.decimal 8 2)%num
     = S754_finite false 7535000684051247 (-48)
  /\ Sales.currentSaleTotal s
     <> (subtotal * (Number.ofZ 1 - discount / Number.ofZ 100)
         + subtotal * Number.decimal 8 2)%num.
Proof.
  vm_compute. repeat split. discriminate.
Qed.

(** ** The draft: [addItemToCurrentSale] *)

Section AddItem.
Context {C : Number.Carrier} {N : Number.JsNumber}.

(** C7.  When the requested quantity exceeds the stock of the book, the call
    throws the store's error for an unavailable book or insufficient stock,
    and the store is returned as it was: the draft is unchanged.  The
    catalogue is only read by this function, so no stock changes either. *)
Theorem addItem_beyond_stock_throws :
  forall (booksStore : Books.State) (s : Sales.State) (bookId : string)
         (quantity : Z) (book : Books.AppBook),
    Books.getBookById booksStore bookId = Some book ->
    Books.stock book < quantity ->
    Sales.addItemToCurrentSale booksStore s bookId quantity
    = (s, inl (Js.Error "Libro no disponible o stock insuficiente")).
Proof.
  intros booksStore s bookId quantity book Hbook Hlt.
  unfold Sales.addItemToCurrentSale. rewrite Hbook.
  apply Z.ltb_lt in Hlt. now rewrite Hlt.
Qed.

End AddItem.

(** The scenario of the specification: [addItem("B2", 5)] with a stock of 3. *)
Lemma addItem_beyond_stock_scenario :
  Sales.addItemToCurrentSale Sample.catalogue Sample.threeOfB1 "B2" 5
  = (Sample.threeOfB1, inl (Js.Error "Libro no disponible o stock insuficiente")).
Proof.
  apply (addItem_beyond_stock_throws Sample.catalogue Sample.threeOfB1 "B2" 5
           (Books.mapToAppBook (Sample.book "B2" Sample.twelveFifty 3))).
  - reflexivity.
  - simpl. lia.
Defined.

Section AddItemContinued.
Context {C : Number.Carrier} {N : Number.JsNumber}.

(** C10.  Adding a book that already has a line in the draft changes that
    line only, and of that line only the quantity (the sum of the old quantity
    and the added one) and the subtotal (the line's own price times the new
    quantity).  The price stays the one stored in the line, whatever the
    price of the book in the catalogue is now; every other line, and the
    order of the lines, is kept. *)
Theorem addItem_existing_line_keeps_price :
  forall (booksStore : Books.State) (s : Sales.State) (bookId : string)
         (quantity : Z) (book : Books.AppBook) (line : Sales.Item.t),
    Books.getBookById booksStore bookId = Some book ->
    quantity <= Books.stock book ->
    find (Sales.forBook bookId) (Cart.items s) = Some line ->
    exists pre post line' s',
      Cart.items s = (pre ++ line :: post)%list
      /\ Sales.addItemToCurrentSale booksStore s bookId quantity = (s', inr tt)
      /\ Cart.items s' = (pre ++ line' :: post)%list
      /\ Sales.Item.bookId line' = Sales.Item.bookId line
      /\ Sales.Item.title line' = Sales.Item.title line
      /\ Sales.Item.author line' = Sales.Item.author line
      /\ Sales.Item.price line' = Sales.Item.price line
      /\ Sales.Item.quantity line' = Sales.Item.quantity line + quantity
      /\ Sales.Item.subtotal line'
         = (Sales.Item.price line
            * Number.ofZ (Sales.Item.quantity line + quantity))%num.
Proof.
  intros booksStore s bookId quantity book line Hbook Hle Hline.
  destruct (find_some_split _ _ _ Hline) as (pre & post & Hitems & Hpre & Hx).
  unfold Sales.addItemToCurrentSale. rewrite Hbook.
  assert (Hnlt : (Books.stock book <? quantity) = false) by (apply Z.ltb_ge; lia).
  rewrite Hnlt. unfold Cart.items in Hline, Hitems. rewrite Hline.
  exists pre, post. eexists. eexists.
  split; [exact Hitems|]. split; [reflexivity|].
  unfold Cart.items; simpl. rewrite Hitems.
  rewrite (mutateFirst_at _ _ pre line post Hpre Hx).
  repeat split; reflexivity.
Qed.

End AddItemContinued.

(** A line of B1 taken at 10.00; the catalogue now lists B1 at 12.00. *)
Lemma addItem_existing_line_scenario :
  exists pre post line' s',
    Cart.items Sample.twoLines
    = (pre ++ {| Sales.Item.bookId := "B1"; Sales.Item.title := "Title B1";
                 Sales.Item.author := "Author B1"; Sales.Item.price := Sample.ten;
                 Sales.Item.quantity := 2;
                 Sales.Item.subtotal := (Sample.ten * Number.ofZ 2)%num |}
           :: post)%list
    /\ Sales.addItemToCurrentSale
         {| Books.books := [Books.mapToAppBook (Sample.book "B1" Sample.twelve 3)];
            Books.loading := false; Books.error := None |}
         Sample.twoLines "B1" 1 = (s', inr tt)
    /\ Cart.items s' = (pre ++ line' :: post)%list
    /\ Sales.Item.bookId line' = "B1"
    /\ Sales.Item.title line' = "Title B1"
    /\ Sales.Item.author line' = "Author B1"
    /\ Sales.Item.price line' = Sample.ten
    /\ Sales.Item.quantity line' = 2 + 1
    /\ Sales.Item.subtotal line' = (Sample.ten * Number.ofZ (2 + 1))%num.
Proof.
  apply (addItem_existing_line_keeps_price
           {| Books.books := [Books.mapToAppBook (Sample.book "B1" Sample.twelve 3)];
              Books.loading := false; Books.error := None |}
           Sample.twoLines "B1" 1
           (Books.mapToAppBook (Sample.book "B1" Sample.twelve 3))).
  - reflexivity.
  - simpl. lia.
  - reflexivity.
Defined.

(** C1.  The stock check of [addItemToCurrentSale] compares the stock with
    the quantity of the call alone.  With a stock of 3 and a line of two
    copies already in the draft, adding two more is accepted: the line then
    holds four copies, one more than the catalogue has. *)
Theorem addItem_ignores_quantity_already_in_draft :
  let s := Cart.run [(Sample.catalogue, Cart.addItem "B1" 2)] Sales.initial in
  let after := Sales.addItemToCurrentSale Sample.catalogue s "B1" 2 in
  option_map Books.stock (Books.getBookById Sample.catalogue "B1") = Some 3
  /\ map Sales.Item.quantity (Cart.items s) = [2]
  /\ snd after = inr tt
  /\ map Sales.Item.quantity (Cart.items (fst after)) = [4].
Proof. repeat split. Qed.

Section AddItemConcluded.
Context {C : Number.Carrier} {N : Number.JsNumber}.

(** An unknown book and a quantity above the stock are refused with the same
    error; nothing else is refused. *)
Lemma addItem_throws_iff booksStore s bookId quantity :
  (exists err, snd (Sales.addItemToCurrentSale booksStore s bookId quantity) = inl err)
  <-> match Books.getBookById booksStore bookId with
      | None => True
      | Some book => Books.stock book < quantity
      end.
Proof.
  unfold Sales.addItemToCurrentSale.
  destruct (Books.getBookById booksStore bookId) as [book|]; simpl.
  - destruct (Z.ltb_spec (Books.stock book) quantity) as [Hlt|Hge]; simpl.
    + split; eauto.
    + destruct (find _ _); simpl; split; try lia; intros [err [=]].
  - split; eauto.
Qed.

End AddItemConcluded.

(** ** The draft: quantities *)

Section Quantities.
Context {C : Number.Carrier} {N : Number.JsNumber}.

(** [setQuantity] with a quantity of zero or less is [removeItem]. *)
Lemma setQuantity_nonpositive_removes s bookId quantity :
  quantity <= 0 ->
  Sales.updateItemQuantity s bookId quantity
  = Sales.removeItemFromCurrentSale s bookId.
Proof.
  intros Hq. unfold Sales.updateItemQuantity.
  destruct (find _ _) eqn:Hfind.
  - apply Z.leb_le in Hq. now rewrite Hq.
  - unfold Sales.removeItemFromCurrentSale.
    now rewrite (findIndex_none_of_find _ _ Hfind).
Qed.

(** As long as every [addItem] asks for a positive quantity, every line of the
    draft has a positive quantity. *)
Lemma positive_adds_keep_quantities_positive ops s0 :
  Cart.addsPositive ops ->
  Forall (fun item => 0 < Sales.Item.quantity item)
         (Cart.items (Cart.run ops (Sales.clearCurrentSale s0))).
Proof.
  intros Hops.
  assert (Hgen : forall s,
             Forall (fun item => 0 < Sales.Item.quantity item) (Cart.items s) ->
             Forall (fun item => 0 < Sales.Item.quantity item)
                    (Cart.items (Cart.run ops s))).
  { unfold Cart.run.
    induction Hops as [|[booksStore op] ops Hop _ IH]; simpl; auto.
    intros s Hs. apply IH. clear IH.
    destruct op as [bookId q|bookId|bookId q]; simpl in *.
    - unfold Sales.addItemToCurrentSale.
      destruct (Books.getBookById booksStore bookId) as [book|]; simpl; auto.
      destruct (Books.stock book <? q); simpl; auto.
      destruct (find _ _); unfold Cart.items; simpl.
      + apply mutateFirst_Forall; auto. intros x Hx. simpl. lia.
      + apply Forall_app. split; auto.
    - now apply removeItem_Forall.
    - unfold Sales.updateItemQuantity.
      destruct (find _ _); auto.
      destruct (Z.leb_spec q 0).
      + now apply removeItem_Forall.
      + unfold Cart.items; simpl. apply mutateFirst_Forall; auto. }
  apply Hgen. constructor.
Qed.

End Quantities.

(** C3.  [addItemToCurrentSale] does not look at the sign of the quantity.
    Adding zero copies of a book in stock creates a line of quantity 0, and
    adding a negative quantity to a line of one copy leaves a line of quantity
    0 in the draft instead of removing it. *)
Theorem addItem_accepts_nonpositive_quantity :
  map Sales.Item.quantity
      (Cart.items (Cart.run [(Sample.catalogue, Cart.addItem "B1" 0)]
                            Sales.initial)) = [0]
  /\ map Sales.Item.quantity
         (Cart.items (Cart.run [(Sample.catalogue, Cart.addItem "B1" 1);
                                (Sample.catalogue, Cart.addItem "B1" (-1))]
                               Sales.initial)) = [0].
Proof. split; reflexivity. Qed.

(** ** The draft: one line per book *)

Section OneLinePerBook.
Context {C : Number.Carrier} {N : Number.JsNumber}.

Lemma find_none_not_in (bookId : string) (l : list Sales.Item.t) :
  find (Sales.forBook bookId) l = None -> ~ In bookId (map Sales.Item.bookId l).
Proof.
  intros Hnone Hin. apply in_map_iff in Hin as (x & Hx & Hl).
  pose proof (find_none _ _ Hnone x Hl) as Hf.
  unfold Sales.forBook in Hf. rewrite Hx, String.eqb_refl in Hf. discriminate.
Qed.

Lemma mutateFirst_map {A B : Type} (g : A -> B) p f (l : list A) :
  (forall x, g (f x) = g x) -> map g (Js.mutateFirst p f l) = map g l.
Proof.
  intros Hg. induction l as [|x r IH]; simpl; auto.
  destruct (p x); simpl; now rewrite ?Hg, ?IH.
Qed.

Lemma splice1_incl {A : Type} (i : nat) (l : list A) x :
  In x (Js.splice1 i l) -> In x l.
Proof.
  revert i. induction l as [|y r IH]; intros [|j]; simpl; auto.
  intros [->|H]; eauto.
Qed.

Lemma splice1_map {A B : Type} (g : A -> B) (i : nat) (l : list A) :
  map g (Js.splice1 i l) = Js.splice1 i (map g l).
Proof.
  revert i. induction l as [|y r IH]; intros [|j]; simpl; auto.
  now rewrite IH.
Qed.

Lemma splice1_NoDup {A : Type} (i : nat) (l : list A) :
  NoDup l -> NoDup (Js.splice1 i l).
Proof.
  intros Hl. revert i. induction Hl as [|y r Hy Hr IH]; intros [|j]; simpl; auto.
  - constructor.
  - constructor.
  - constructor; auto. intros Hin. apply Hy. eapply splice1_incl; eauto.
Qed.

Lemma NoDup_push {A : Type} (l : list A) (x : A) :
  NoDup l -> ~ In x l -> NoDup (l ++ [x]).
Proof.
  induction 1 as [|y r Hy Hr IH]; simpl; intros Hx.
  - repeat constructor. auto.
  - constructor.
    + rewrite in_app_iff. simpl. intros [H|[H|[]]]; [auto|subst; auto].
    + apply IH. auto.
Qed.


Lemma removeItem_NoDup s bookId :
  NoDup (Cart.bookIds s) ->
  NoDup (Cart.bookIds (Sales.removeItemFromCurrentSale s bookId)).
Proof.
  unfold Sales.removeItemFromCurrentSale, Cart.bookIds, Cart.items. intros H.
  destruct (Js.findIndex _ _); simpl; auto.
  rewrite splice1_map. now apply splice1_NoDup.
Qed.

Lemma apply_NoDup booksStore op s :
  NoDup (Cart.bookIds s) -> NoDup (Cart.bookIds (Cart.apply booksStore op s)).
Proof.
  intros H. destruct op as [bookId q|bookId|bookId q]; simpl.
  - unfold Sales.addItemToCurrentSale.
    destruct (Books.getBookById booksStore bookId) as [book|]; simpl; auto.
    destruct (Books.stock book <? q); simpl; auto.
    destruct (find _ _) eqn:Hfind; unfold Cart.bookIds, Cart.items in *; simpl.
    + rewrite mutateFirst_map; auto.
    + rewrite map_app. simpl.
      apply NoDup_push; auto. now apply find_none_not_in.
  - now apply removeItem_NoDup.
  - unfold Sales.updateItemQuantity.
    destruct (find _ _); auto.
    destruct (q <=? 0).
    + now apply removeItem_NoDup.
    + unfold Cart.bookIds, Cart.items in *; simpl. rewrite mutateFirst_map; auto.
Qed.

Lemma built_NoDup (s : Sales.State) : Cart.built s -> NoDup (Cart.bookIds s).
Proof.
  intros (ops & s0 & Hitems). unfold Cart.bookIds. rewrite Hitems.
  apply (run_invariant (fun st => NoDup (Cart.bookIds st))).
  - intros; now apply apply_NoDup.
  - constructor.
Qed.

End OneLinePerBook.

(** ** Stock adjustment *)

Section StockAdjustment.
Context {C : Number.Carrier} {N : Number.JsNumber}.
Context {DB : Type} {remote : Supabase.Remote DB}.

Lemma hasId_eq (i : string) (book : Books.AppBook) :
  Books.hasId i book = true <-> Books.id book = i.
Proof. unfold Books.hasId. apply String.eqb_eq. Qed.

(** For a book that is not in the catalogue, [updateStock] returns without a
    request and without a change. *)
Lemma updateStock_missing (db : DB) (booksStore : Books.State) i quantity :
  Books.getBookById booksStore i = None ->
  Books.updateStock db booksStore i quantity = (db, booksStore, inr tt).
Proof.
  unfold Books.getBookById, Books.updateStock. now intros ->.
Qed.

(** For a book of the catalogue, [updateStock] sends one update whose only
    field is [stock], set to [max(0, stock + quantity)]. *)
Lemma updateStock_request (db : DB) (booksStore : Books.State) i quantity book :
  Books.getBookById booksStore i = Some book ->
  fst (fst (Books.updateStock db booksStore i quantity))
  = fst (Supabase.updateBookRow db i
           {| Supabase.set_title := None; Supabase.set_author := None;
              Supabase.set_isbn := None; Supabase.set_genre := None;
              Supabase.set_price := None;
              Supabase.set_stock := Some (Z.max 0 (Books.stock book + quantity));
              Supabase.set_description := None |}).
Proof.
  unfold Books.getBookById, Books.updateStock, Books.updateBook. intros ->.
  unfold Books.mapToSupabaseBook, Books.stockOnly; simpl.
  destruct (Supabase.updateBookRow _ _ _) as [db' [err|data]]; reflexivity.
Qed.

(** A rejected [updateStock] leaves the catalogue as it was. *)
Lemma updateStock_throw_keeps_books (db db' : DB) booksStore booksStore' i q err :
  Books.updateStock db booksStore i q = (db', booksStore', inl err) ->
  Books.books booksStore' = Books.books booksStore.
Proof.
  unfold Books.updateStock, Books.updateBook.
  destruct (find _ _) as [book|]; [|discriminate].
  destruct (Supabase.updateBookRow _ _ _) as [db1 [e|data]]; [|discriminate].
  intros [= _ <- _]. reflexivity.
Qed.

Hypothesis answers : answersWithUpdatedRow.

Lemma updateStock_effect (db db' : DB) booksStore booksStore' i q book :
  Books.getBookById booksStore i = Some book ->
  Books.updateStock db booksStore i q = (db', booksStore', inr tt) ->
  exists book',
    Books.getBookById booksStore' i = Some book'
    /\ Books.stock book' = Z.max 0 (Books.stock book + q).
Proof.
  unfold Books.getBookById, Books.updateStock, Books.updateBook.
  intros Hbook. rewrite Hbook.
  destruct (Supabase.updateBookRow _ _ _) as [db1 [e|data]] eqn:Hrow;
    [discriminate|].
  destruct (answers _ _ _ _ _ Hrow) as [Hid Hstock].
  destruct (findIndex_of_find _ _ _ Hbook) as (n & Hn & _).
  simpl. rewrite Hn. intros [= _ <-]. simpl.
  exists (Books.mapToAppBook data). split.
  - apply find_assign_same; auto. apply hasId_eq. exact Hid.
  - simpl. apply Hstock. reflexivity.
Qed.

(** Whatever its outcome, [updateStock] for one book leaves every other book
    of the catalogue as it was. *)
Lemma updateStock_frame (db db' : DB) booksStore booksStore' i q r j :
  j <> i ->
  Books.updateStock db booksStore i q = (db', booksStore', r) ->
  Books.getBookById booksStore' j = Books.getBookById booksStore j.
Proof.
  intros Hji Hrun. destruct r as [err|[]].
  - unfold Books.getBookById.
    now rewrite (updateStock_throw_keeps_books _ _ _ _ _ _ _ Hrun).
  - revert Hrun.
    unfold Books.getBookById, Books.updateStock, Books.updateBook.
    destruct (find (Books.hasId i) _) as [book|] eqn:Hbook.
    2:{ now intros [= _ <-]. }
    destruct (Supabase.updateBookRow _ _ _) as [db1 [e|data]] eqn:Hrow;
      [discriminate|].
    destruct (answers _ _ _ _ _ Hrow) as [Hid _].
    destruct (findIndex_of_find _ _ _ Hbook) as (n & Hn & _).
    simpl. rewrite Hn. intros [= _ <-]. simpl.
    apply find_assign_other with (p := Books.hasId i); auto.
    + unfold Books.hasId. simpl. rewrite Hid. now apply String.eqb_neq.
    + intros x Hx. apply hasId_eq in Hx. unfold Books.hasId. rewrite Hx.
      now apply String.eqb_neq.
Qed.

Lemma updateStock_missing_stays (db db' : DB) booksStore booksStore' i q r j :
  Books.getBookById booksStore j = None ->
  Books.updateStock db booksStore i q = (db', booksStore', r) ->
  Books.getBookById booksStore' j = None.
Proof.
  intros Hj Hrun. destruct (String.eqb_spec j i) as [->|Hji].
  - rewrite (updateStock_missing _ _ _ _ Hj) in Hrun.
    now injection Hrun as _ <- _.
  - now rewrite (updateStock_frame _ _ _ _ _ _ _ _ Hji Hrun).
Qed.

(** *** The loop of [completeSale] *)

Lemma updateStocks_frame items : forall (db db' : DB) booksStore booksStore' r j,
  ~ In j (map Sales.Item.bookId items) ->
  Sales.updateStocks db booksStore items = (db', booksStore', r) ->
  Books.getBookById booksStore' j = Books.getBookById booksStore j.
Proof.
  induction items as [|item rest IH]; simpl; intros db db' bs bs' r j Hj.
  - now intros [= _ <- _].
  - destruct (Books.updateStock db bs _ _) as [[db1 bs1] [err|u]] eqn:Hone.
    + intros [= _ <- _].
      eapply updateStock_frame; [|exact Hone]. intros ->. apply Hj. now left.
    + intros Hrest. rewrite (IH _ _ _ _ _ j (fun H => Hj (or_intror H)) Hrest).
      eapply updateStock_frame; [|exact Hone]. intros ->. apply Hj. now left.
Qed.

Lemma updateStocks_effect items : forall (db db' : DB) booksStore booksStore',
  NoDup (map Sales.Item.bookId items) ->
  Sales.updateStocks db booksStore items = (db', booksStore', inr tt) ->
  forall item book,
    In item items ->
    Books.getBookById booksStore (Sales.Item.bookId item) = Some book ->
    exists book',
      Books.getBookById booksStore' (Sales.Item.bookId item) = Some book'
      /\ Books.stock book' = Z.max 0 (Books.stock book - Sales.Item.quantity item).
Proof.
  induction items as [|x rest IH]; simpl; intros db db' bs bs' Hnodup Hrun item book;
    [contradiction|].
  apply NoDup_cons_iff in Hnodup as [Hx Hrest].
  destruct (Books.updateStock db bs _ _) as [[db1 bs1] [err|[]]] eqn:Hone;
    [discriminate|].
  intros [<-|Hin] Hbook.
  - destruct (updateStock_effect _ _ _ _ _ _ _ Hbook Hone) as (book' & Hb' & Hs).
    exists book'. split.
    + now rewrite (updateStocks_frame _ _ _ _ _ _ _ Hx Hrun).
    + rewrite Hs. reflexivity.
  - apply (IH _ _ _ _ Hrest Hrun item book Hin).
    rewrite <- Hbook. eapply updateStock_frame; [|exact Hone].
    intros Heq. apply Hx. rewrite <- Heq. now apply in_map.
Qed.

(** A line whose book is missing from the catalogue does not take part in the
    loop. *)
Lemma updateStocks_skips_missing item post : forall pre (db : DB) booksStore,
  Books.getBookById booksStore (Sales.Item.bookId item) = None ->
  Sales.updateStocks db booksStore (pre ++ item :: post)
  = Sales.updateStocks db booksStore (pre ++ post).
Proof.
  induction pre as [|x pre IH]; simpl; intros db bs Hmissing.
  - now rewrite (updateStock_missing _ _ _ _ Hmissing).
  - destruct (Books.updateStock db bs _ _) as [[db1 bs1] [err|u]] eqn:Hone; auto.
    apply IH. eapply updateStock_missing_stays; eauto.
Qed.

Lemma updateStocks_missing_stays items : forall (db db' : DB) booksStore booksStore' r j,
  Books.getBookById booksStore j = None ->
  Sales.updateStocks db booksStore items = (db', booksStore', r) ->
  Books.getBookById booksStore' j = None.
Proof.
  induction items as [|x rest IH]; simpl; intros db db' bs bs' r j Hj.
  - now intros [= _ <- _].
  - destruct (Books.updateStock db bs _ _) as [[db1 bs1] [err|u]] eqn:Hone.
    + intros [= _ <- _]. eapply updateStock_missing_stays; eauto.
    + intros Hrest. eapply IH; [|exact Hrest].
      eapply updateStock_missing_stays; eauto.
Qed.

End StockAdjustment.

(** ** Checkout *)

Section Checkout.
Context {C : Number.Carrier} {N : Number.JsNumber}.
Context {DB : Type} {remote : Supabase.Remote DB}.

Lemma itemsRows_nonempty (saleRow : Supabase.Sale) (s : Sales.State) :
  Cart.items s <> [] ->
  (0 <? length (Sales.itemsRowsOf saleRow s))%nat = true.
Proof.
  unfold Sales.itemsRowsOf, Cart.items.
  destruct (Sales.Draft.items (Sales.currentSale s)); [congruence|reflexivity].
Qed.

(** What a returning [completeSale] has done. *)
Lemma completeSale_returns_inv now (db db' : DB) booksStore booksStore' s s' sale :
  Sales.completeSale now db booksStore s = (db', booksStore', s', inr sale) ->
  exists db1 db2 saleRow,
    Supabase.insertSale db (Sales.saleInsertOf s) = (db1, inr saleRow)
    /\ Supabase.insertSaleItems db1 (Sales.itemsRowsOf saleRow s) = (db2, None)
    /\ Sales.updateStocks db2 booksStore (Cart.items s) = (db', booksStore', inr tt)
    /\ sale = Sales.newSaleOf now saleRow s
    /\ Sales.sales s' = sale :: Sales.sales s
    /\ Sales.currentSale s' = Sales.emptyDraft.
Proof.
  unfold Sales.completeSale.
  destruct (Sales.Draft.items (Sales.currentSale s)) as [|i l] eqn:Hitems;
    [discriminate|].
  assert (Hne : Cart.items s <> []) by (unfold Cart.items; congruence).
  unfold Sales.completeSaleTry.
  change (Sales.saleInsertOf (Sales.setError None (Sales.setLoading true s)))
    with (Sales.saleInsertOf s).
  destruct (Supabase.insertSale db _) as [db1 [saleErr|saleRow]] eqn:Hsale;
    [discriminate|].
  change (Sales.itemsRowsOf saleRow (Sales.setError None (Sales.setLoading true s)))
    with (Sales.itemsRowsOf saleRow s).
  rewrite (itemsRows_nonempty saleRow s Hne).
  destruct (Supabase.insertSaleItems db1 _) as [db2 [itemsErr|]] eqn:Hrows;
    [discriminate|].
  change (Sales.Draft.items
            (Sales.currentSale (Sales.setError None (Sales.setLoading true s))))
    with (Cart.items s).
  destruct (Sales.updateStocks db2 booksStore _) as [[db3 bs3] [err|[]]] eqn:Hloop;
    [discriminate|].
  intros [= <- <- <- <-].
  exists db1, db2, saleRow. repeat split; assumption || reflexivity.
Qed.

(** When both inserts are accepted and the loop over the lines goes through,
    [completeSale] returns the new sale. *)
Lemma completeSale_returns now (db db1 db2 db3 : DB) booksStore booksStore3 s saleRow :
  Cart.items s <> [] ->
  Supabase.insertSale db (Sales.saleInsertOf s) = (db1, inr saleRow) ->
  Supabase.insertSaleItems db1 (Sales.itemsRowsOf saleRow s) = (db2, None) ->
  Sales.updateStocks db2 booksStore (Cart.items s) = (db3, booksStore3, inr tt) ->
  Sales.completeSale now db booksStore s
  = (db3, booksStore3,
     {| Sales.sales := Sales.newSaleOf now saleRow s :: Sales.sales s;
        Sales.loading := false; Sales.error := None;
        Sales.currentSale := Sales.emptyDraft |},
     inr (Sales.newSaleOf now saleRow s)).
Proof.
  intros Hne Hsale Hitems Hloop.
  unfold Sales.completeSale.
  destruct (Sales.Draft.items (Sales.currentSale s)) as [|i l] eqn:Hl;
    [unfold Cart.items in Hne; congruence|].
  unfold Sales.completeSaleTry.
  change (Sales.saleInsertOf (Sales.setError None (Sales.setLoading true s)))
    with (Sales.saleInsertOf s).
  rewrite Hsale.
  change (Sales.itemsRowsOf saleRow (Sales.setError None (Sales.setLoading true s)))
    with (Sales.itemsRowsOf saleRow s).
  rewrite (itemsRows_nonempty saleRow s Hne), Hitems.
  change (Sales.Draft.items
            (Sales.currentSale (Sales.setError None (Sales.setLoading true s))))
    with (Cart.items s).
  rewrite Hloop. reflexivity.
Qed.

(** C5.  [completeSale] throws when the draft has no line, before anything is
    written or sent.  When the draft has a line and the insertion of the sale
    header is refused, the call throws the error of the insertion and sends
    nothing more: the database is the one the refused insertion left, the
    books store (so every stock) is untouched, and the sales store keeps its
    draft and its list of sales; only its refs [loading] and [error] are
    written. *)
Theorem completeSale_empty_or_header_refused :
  forall (now : Js.Date) (db : DB) (booksStore : Books.State) (s : Sales.State),
    (Cart.items s = [] ->
     Sales.completeSale now db booksStore s
     = (db, booksStore, s, inl (Js.Error Sales.noItems)))
    /\ (forall db1 saleErr,
          Cart.items s <> [] ->
          Supabase.insertSale db (Sales.saleInsertOf s) = (db1, inl saleErr) ->
          Sales.completeSale now db booksStore s
          = (db1, booksStore,
             {| Sales.sales := Sales.sales s; Sales.loading := false;
                Sales.error :=
                  Some (Js.messageOr "Error completing sale" (Js.Thrown saleErr));
                Sales.currentSale := Sales.currentSale s |},
             inl (Js.Thrown saleErr))).
Proof.
  intros now db booksStore s. unfold Sales.completeSale, Cart.items. split.
  - now intros ->.
  - intros db1 saleErr Hne Hsale.
    destruct (Sales.Draft.items (Sales.currentSale s)) as [|i l]; [congruence|].
    unfold Sales.completeSaleTry.
    change (Sales.saleInsertOf (Sales.setError None (Sales.setLoading true s)))
      with (Sales.saleInsertOf s).
    rewrite Hsale. reflexivity.
Qed.


(** C9.  [updateStock] for an identifier that is not in the catalogue returns
    normally, sends nothing and changes nothing.  So, in [completeSale], a
    line whose book is missing from the catalogue is skipped by the loop over
    the lines: when the two inserts are accepted and the loop over the other
    lines goes through, the sale is returned and recorded with that line in
    it, and the book is still absent from the catalogue afterwards. *)
Theorem missing_book_is_skipped :
  answersWithUpdatedRow ->
  (forall (db : DB) (booksStore : Books.State) (i : string) (delta : Z),
      Books.getBookById booksStore i = None ->
      Books.updateStock db booksStore i delta = (db, booksStore, inr tt))
  /\ (forall (now : Js.Date) (db db1 db2 db3 : DB) (booksStore booksStore3 : Books.State)
             (s : Sales.State) (saleRow : Supabase.Sale) pre item post,
         Cart.items s = (pre ++ item :: post)%list ->
         Books.getBookById booksStore (Sales.Item.bookId item) = None ->
         Supabase.insertSale db (Sales.saleInsertOf s) = (db1, inr saleRow) ->
         Supabase.insertSaleItems db1 (Sales.itemsRowsOf saleRow s) = (db2, None) ->
         Sales.updateStocks db2 booksStore (pre ++ post) = (db3, booksStore3, inr tt) ->
         exists s' sale,
           Sales.completeSale now db booksStore s = (db3, booksStore3, s', inr sale)
           /\ Sales.sales s' = sale :: Sales.sales s
           /\ In item (Sales.Sale.items sale)
           /\ Books.getBookById booksStore3 (Sales.Item.bookId item) = None).
Proof.
  intros answers. split.
  - intros db booksStore i delta. apply updateStock_missing.
  - intros now db db1 db2 db3 booksStore booksStore3 s saleRow pre item post
           Hitems Hmissing Hsale Hrows Hloop.
    assert (Hne : Cart.items s <> []).
    { rewrite Hitems. now destruct pre. }
    assert (Hloop' : Sales.updateStocks db2 booksStore (Cart.items s)
                     = (db3, booksStore3, inr tt)).
    { rewrite Hitems, (updateStocks_skips_missing answers); auto. }
    eexists _, _. split.
    + apply (completeSale_returns now db db1 db2 db3); eauto.
    + simpl. split; [reflexivity|]. split.
      * fold (Cart.items s). rewrite Hitems. apply in_elt.
      * eapply (updateStocks_missing_stays answers); eauto.
Qed.

(** C4.  Provided the database answers an accepted update with the row asked
    for: after a returning [completeSale] on a draft built by the cart
    operations, for every line of the draft as it was at the call whose book is
    in the catalogue, the stock of that book is [max(0, previous stock -
    quantity of the line)]; and [updateStock], for a book of the catalogue,
    sends [max(0, stock + delta)] as the only field of its update, which is
    the stock of the book once the update is accepted. *)
Theorem completeSale_decrements_stock_floored :
  answersWithUpdatedRow ->
  (forall (now : Js.Date) (db db' : DB) (booksStore booksStore' : Books.State)
          (s s' : Sales.State) (sale : Sales.Sale.t),
      Cart.built s ->
      Sales.completeSale now db booksStore s = (db', booksStore', s', inr sale) ->
      forall item book,
        In item (Cart.items s) ->
        Books.getBookById booksStore (Sales.Item.bookId item) = Some book ->
        exists book',
          Books.getBookById booksStore' (Sales.Item.bookId item) = Some book'
          /\ Books.stock book'
             = Z.max 0 (Books.stock book - Sales.Item.quantity item))
  /\ (forall (db : DB) (booksStore : Books.State) (i : string) (delta : Z) book,
         Books.getBookById booksStore i = Some book ->
         fst (fst (Books.updateStock db booksStore i delta))
         = fst (Supabase.updateBookRow db i
                  {| Supabase.set_title := None; Supabase.set_author := None;
                     Supabase.set_isbn := None; Supabase.set_genre := None;
                     Supabase.set_price := None;
                     Supabase.set_stock := Some (Z.max 0 (Books.stock book + delta));
                     Supabase.set_description := None |})
         /\ forall db' booksStore',
              Books.updateStock db booksStore i delta = (db', booksStore', inr tt) ->
              exists book',
                Books.getBookById booksStore' i = Some book'
                /\ Books.stock book' = Z.max 0 (Books.stock book + delta)).
Proof.
  intros answers. split.
  - intros now db db' booksStore booksStore' s s' sale Hbuilt Hrun item book Hin Hbook.
    destruct (completeSale_returns_inv _ _ _ _ _ _ _ _ Hrun)
      as (db1 & db2 & saleRow & _ & _ & Hloop & _).
    eapply (updateStocks_effect answers); eauto.
    now apply built_NoDup.
  - intros db booksStore i delta book Hbook. split.
    + now apply updateStock_request.
    + intros db' booksStore' Hrun. eapply (updateStock_effect answers); eauto.
Qed.

End Checkout.

(** ** The reference database on sample data *)

Section ReferenceDatabase.
Context {C : Number.Carrier} {N : Number.JsNumber}.

Lemma memoryDb_answers : answersWithUpdatedRow (remote := MemoryDb.remote).
Proof.
  intros db db' i patch row. simpl. unfold MemoryDb.updateBookRow.
  destruct (MemoryDb.online db); simpl; [|discriminate].
  destruct (find _ _) as [old|] eqn:Hold; [|discriminate].
  destruct (negb _); [discriminate|].
  intros [= _ <-]. split.
  - simpl. apply find_some in Hold as [_ Hid]. now apply String.eqb_eq.
  - intros v Hv. simpl. now rewrite Hv.
Qed.

End ReferenceDatabase.

(** No line, and then a database that cannot be reached: the request fails
    in transport and the database, the catalogue, the draft of two lines and
    the empty list of sales are as they were. *)
Lemma completeSale_refused_scenario :
  Sales.completeSale Sample.now Sample.db Sample.catalogue Sales.initial
  = (Sample.db, Sample.catalogue, Sales.initial, inl (Js.Error Sales.noItems))
  /\ Sales.completeSale Sample.now Sample.offline Sample.catalogue Sample.twoLines
     = (Sample.offline, Sample.catalogue,
        {| Sales.sales := []; Sales.loading := false;
           Sales.error := Some "Error completing sale";
           Sales.currentSale := Sales.currentSale Sample.twoLines |},
        inl (Js.Thrown MemoryDb.transport)).
Proof.
  split.
  - apply (completeSale_empty_or_header_refused
             Sample.now Sample.db Sample.catalogue Sales.initial).
    reflexivity.
  - apply (proj2 (completeSale_empty_or_header_refused
                    Sample.now Sample.offline Sample.catalogue Sample.twoLines)
             Sample.offline MemoryDb.transport).
    + discriminate.
    + reflexivity.
Defined.


(** The same checkout: B1 goes from 3 to 1 and B2 from 3 to 2. *)
Lemma completeSale_decrements_stock_scenario :
  exists db' booksStore' s' sale,
    Sales.completeSale Sample.now Sample.db Sample.catalogue
                       (Sales.setDiscount Sample.twoLines Sample.ten)
    = (db', booksStore', s', inr sale)
    /\ (forall item book,
           In item (Cart.items Sample.twoLines) ->
           Books.getBookById Sample.catalogue (Sales.Item.bookId item) = Some book ->
           exists book',
             Books.getBookById booksStore' (Sales.Item.bookId item) = Some book'
             /\ Books.stock book'
                = Z.max 0 (Books.stock book - Sales.Item.quantity item))
    /\ map Books.stock (Books.books booksStore') = [1; 2].
Proof.
  destruct (Sales.completeSale Sample.now Sample.db Sample.catalogue
                               (Sales.setDiscount Sample.twoLines Sample.ten))
    as [[[db' booksStore'] s'] [err|sale]] eqn:Hrun.
  - vm_compute in Hrun. discriminate.
  - exists db', booksStore', s', sale. split; [reflexivity|]. split.
    + apply (proj1 (completeSale_decrements_stock_floored memoryDb_answers)
               Sample.now Sample.db db' Sample.catalogue booksStore'
               (Sales.setDiscount Sample.twoLines Sample.ten) s' sale).
      * exists [(Sample.catalogue, Cart.addItem "B1" 2);
                (Sample.catalogue, Cart.addItem "B2" 1)], Sales.initial.
        reflexivity.
      * exact Hrun.
    + vm_compute in Hrun. now injection Hrun as _ <- _ _.
Defined.

(** A line whose book is not in the loaded catalogue.  The database holds B1
    and B2 with three copies each, the catalogue page holds B1 only and the
    draft holds two copies of B1 and one of B2.  The checkout returns a sale
    with both lines; the stock of B2 is 3 before and after, not
    [max(0, 3 - 1)]. *)
Lemma completeSale_leaves_stock_of_unloaded_book :
  exists db' booksStore' s' sale,
    Sales.completeSale Sample.now Sample.db Sample.firstPage Sample.twoLines
    = (db', booksStore', s', inr sale)
    /\ map (fun item => (Sales.Item.bookId item, Sales.Item.quantity item))
           (Sales.Sale.items sale) = [("B1", 2); ("B2", 1)]
    /\ map (fun row => (Supabase.id row, Supabase.stock row))
           (MemoryDb.bookRows Sample.db) = [("B1", 3); ("B2", 3)]
    /\ map (fun row => (Supabase.id row, Supabase.stock row))
           (MemoryDb.bookRows db') = [("B1", 1); ("B2", 3)]
    /\ Books.getBookById Sample.firstPage "B2" = None
    /\ Books.getBookById booksStore' "B2" = None
    /\ 3 <> Z.max 0 (3 - 1).
Proof.
  destruct (Sales.completeSale Sample.now Sample.db Sample.firstPage Sample.twoLines)
    as [[[db' booksStore'] s'] [err|sale]] eqn:Hrun.
  - vm_compute in Hrun. discriminate.
  - exists db', booksStore', s', sale. split; [reflexivity|].
    vm_compute in Hrun. injection Hrun as <- <- _ <-.
    repeat split. discriminate.
Qed.

(** The draft holds B1 and B2, the catalogue page holds B1 only: the sale is
    recorded with both lines and only the stock of B1 changes. *)
Lemma missing_book_scenario :
  Books.updateStock Sample.db Sample.firstPage "B2" (-1)
  = (Sample.db, Sample.firstPage, inr tt)
  /\ exists db3 booksStore3 s' sale,
       Sales.completeSale Sample.now Sample.db Sample.firstPage Sample.twoLines
       = (db3, booksStore3, s', inr sale)
       /\ Sales.sales s' = [sale]
       /\ map Sales.Item.bookId (Sales.Sale.items sale) = ["B1"; "B2"]
       /\ Books.getBookById booksStore3 "B2" = None
       /\ map Books.stock (Books.books booksStore3) = [1]
       /\ map Supabase.stock (MemoryDb.bookRows db3) = [1; 3].
Proof.
  destruct (missing_book_is_skipped (C := Binary64.carrier) memoryDb_answers)
    as [Hnoop Hskip].
  split.
  - apply Hnoop. reflexivity.
  - destruct (Supabase.insertSale Sample.db (Sales.saleInsertOf Sample.twoLines))
      as [db1 [saleErr|saleRow]] eqn:Hsale;
      [vm_compute in Hsale; discriminate|].
    destruct (Supabase.insertSaleItems db1 (Sales.itemsRowsOf saleRow Sample.twoLines))
      as [db2 [itemsErr|]] eqn:Hrows.
    { vm_compute in Hsale. injection Hsale as <- <-.
      vm_compute in Hrows. discriminate. }
    destruct (Sales.updateStocks db2 Sample.firstPage
                [{| Sales.Item.bookId := "B1"; Sales.Item.title := "Title B1";
                    Sales.Item.author := "Author B1"; Sales.Item.price := Sample.ten;
                    Sales.Item.quantity := 2;
                    Sales.Item.subtotal := (Sample.ten * Number.ofZ 2)%num |}])
      as [[db3 booksStore3] [err|[]]] eqn:Hloop.
    { vm_compute in Hsale. injection Hsale as <- <-.
      vm_compute in Hrows. injection Hrows as <-.
      vm_compute in Hloop. discriminate. }
    destruct (Hskip Sample.now Sample.db db1 db2 db3 Sample.firstPage booksStore3
                    Sample.twoLines saleRow
                    [{| Sales.Item.bookId := "B1"; Sales.Item.title := "Title B1";
                        Sales.Item.author := "Author B1"; Sales.Item.price := Sample.ten;
                        Sales.Item.quantity := 2;
                        Sales.Item.subtotal := (Sample.ten * Number.ofZ 2)%num |}]
                    {| Sales.Item.bookId := "B2"; Sales.Item.title := "Title B2";
                       Sales.Item.author := "Author B2";
                       Sales.Item.price := Sample.twelveFifty;
                       Sales.Item.quantity := 1;
                       Sales.Item.subtotal := (Sample.twelveFifty * Number.ofZ 1)%num |}
                    [] eq_refl eq_refl Hsale Hrows Hloop)
      as (s' & sale & Hrun & Hsales & _ & Hmissing).
    exists db3, booksStore3, s', sale.
    split; [exact Hrun|]. split; [exact Hsales|].
    split.
    { destruct (completeSale_returns_inv _ _ _ _ _ _ _ _ Hrun)
        as (_ & _ & row & _ & _ & _ & -> & _). reflexivity. }
    split; [exact Hmissing|].
    vm_compute in Hsale. injection Hsale as <- <-.
    vm_compute in Hrows. injection Hrows as <-.
    vm_compute in Hloop. injection Hloop as <- <-. split; reflexivity.
Defined.

(** ** Scenarios of the specification, run on the stores *)

(** One line of three books at 10.00 with a discount of 10: the subtotal is
    30.00, the tax 2.40 and the total 29.40. *)
Example scenario_totals :
  let s := Sales.setDiscount Sample.threeOfB1 Sample.ten in
  Sales.currentSaleSubtotal s = Number.ofZ 30
  /\ (Sales.currentSaleSubtotal s * Number.decimal 8 2)%num = Number.decimal 24 1
  /\ Sales.currentSaleTotal s = Number.decimal 294 1.
Proof. vm_compute. repeat split. Qed.

(** [setQuantity("B1", 0)] removes the only line: subtotal and total are 0. *)
Example scenario_setQuantity_zero :
  let s := Sales.updateItemQuantity Sample.threeOfB1 "B1" 0 in
  Cart.items s = []
  /\ Sales.currentSaleSubtotal s = Number.ofZ 0
  /\ Sales.currentSaleTotal s = Number.ofZ 0.
Proof. vm_compute. repeat split. Qed.

(** Two checkouts in a row of one and two copies of B1, with a stock of 3:
    the stock ends at 0 and two sales are recorded. *)
Example scenario_two_checkouts :
  let draft1 := Cart.run [(Sample.catalogue, Cart.addItem "B1" 1)] Sales.initial in
  let '(db1, books1, sales1, _) :=
    Sales.completeSale Sample.now Sample.db Sample.catalogue draft1 in
  let draft2 := Cart.run [(books1, Cart.addItem "B1" 2)] sales1 in
  let '(db2, books2, sales2, _) :=
    Sales.completeSale Sample.now db1 books1 draft2 in
  option_map Books.stock (Books.getBookById books2 "B1") = Some 0
  /\ map Sales.Sale.id (Sales.sales sales2) = ["sale-2"; "sale-1"]
  /\ map Supabase.stock (MemoryDb.bookRows db2) = [0; 3].
Proof. vm_compute. repeat split. Qed.

(** * Further properties of the stores *)

#[local] Existing Instance FlakyDb.remote.

(** ** Checkout: what a failure leaves behind *)

Section CheckoutOutcomes.
Context {C : Number.Carrier} {N : Number.JsNumber}.
Context {DB : Type} {remote : Supabase.Remote DB}.

(** X1.  Whatever makes [completeSale] throw (no line, a refused insert, a failed
    stock update), the draft and the list of sales are as before the call.
    With at least one line, [loading] is back to [false] and [error] holds the
    message of the thrown value; with no line the three states are untouched. *)
Theorem completeSale_throw_keeps_draft_and_sales :
  forall (now : Js.Date) (db db' : DB) (booksStore booksStore' : Books.State)
         (s s' : Sales.State) (err : Js.Exn),
    Sales.completeSale now db booksStore s = (db', booksStore', s', inl err) ->
    Sales.currentSale s' = Sales.currentSale s
    /\ Sales.sales s' = Sales.sales s
    /\ (Cart.items s <> [] ->
        Sales.loading s' = false
        /\ Sales.error s' = Some (Js.messageOr "Error completing sale" err))
    /\ (Cart.items s = [] -> db' = db /\ booksStore' = booksStore /\ s' = s).
Proof.
  intros now db db' booksStore booksStore' s s' err.
  unfold Sales.completeSale, Cart.items.
  destruct (Sales.Draft.items (Sales.currentSale s)) as [|i l] eqn:Hitems.
  - intros [= <- <- <- _]. repeat split; congruence.
  - unfold Sales.completeSaleTry.
    destruct (Supabase.insertSale db _) as [db1 [saleErr|saleRow]].
    + intros [= _ _ <- <-]. repeat split; congruence.
    + destruct (if (0 <? _)%nat then _ else _) as [db2 [itemsErr|]].
      * intros [= _ _ <- <-]. repeat split; congruence.
      * destruct (Sales.updateStocks db2 booksStore _) as [[db3 bs3] [e|[]]];
          [|discriminate].
        intros [= _ _ <- <-]. repeat split; congruence.
Qed.

(** X2.  A returning [completeSale] leaves an empty draft (no line, no customer,
    payment by cash, discount 0, no notes), [loading] at [false] and no error;
    the returned sale holds the lines of the draft as they were, and is the
    new head of the list of sales. *)
Theorem completeSale_returns_resets_draft :
  forall (now : Js.Date) (db db' : DB) (booksStore booksStore' : Books.State)
         (s s' : Sales.State) (sale : Sales.Sale.t),
    Sales.completeSale now db booksStore s = (db', booksStore', s', inr sale) ->
    s' = {| Sales.sales := sale :: Sales.sales s; Sales.loading := false;
            Sales.error := None; Sales.currentSale := Sales.emptyDraft |}
    /\ Sales.Sale.items sale = Cart.items s
    /\ Sales.Sale.customerId sale = Sales.Draft.customerId (Sales.currentSale s)
    /\ Sales.Sale.paymentMethod sale = Sales.Draft.paymentMethod (Sales.currentSale s)
    /\ Sales.Sale.status sale = "completed".
Proof.
  intros now db db' booksStore booksStore' s s' sale Hrun.
  destruct (completeSale_returns_inv _ _ _ _ _ _ _ _ Hrun)
    as (db1 & db2 & saleRow & Hsale & Hrows & Hloop & -> & _ & _).
  assert (Hne : Cart.items s <> []).
  { intros Hnil. unfold Sales.completeSale, Cart.items in *.
    rewrite Hnil in Hrun. discriminate. }
  rewrite (completeSale_returns now db db1 db2 db' booksStore booksStore' s saleRow
             Hne Hsale Hrows Hloop) in Hrun.
  injection Hrun as <-. repeat split.
Qed.

(** X3.  When the header is accepted and the insert of the lines is refused,
    [completeSale] throws the error of that insert.  No stock update is sent:
    the books store is unchanged and the database is as the refused insert
    left it, with the header in it. *)
Theorem completeSale_items_refused :
  forall (now : Js.Date) (db db1 db2 : DB) (booksStore : Books.State)
         (s : Sales.State) (saleRow : Supabase.Sale) (itemsErr : Js.RemoteError),
    Cart.items s <> [] ->
    Supabase.insertSale db (Sales.saleInsertOf s) = (db1, inr saleRow) ->
    Supabase.insertSaleItems db1 (Sales.itemsRowsOf saleRow s) = (db2, Some itemsErr) ->
    Sales.completeSale now db booksStore s
    = (db2, booksStore,
       {| Sales.sales := Sales.sales s; Sales.loading := false;
          Sales.error :=
            Some (Js.messageOr "Error completing sale" (Js.Thrown itemsErr));
          Sales.currentSale := Sales.currentSale s |},
       inl (Js.Thrown itemsErr)).
Proof.
  intros now db db1 db2 booksStore s saleRow itemsErr Hne Hsale Hrows.
  unfold Sales.completeSale.
  destruct (Sales.Draft.items (Sales.currentSale s)) as [|i l] eqn:Hl;
    [unfold Cart.items in Hne; congruence|].
  unfold Sales.completeSaleTry.
  change (Sales.saleInsertOf (Sales.setError None (Sales.setLoading true s)))
    with (Sales.saleInsertOf s).
  rewrite Hsale.
  change (Sales.itemsRowsOf saleRow (Sales.setError None (Sales.setLoading true s)))
    with (Sales.itemsRowsOf saleRow s).
  rewrite (itemsRows_nonempty saleRow s Hne), Hrows. reflexivity.
Qed.

(** The loop over the lines composes: running it on [pre ++ rest] is running
    it on [pre] and, unless that threw, on [rest] from where [pre] ended. *)
Lemma updateStocks_app pre rest : forall (db : DB) booksStore,
  Sales.updateStocks db booksStore (pre ++ rest)
  = match Sales.updateStocks db booksStore pre with
    | (db1, booksStore1, inr _) => Sales.updateStocks db1 booksStore1 rest
    | failure => failure
    end.
Proof.
  induction pre as [|x pre IH]; simpl; intros db bs; auto.
  destruct (Books.updateStock db bs _ _) as [[db1 bs1] [err|u]]; auto.
Qed.

(** X4.  No roll-back.  When both inserts are accepted, the stock updates of the
    lines [pre] go through and the update of the next line throws,
    [completeSale] throws that error and the catalogue is the one the updates
    of [pre] produced: those decrements stay, in the store and in the
    database, although no sale is recorded in the store. *)
Theorem completeSale_stock_failure_keeps_earlier_decrements :
  forall (now : Js.Date) (db db1 db2 db3 db4 : DB)
         (booksStore booksStore3 booksStore4 : Books.State)
         (s : Sales.State) (saleRow : Supabase.Sale) pre item post (err : Js.Exn),
    Cart.items s = (pre ++ item :: post)%list ->
    Supabase.insertSale db (Sales.saleInsertOf s) = (db1, inr saleRow) ->
    Supabase.insertSaleItems db1 (Sales.itemsRowsOf saleRow s) = (db2, None) ->
    Sales.updateStocks db2 booksStore pre = (db3, booksStore3, inr tt) ->
    Books.updateStock db3 booksStore3 (Sales.Item.bookId item)
                      (- Sales.Item.quantity item)
    = (db4, booksStore4, inl err) ->
    Sales.completeSale now db booksStore s
    = (db4, booksStore4,
       {| Sales.sales := Sales.sales s; Sales.loading := false;
          Sales.error := Some (Js.messageOr "Error completing sale" err);
          Sales.currentSale := Sales.currentSale s |},
       inl err)
    /\ Books.books booksStore4 = Books.books booksStore3.
Proof.
  intros now db db1 db2 db3 db4 booksStore booksStore3 booksStore4 s saleRow
         pre item post err Hitems Hsale Hrows Hpre Hitem.
  assert (Hne : Cart.items s <> []) by (rewrite Hitems; now destruct pre).
  split; [|eapply updateStock_throw_keeps_books; eauto].
  unfold Sales.completeSale.
  destruct (Sales.Draft.items (Sales.currentSale s)) as [|i l] eqn:Hl;
    [unfold Cart.items in Hne; congruence|].
  unfold Sales.completeSaleTry.
  change (Sales.saleInsertOf (Sales.setError None (Sales.setLoading true s)))
    with (Sales.saleInsertOf s).
  rewrite Hsale.
  change (Sales.itemsRowsOf saleRow (Sales.setError None (Sales.setLoading true s)))
    with (Sales.itemsRowsOf saleRow s).
  rewrite (itemsRows_nonempty saleRow s Hne), Hrows.
  change (Sales.Draft.items
            (Sales.currentSale (Sales.setError None (Sales.setLoading true s))))
    with (Cart.items s).
  rewrite Hitems, updateStocks_app, Hpre. simpl. rewrite Hitem. reflexivity.
Qed.

End CheckoutOutcomes.

(** The connection drops after the two inserts: the first stock update
    throws, the draft of two lines and the empty list of sales are kept. *)
Lemma completeSale_throw_scenario :
  exists db' booksStore' s' err,
    Sales.completeSale Sample.now (FlakyDb.sample 2) Sample.catalogue Sample.twoLines
    = (db', booksStore', s', inl err)
    /\ Sales.currentSale s' = Sales.currentSale Sample.twoLines
    /\ Sales.sales s' = []
    /\ Sales.loading s' = false
    /\ Sales.error s' = Some "Error al actualizar libro".
Proof.
  destruct (Sales.completeSale Sample.now (FlakyDb.sample 2) Sample.catalogue
                               Sample.twoLines)
    as [[[db' booksStore'] s'] [err|sale]] eqn:Hrun.
  - exists db', booksStore', s', err. split; [reflexivity|].
    destruct (completeSale_throw_keeps_draft_and_sales _ _ _ _ _ _ _ _ Hrun)
      as (Hdraft & Hsales & Hflags & _).
    split; [exact Hdraft|]. split; [exact Hsales|].
    destruct Hflags as [Hloading Herror]; [discriminate|].
    split; [exact Hloading|].
    rewrite Herror. vm_compute in Hrun. now injection Hrun as _ _ _ <-.
  - vm_compute in Hrun. discriminate.
Defined.

(** A checkout of two lines on the reference database. *)
Lemma completeSale_resets_scenario :
  exists db' booksStore' sale,
    Sales.completeSale Sample.now Sample.db Sample.catalogue
                       (Sales.setDiscount Sample.twoLines Sample.ten)
    = (db', booksStore',
       {| Sales.sales := [sale]; Sales.loading := false; Sales.error := None;
          Sales.currentSale := Sales.emptyDraft |},
       inr sale)
    /\ Sales.Sale.items sale = Cart.items Sample.twoLines.
Proof.
  destruct (Sales.completeSale Sample.now Sample.db Sample.catalogue
                               (Sales.setDiscount Sample.twoLines Sample.ten))
    as [[[db' booksStore'] s'] [err|sale]] eqn:Hrun.
  - vm_compute in Hrun. discriminate.
  - destruct (completeSale_returns_resets_draft _ _ _ _ _ _ _ _ Hrun)
      as (-> & Hitems & _).
    exists db', booksStore', sale. split; [reflexivity|exact Hitems].
Defined.

(** A draft with a line of quantity 0: the header is accepted, the line is
    refused by the check on [sale_items.quantity], and the header stays in
    the database. *)
Lemma completeSale_items_refused_scenario :
  let s := Cart.run [(Sample.catalogue, Cart.addItem "B1" 0)] Sales.initial in
  exists db2,
    Sales.completeSale Sample.now Sample.db Sample.catalogue s
    = (db2, Sample.catalogue,
       {| Sales.sales := []; Sales.loading := false;
          Sales.error := Some "Error completing sale";
          Sales.currentSale := Sales.currentSale s |},
       inl (Js.Thrown MemoryDb.checkViolation))
    /\ length (MemoryDb.saleRows db2) = 1%nat
    /\ MemoryDb.saleItemRows db2 = [].
Proof.
  intros s. eexists. split.
  - eapply (completeSale_items_refused Sample.now Sample.db _ _ Sample.catalogue s
              _ MemoryDb.checkViolation).
    + discriminate.
    + reflexivity.
    + reflexivity.
  - split; reflexivity.
Defined.

(** The connection drops after the stock update of the first line: B1 is
    decremented in the store and in the database, B2 is not, and no sale is
    recorded in the store. *)
Lemma completeSale_no_rollback_scenario :
  exists db4 booksStore4 s' err,
    Sales.completeSale Sample.now (FlakyDb.sample 3) Sample.catalogue Sample.twoLines
    = (db4, booksStore4, s', inl err)
    /\ Sales.sales s' = []
    /\ map Books.stock (Books.books booksStore4) = [1; 3]
    /\ map Supabase.stock (MemoryDb.bookRows (FlakyDb.inner db4)) = [1; 3]
    /\ length (MemoryDb.saleRows (FlakyDb.inner db4)) = 1%nat.
Proof.
  eexists _, _, _, _. split.
  - eapply (completeSale_stock_failure_keeps_earlier_decrements
              Sample.now (FlakyDb.sample 3) _ _ _ _ Sample.catalogue _ _
              Sample.twoLines _
              [{| Sales.Item.bookId := "B1"; Sales.Item.title := "Title B1";
                  Sales.Item.author := "Author B1"; Sales.Item.price := Sample.ten;
                  Sales.Item.quantity := 2;
                  Sales.Item.subtotal := (Sample.ten * Number.ofZ 2)%num |}]
              {| Sales.Item.bookId := "B2"; Sales.Item.title := "Title B2";
                 Sales.Item.author := "Author B2"; Sales.Item.price := Sample.twelveFifty;
                 Sales.Item.quantity := 1;
                 Sales.Item.subtotal := (Sample.twelveFifty * Number.ofZ 1)%num |}
              []).
    + reflexivity.
    + reflexivity.
    + reflexivity.
    + reflexivity.
    + reflexivity.
  - repeat split.
Defined.

(** ** Stock never goes below zero *)

Lemma assign_Forall {A : Type} (P : A -> Prop) (n : nat) (v : A) (l : list A) :
  Forall P l -> P v -> Forall P (Js.assign n v l).
Proof.
  intros Hl Hv. revert n. induction Hl as [|x r Hx Hr IH]; intros [|n]; simpl; auto.
Qed.

Section StockFloor.
Context {C : Number.Carrier} {N : Number.JsNumber}.
Context {DB : Type} {remote : Supabase.Remote DB}.
Hypothesis answers : answersWithUpdatedRow.

Lemma updateStock_keeps_floor (db db' : DB) booksStore booksStore' i q r :
  Forall (fun book => 0 <= Books.stock book) (Books.books booksStore) ->
  Books.updateStock db booksStore i q = (db', booksStore', r) ->
  Forall (fun book => 0 <= Books.stock book) (Books.books booksStore').
Proof.
  intros Hfloor. unfold Books.updateStock, Books.updateBook.
  destruct (find _ _) as [book|]; [|now intros [= _ <- _]].
  destruct (Supabase.updateBookRow _ _ _) as [db1 [e|data]] eqn:Hrow.
  - now intros [= _ <- _].
  - destruct (answers _ _ _ _ _ Hrow) as [_ Hstock].
    intros [= _ <- _]. simpl.
    destruct (Js.findIndex _ _); simpl; auto.
    apply assign_Forall; auto. simpl.
    rewrite (Hstock _ eq_refl). apply Z.le_max_l.
Qed.

Lemma updateStocks_keeps_floor items : forall (db db' : DB) booksStore booksStore' r,
  Forall (fun book => 0 <= Books.stock book) (Books.books booksStore) ->
  Sales.updateStocks db booksStore items = (db', booksStore', r) ->
  Forall (fun book => 0 <= Books.stock book) (Books.books booksStore').
Proof.
  induction items as [|x rest IH]; simpl; intros db db' bs bs' r Hfloor.
  - now intros [= _ <- _].
  - destruct (Books.updateStock db bs _ _) as [[db1 bs1] [err|u]] eqn:Hone.
    + intros [= _ <- _]. eapply updateStock_keeps_floor; eauto.
    + intros Hrest. eapply IH; [|exact Hrest].
      eapply updateStock_keeps_floor; eauto.
Qed.

(** X5.  Provided the database answers an accepted update with the row asked for:
    if no book of the catalogue has a negative stock, none has one after
    [updateStock], whatever the delta and the outcome, nor after
    [completeSale], whatever the draft and the outcome. *)
Theorem stock_is_never_negative :
  (forall (db db' : DB) booksStore booksStore' i delta r,
      Forall (fun book => 0 <= Books.stock book) (Books.books booksStore) ->
      Books.updateStock db booksStore i delta = (db', booksStore', r) ->
      Forall (fun book => 0 <= Books.stock book) (Books.books booksStore'))
  /\ (forall now (db db' : DB) booksStore booksStore' s s' r,
         Forall (fun book => 0 <= Books.stock book) (Books.books booksStore) ->
         Sales.completeSale now db booksStore s = (db', booksStore', s', r) ->
         Forall (fun book => 0 <= Books.stock book) (Books.books booksStore')).
Proof.
  split.
  - intros; eapply updateStock_keeps_floor; eauto.
  - intros now db db' bs bs' s s' r Hfloor.
    unfold Sales.completeSale.
    destruct (Sales.Draft.items (Sales.currentSale s)) as [|i l] eqn:Hitems.
    + now intros [= _ <- _ _].
    + unfold Sales.completeSaleTry.
      destruct (Supabase.insertSale db _) as [db1 [saleErr|saleRow]].
      * now intros [= _ <- _ _].
      * destruct (if (0 <? _)%nat then _ else _) as [db2 [itemsErr|]].
        -- now intros [= _ <- _ _].
        -- destruct (Sales.updateStocks db2 bs _) as [[db3 bs3] [e|[]]] eqn:Hloop;
             intros [= _ <- _ _]; eapply updateStocks_keeps_floor; eauto.
Qed.

End StockFloor.

(** Five copies of B1 are written off while three are in stock, and a draft
    of two lines is checked out. *)
Lemma stock_is_never_negative_scenario :
  Forall (fun book => 0 <= Books.stock book)
         (Books.books (snd (fst (Books.updateStock Sample.db Sample.catalogue "B1" (-5)))))
  /\ map Books.stock
         (Books.books (snd (fst (Books.updateStock Sample.db Sample.catalogue "B1" (-5)))))
     = [0; 3]
  /\ Forall (fun book => 0 <= Books.stock book)
            (Books.books
               (snd (fst (fst (Sales.completeSale Sample.now Sample.db Sample.catalogue
                                                  Sample.twoLines))))).
Proof.
  destruct (stock_is_never_negative (C := Binary64.carrier) memoryDb_answers)
    as [Hadjust Hcheckout].
  split; [|split].
  - destruct (Books.updateStock Sample.db Sample.catalogue "B1" (-5))
      as [[db' booksStore'] r] eqn:Hrun.
    apply (Hadjust Sample.db db' Sample.catalogue booksStore' "B1" (-5) r);
      [|exact Hrun].
    repeat constructor; simpl; lia.
  - reflexivity.
  - destruct (Sales.completeSale Sample.now Sample.db Sample.catalogue Sample.twoLines)
      as [[[db' booksStore'] s'] r] eqn:Hrun.
    apply (Hcheckout Sample.now Sample.db db' Sample.catalogue booksStore'
                     Sample.twoLines s' r); [|exact Hrun].
    repeat constructor; simpl; lia.
Defined.

(** ** The draft: the discount *)

(** X6.  [setDiscount] writes the discount of the draft and nothing else: the
    lines, and so the subtotal, and the other fields of the draft are kept.
    In doubles the discount it stores, [Math.max(0, Math.min(100, discount))],
    is [NaN] when the argument is [NaN] and is otherwise at least 0 and at
    most 100, whatever the argument; an argument strictly between 0 and 100
    is stored as it is. *)
Theorem setDiscount_clamps_the_discount :
  (forall (C : Number.Carrier) (N : Number.JsNumber) (s : Sales.State)
          (discount : number),
      let s' := Sales.setDiscount s discount in
      Cart.items s' = Cart.items s
      /\ Sales.currentSaleSubtotal s' = Sales.currentSaleSubtotal s
      /\ Sales.Draft.customerId (Sales.currentSale s')
         = Sales.Draft.customerId (Sales.currentSale s)
      /\ Sales.Draft.customerName (Sales.currentSale s')
         = Sales.Draft.customerName (Sales.currentSale s)
      /\ Sales.Draft.paymentMethod (Sales.currentSale s')
         = Sales.Draft.paymentMethod (Sales.currentSale s)
      /\ Sales.Draft.notes (Sales.currentSale s')
         = Sales.Draft.notes (Sales.currentSale s)
      /\ Sales.sales s' = Sales.sales s)
  /\ (forall (s : @Sales.State Binary64.carrier) (discount : spec_float),
         let stored :=
           Sales.Draft.discount (Sales.currentSale (Sales.setDiscount s discount)) in
         (stored = S754_nan <-> discount = S754_nan)
         /\ (stored <> S754_nan ->
             (Number.ofZ 0 <=? stored)%num = true
             /\ (stored <=? Number.ofZ 100)%num = true)
         /\ (SFltb (Number.ofZ 0) discount = true ->
             SFltb discount (Number.ofZ 100) = true ->
             stored = discount)).
Proof.
  split.
  - intros C N s discount s'. repeat split.
  - intros s discount stored.
    destruct (clamped_to_percent discount) as [Hnan Hrange].
    split; [exact Hnan|]. split; [exact Hrange|].
    apply (percent_is_kept discount).
Qed.

(** A discount of 12.5 is stored as it is, one of 250 as 100, one of -3 as
    0. *)
Lemma setDiscount_scenario :
  Sales.Draft.discount
    (Sales.currentSale (Sales.setDiscount Sample.twoLines Sample.twelveFifty))
  = Sample.twelveFifty
  /\ Sales.Draft.discount
       (Sales.currentSale (Sales.setDiscount Sample.twoLines (Number.ofZ 250)))
     = Number.ofZ 100
  /\ Sales.Draft.discount
       (Sales.currentSale (Sales.setDiscount Sample.twoLines (Number.ofZ (-3))))
     = Number.ofZ 0.
Proof.
  split; [|split; reflexivity].
  apply (proj2 (proj2 (proj2 setDiscount_clamps_the_discount Sample.twoLines
                         Sample.twelveFifty))); reflexivity.
Defined.

(** ** The draft: removing and resizing a line *)

Section RemoveAndResize.
Context {C : Number.Carrier} {N : Number.JsNumber}.

Lemma find_splice1_same (bookId : string) (l : list Sales.Item.t) n :
  NoDup (map Sales.Item.bookId l) ->
  Js.findIndex (Sales.forBook bookId) l = Some n ->
  find (Sales.forBook bookId) (Js.splice1 n l) = None.
Proof.
  revert n. induction l as [|x r IH]; simpl; intros n Hnodup; [discriminate|].
  apply NoDup_cons_iff in Hnodup as [Hx Hr].
  destruct (Sales.forBook bookId x) eqn:Hpx.
  - intros [= <-]. simpl.
    destruct (find (Sales.forBook bookId) r) as [y|] eqn:Hy; auto.
    apply find_some in Hy as [Hin Hpy]. exfalso. apply Hx.
    unfold Sales.forBook in Hpx, Hpy.
    apply String.eqb_eq in Hpx, Hpy. rewrite Hpx, <- Hpy. now apply in_map.
  - destruct (Js.findIndex _ r) as [m|] eqn:Hm; simpl; [|discriminate].
    intros [= <-]. simpl. rewrite Hpx. auto.
Qed.

Lemma find_splice1_other {A : Type} (p q : A -> bool) (l : list A) n :
  Js.findIndex p l = Some n ->
  (forall x, p x = true -> q x = false) ->
  find q (Js.splice1 n l) = find q l.
Proof.
  revert n. induction l as [|y r IH]; simpl; intros n; [discriminate|].
  destruct (p y) eqn:Hy.
  - intros [= <-] Hpq. simpl. now rewrite (Hpq y Hy).
  - destruct (Js.findIndex p r) as [m|] eqn:Hm; simpl; [|discriminate].
    intros [= <-] Hpq. simpl. destruct (q y); auto.
Qed.


Lemma forBook_exclusive bookId other x :
  other <> bookId -> Sales.forBook bookId x = true -> Sales.forBook other x = false.
Proof.
  unfold Sales.forBook. intros Hne Hx. apply String.eqb_eq in Hx.
  apply String.eqb_neq. congruence.
Qed.

(** X7.  On a draft built by the cart operations, [removeItemFromCurrentSale]
    leaves no line for the book, whatever its quantity was, and the line of
    every other book is the one it was; for a book without a line the store is
    unchanged. *)
Theorem removeItem_drops_the_line :
  forall (s : Sales.State) (bookId : string),
    Cart.built s ->
    let s' := Sales.removeItemFromCurrentSale s bookId in
    find (Sales.forBook bookId) (Cart.items s') = None
    /\ (forall other, other <> bookId ->
          find (Sales.forBook other) (Cart.items s')
          = find (Sales.forBook other) (Cart.items s))
    /\ (find (Sales.forBook bookId) (Cart.items s) = None -> s' = s).
Proof.
  intros s bookId Hbuilt s'. apply built_NoDup in Hbuilt.
  subst s'. unfold Sales.removeItemFromCurrentSale, Cart.items, Cart.bookIds in *.
  destruct (Js.findIndex _ _) as [n|] eqn:Hn; simpl.
  - split; [now apply find_splice1_same|]. split.
    + intros other Hne. eapply find_splice1_other; eauto.
      intros x. now apply forBook_exclusive.
    + intros Hnone. now rewrite (findIndex_none_of_find _ _ Hnone) in Hn.
  - split; [|split; auto].
    destruct (find _ _) as [x|] eqn:Hx; auto.
    destruct (findIndex_of_find _ _ _ Hx) as (m & Hm & _). congruence.
Qed.

End RemoveAndResize.

(** B1 is removed from a draft of B1 and B2. *)
Lemma removeItem_scenario :
  find (Sales.forBook "B1")
       (Cart.items (Sales.removeItemFromCurrentSale Sample.twoLines "B1")) = None
  /\ map Sales.Item.bookId
         (Cart.items (Sales.removeItemFromCurrentSale Sample.twoLines "B1")) = ["B2"].
Proof.
  split; [|reflexivity].
  apply (removeItem_drops_the_line Sample.twoLines "B1").
  exists [(Sample.catalogue, Cart.addItem "B1" 2);
          (Sample.catalogue, Cart.addItem "B2" 1)], Sales.initial.
  reflexivity.
Defined.

Section RemoveAndResizeContinued.
Context {C : Number.Carrier} {N : Number.JsNumber}.

(** X8.  [updateItemQuantity] with a positive quantity on a book that has a line
    sets the quantity of that line to the one given, whatever the stock of
    the book (no catalogue is consulted), and recomputes the subtotal from the
    price stored in the line; the other lines are kept.  For a book without a
    line the store is unchanged. *)
Theorem updateItemQuantity_sets_the_quantity :
  forall (s : Sales.State) (bookId : string) (quantity : Z),
    0 < quantity ->
    match find (Sales.forBook bookId) (Cart.items s) with
    | None => Sales.updateItemQuantity s bookId quantity = s
    | Some line =>
        exists pre post,
          Cart.items s = (pre ++ line :: post)%list
          /\ Cart.items (Sales.updateItemQuantity s bookId quantity)
             = (pre ++ {| Sales.Item.bookId := Sales.Item.bookId line;
                          Sales.Item.title := Sales.Item.title line;
                          Sales.Item.author := Sales.Item.author line;
                          Sales.Item.price := Sales.Item.price line;
                          Sales.Item.quantity := quantity;
                          Sales.Item.subtotal :=
                            (Sales.Item.price line * Number.ofZ quantity)%num |}
                    :: post)%list
    end.
Proof.
  intros s bookId quantity Hq. unfold Sales.updateItemQuantity, Cart.items.
  destruct (find _ _) as [line|] eqn:Hline; auto.
  destruct (find_some_split _ _ _ Hline) as (pre & post & Hitems & Hpre & Hx).
  exists pre, post. split; [exact Hitems|].
  destruct (Z.leb_spec quantity 0); [lia|]. simpl.
  rewrite Hitems, (mutateFirst_at _ _ pre line post Hpre Hx). reflexivity.
Qed.

End RemoveAndResizeContinued.

(** Nine copies of B1 are asked for; the catalogue has three. *)
Lemma updateItemQuantity_scenario :
  map Sales.Item.quantity
      (Cart.items (Sales.updateItemQuantity Sample.twoLines "B1" 9)) = [9; 1]
  /\ match find (Sales.forBook "B1") (Cart.items Sample.twoLines) with
     | None => Sales.updateItemQuantity Sample.twoLines "B1" 9 = Sample.twoLines
     | Some line =>
         exists pre post,
           Cart.items Sample.twoLines = (pre ++ line :: post)%list
           /\ Cart.items (Sales.updateItemQuantity Sample.twoLines "B1" 9)
              = (pre ++ {| Sales.Item.bookId := Sales.Item.bookId line;
                           Sales.Item.title := Sales.Item.title line;
                           Sales.Item.author := Sales.Item.author line;
                           Sales.Item.price := Sales.Item.price line;
                           Sales.Item.quantity := 9;
                           Sales.Item.subtotal :=
                             (Sales.Item.price line * Number.ofZ 9)%num |}
                     :: post)%list
     end.
Proof.
  split; [reflexivity|].
  apply (updateItemQuantity_sets_the_quantity Sample.twoLines "B1" 9). lia.
Defined.

(** ** Sales: totals and look-ups after a checkout *)

Section AfterCheckout.
Context {C : Number.Carrier} {N : Number.JsNumber}.
Context {DB : Type} {remote : Supabase.Remote DB}.

(** X9.  A returning [completeSale] raises the number of sales by one.  The new
    sale being put first in the list, the total revenue is afterwards the sum
    that starts with the total of the draft, added to 0, and goes on with the
    totals of the earlier sales in their order.  [getSaleById] with the
    identifier of the returned sale finds that very sale, even when an older
    sale carries the same identifier. *)
Theorem completeSale_adds_to_revenue :
  forall (now : Js.Date) (db db' : DB) (booksStore booksStore' : Books.State)
         (s s' : Sales.State) (sale : Sales.Sale.t),
    Sales.completeSale now db booksStore s = (db', booksStore', s', inr sale) ->
    SalesViews.totalSales s' = S (SalesViews.totalSales s)
    /\ SalesViews.totalRevenue s'
       = fold_left (fun sum sale => (sum + Sales.Sale.total sale)%num)
                   (Sales.sales s)
                   (Number.ofZ 0 + Sales.currentSaleTotal s)%num
    /\ SalesViews.getSaleById s' (Sales.Sale.id sale) = Some sale.
Proof.
  intros now db db' booksStore booksStore' s s' sale Hrun.
  destruct (completeSale_returns_inv _ _ _ _ _ _ _ _ Hrun)
    as (db1 & db2 & saleRow & _ & _ & _ & Hsale & Hsales & _).
  unfold SalesViews.totalSales, SalesViews.totalRevenue, SalesViews.getSaleById.
  rewrite Hsales. simpl. split; [reflexivity|]. split.
  - rewrite Hsale. reflexivity.
  - unfold SalesViews.hasId. now rewrite String.eqb_refl.
Qed.

End AfterCheckout.

(** Two lines and a discount of 10 on the reference database: the revenue
    goes from 0 to 31.85. *)
Lemma completeSale_revenue_scenario :
  exists db' booksStore' s' sale,
    Sales.completeSale Sample.now Sample.db Sample.catalogue
                       (Sales.setDiscount Sample.twoLines Sample.ten)
    = (db', booksStore', s', inr sale)
    /\ SalesViews.totalSales s' = 1%nat
    /\ SalesViews.totalRevenue s' = Number.decimal 3185 2
    /\ SalesViews.getSaleById s' "sale-1" = Some sale.
Proof.
  destruct (Sales.completeSale Sample.now Sample.db Sample.catalogue
                               (Sales.setDiscount Sample.twoLines Sample.ten))
    as [[[db' booksStore'] s'] [err|sale]] eqn:Hrun.
  - vm_compute in Hrun. discriminate.
  - exists db', booksStore', s', sale. split; [reflexivity|].
    destruct (completeSale_adds_to_revenue _ _ _ _ _ _ _ _ Hrun)
      as (Hcount & Hrevenue & Hfind).
    split; [exact Hcount|]. split.
    + rewrite Hrevenue. vm_compute. reflexivity.
    + vm_compute in Hrun. injection Hrun as _ _ _ <-. exact Hfind.
Defined.

(** ** Plain objects *)

Lemma find_mutateFirst_same {A : Type} (p : A -> bool) (f : A -> A) (l : list A) x :
  find p l = Some x -> p (f x) = true -> find p (Js.mutateFirst p f l) = Some (f x).
Proof.
  induction l as [|y r IH]; simpl; [discriminate|].
  destruct (p y) eqn:Hy.
  - intros [= ->] Hfx. simpl. now rewrite Hfx.
  - intros Hr Hfx. simpl. rewrite Hy. auto.
Qed.

Lemma find_mutateFirst_other {A : Type} (p q : A -> bool) (f : A -> A) (l : list A) :
  (forall x, p x = true -> q x = false /\ q (f x) = false) ->
  find q (Js.mutateFirst p f l) = find q l.
Proof.
  intros Hpq. induction l as [|y r IH]; simpl; auto.
  destruct (p y) eqn:Hy; simpl.
  - destruct (Hpq y Hy) as [-> ->]. reflexivity.
  - destruct (q y); auto.
Qed.

Lemma find_app_none {A : Type} (p : A -> bool) (l r : list A) :
  find p l = None -> find p (l ++ r) = find p r.
Proof.
  induction l as [|y l IH]; simpl; auto. destruct (p y); [discriminate|auto].
Qed.

Lemma find_app_some {A : Type} (p : A -> bool) (l r : list A) x :
  find p l = Some x -> find p (l ++ r) = Some x.
Proof.
  induction l as [|y l IH]; simpl; [discriminate|]. destruct (p y); auto.
Qed.

Lemma getOwn_set_same {V : Type} (k : string) (v : V) (o : JsObject.t V) :
  JsObject.getOwn k (JsObject.set k v o) = Some v.
Proof.
  unfold JsObject.getOwn, JsObject.set.
  destruct (find (JsObject.hasKey k) o) as [kv|] eqn:Hfind.
  - rewrite (find_mutateFirst_same _ _ _ _ Hfind); [reflexivity|].
    unfold JsObject.hasKey. simpl. apply String.eqb_refl.
  - rewrite (find_app_none _ _ _ Hfind). simpl.
    unfold JsObject.hasKey. simpl. now rewrite String.eqb_refl.
Qed.

Lemma getOwn_set_other {V : Type} (k k' : string) (v : V) (o : JsObject.t V) :
  k' <> k -> JsObject.getOwn k' (JsObject.set k v o) = JsObject.getOwn k' o.
Proof.
  intros Hne. unfold JsObject.getOwn, JsObject.set.
  destruct (find (JsObject.hasKey k) o) as [kv|] eqn:Hfind.
  - rewrite find_mutateFirst_other; auto.
    intros x Hx. unfold JsObject.hasKey in *. simpl.
    apply String.eqb_eq in Hx. rewrite Hx. split; now apply String.eqb_neq.
  - destruct (find (JsObject.hasKey k') o) as [kv|] eqn:Hfind'.
    + now rewrite (find_app_some _ _ _ _ Hfind').
    + rewrite (find_app_none _ _ _ Hfind'). simpl.
      unfold JsObject.hasKey. simpl.
      assert ((k =? k')%string = false) as -> by (apply String.eqb_neq; congruence).
      reflexivity.
Qed.

(** ** Sales by date *)

Section SalesByDate.
Context {C : Number.Carrier} {N : Number.JsNumber}.

Lemma date_range_of_one_day (s : Sales.State) (date : string) :
  SalesViews.getSalesByDateRange s date date
  = filter (fun sale => String.eqb (Sales.Sale.date sale) date) (Sales.sales s).
Proof.
  unfold SalesViews.getSalesByDateRange. apply filter_ext. intros sale.
  destruct (String.eqb_spec (Sales.Sale.date sale) date) as [->|Hne].
  - destruct (String.leb_total date date) as [H|H]; now rewrite H.
  - destruct (date <=? Sales.Sale.date sale)%string eqn:H1; simpl; auto.
    destruct (Sales.Sale.date sale <=? date)%string eqn:H2; auto.
    exfalso. apply Hne. now apply String.leb_antisym.
Qed.

Lemma groupSale_fold (l : list Sales.Sale.t) :
  forall (seen : list Sales.Sale.t) (o : JsObject.t (list Sales.Sale.t)),
    (forall date,
        JsObject.getOwn date o
        = match filter (fun sale => String.eqb (Sales.Sale.date sale) date) seen with
          | [] => None
          | group => Some group
          end) ->
    Forall (fun sale => JsObject.inherited (Sales.Sale.date sale) = false) l ->
    exists o',
      fold_left SalesViews.groupSale l (Some o) = Some o'
      /\ forall date,
           JsObject.getOwn date o'
           = match filter (fun sale => String.eqb (Sales.Sale.date sale) date)
                          (seen ++ l) with
             | [] => None
             | group => Some group
             end.
Proof.
  induction l as [|sale l IH]; intros seen o Ho Hl.
  - exists o. split; [reflexivity|]. now rewrite app_nil_r.
  - apply Forall_cons_iff in Hl as [Hsale Hl]. cbn [fold_left].
    assert (Hstep : exists o1,
               SalesViews.groupSale (Some o) sale = Some o1
               /\ forall date,
                    JsObject.getOwn date o1
                    = match filter (fun x => String.eqb (Sales.Sale.date x) date)
                                   (seen ++ [sale]) with
                      | [] => None
                      | group => Some group
                      end).
    { unfold SalesViews.groupSale.
      pose proof (Ho (Sales.Sale.date sale)) as Hown.
      destruct (JsObject.getOwn (Sales.Sale.date sale) o) as [group|] eqn:Hget.
      - eexists. split; [reflexivity|]. intros date. rewrite filter_app. simpl.
        destruct (String.eqb_spec (Sales.Sale.date sale) date) as [<-|Hne].
        + rewrite getOwn_set_same.
          destruct (filter _ seen) as [|g gs]; [discriminate|].
          injection Hown as ->. reflexivity.
        + rewrite getOwn_set_other by congruence. rewrite app_nil_r. apply Ho.
      - rewrite Hsale. eexists. split; [reflexivity|]. intros date.
        rewrite filter_app. simpl.
        destruct (String.eqb_spec (Sales.Sale.date sale) date) as [<-|Hne].
        + rewrite getOwn_set_same.
          destruct (filter _ seen) as [|g gs]; [reflexivity|discriminate].
        + rewrite getOwn_set_other by congruence. rewrite app_nil_r. apply Ho. }
    destruct Hstep as (o1 & -> & Ho1).
    destruct (IH (seen ++ [sale])%list o1 Ho1 Hl) as (o' & Hfold & Ho').
    exists o'. split; [exact Hfold|].
    intros date. rewrite Ho'. now rewrite <- app_assoc.
Qed.

(** X10.  When no sale is dated with a name that objects inherit (a date written
    by [completeSale] never is), [salesByDate] returns an object in which the
    property of a date holds the sales of that date in the order of the list,
    the very array that [getSalesByDateRange] returns for the range of that
    single day; a date without a sale has no property. *)
Theorem salesByDate_groups_each_day :
  forall s : Sales.State,
    Forall (fun sale => JsObject.inherited (Sales.Sale.date sale) = false)
           (Sales.sales s) ->
    exists grouped,
      SalesViews.salesByDate s = Some grouped
      /\ forall date,
           JsObject.getOwn date grouped
           = match SalesViews.getSalesByDateRange s date date with
             | [] => None
             | group => Some group
             end.
Proof.
  intros s Hdates.
  destruct (groupSale_fold (Sales.sales s) [] [] (fun _ => eq_refl) Hdates)
    as (o & Hfold & Ho).
  exists o. split; [exact Hfold|].
  intros date. rewrite date_range_of_one_day. apply Ho.
Qed.

End SalesByDate.

(** Three sales on two days. *)
Lemma salesByDate_scenario :
  exists grouped,
    SalesViews.salesByDate Ledger.state = Some grouped
    /\ option_map (map Sales.Sale.id) (JsObject.getOwn "2024-06-01" grouped)
       = Some ["s2"; "s1"]
    /\ JsObject.getOwn "2024-06-03" grouped = None.
Proof.
  destruct (salesByDate_groups_each_day Ledger.state) as (grouped & Hrun & Hget).
  - repeat constructor.
  - exists grouped. split; [exact Hrun|]. rewrite !Hget. split; reflexivity.
Defined.

(** ** Sorting *)

Lemma insert_perm {A : Type} (compareFn : A -> A -> comparison) x (l : list A) :
  Permutation (JsArray.insert compareFn x l) (x :: l).
Proof.
  induction l as [|y r IH]; simpl; auto.
  destruct (compareFn x y); auto.
  rewrite IH. apply perm_swap.
Qed.

Lemma sort_perm {A : Type} (compareFn : A -> A -> comparison) (l : list A) :
  Permutation (JsArray.sort compareFn l) l.
Proof.
  induction l as [|x r IH]; simpl; auto.
  rewrite insert_perm. now constructor.
Qed.

Section SortedOutput.
Context {A : Type} (compareFn : A -> A -> comparison).
Hypothesis opposite : forall a b, compareFn a b = Gt -> compareFn b a <> Gt.

Lemma insert_sorted x (l : list A) :
  Sorted (fun a b => compareFn a b <> Gt) l ->
  Sorted (fun a b => compareFn a b <> Gt) (JsArray.insert compareFn x l).
Proof.
  induction 1 as [|y r Hr IH Hhd]; simpl.
  - repeat constructor.
  - destruct (compareFn x y) eqn:Hxy.
    + repeat constructor; auto. congruence.
    + repeat constructor; auto. congruence.
    + constructor; auto.
      destruct Hhd as [|z r' Hyz]; simpl.
      * constructor. now apply opposite.
      * destruct (compareFn x z); constructor; auto.
Qed.

Lemma sort_sorted (l : list A) :
  Sorted (fun a b => compareFn a b <> Gt) (JsArray.sort compareFn l).
Proof.
  induction l as [|x r IH]; simpl; [constructor|]. now apply insert_sorted.
Qed.

End SortedOutput.

Lemma firstn_StronglySorted {A : Type} (R : A -> A -> Prop) (l : list A) : forall n,
  StronglySorted R l -> StronglySorted R (firstn n l).
Proof.
  induction l as [|x r IH]; intros [|n] Hl; simpl; try constructor.
  - apply IH. now inversion Hl.
  - inversion Hl as [|? ? _ Hall]; subst.
    rewrite Forall_forall in *. intros y Hy. apply Hall.
    rewrite <- (firstn_skipn n r). apply in_or_app. now left.
Qed.

Lemma firstn_before_skipn {A : Type} (R : A -> A -> Prop) (l : list A) : forall n x y,
  StronglySorted R l -> In x (firstn n l) -> In y (skipn n l) -> R x y.
Proof.
  induction l as [|z r IH]; intros [|n] x y Hl; simpl; try contradiction.
  inversion Hl as [|? ? Hr Hall]; subst.
  intros [<-|Hx] Hy.
  - rewrite Forall_forall in Hall. apply Hall.
    rewrite <- (firstn_skipn n r). apply in_or_app. now right.
  - eapply IH; eauto.
Qed.

(** ** Top selling books *)

Lemma mutateFirst_map_on {A B : Type} (g : A -> B) p f (l : list A) :
  (forall x, p x = true -> g (f x) = g x) ->
  map g (Js.mutateFirst p f l) = map g l.
Proof.
  intros Hg. induction l as [|x r IH]; simpl; auto.
  destruct (p x) eqn:Hx; simpl; [now rewrite Hg|now rewrite IH].
Qed.

Lemma getOwn_none_not_key {V : Type} (k : string) (o : JsObject.t V) :
  JsObject.getOwn k o = None -> ~ In k (map fst o).
Proof.
  unfold JsObject.getOwn. destruct (find _ _) eqn:Hfind; [discriminate|].
  intros _ Hin. apply in_map_iff in Hin as ([k' v] & Hk & Hin). simpl in Hk. subst.
  pose proof (find_none _ _ Hfind _ Hin) as H.
  unfold JsObject.hasKey in H. simpl in H. now rewrite String.eqb_refl in H.
Qed.

Lemma getOwn_some_in {V : Type} (k : string) (v : V) (o : JsObject.t V) :
  JsObject.getOwn k o = Some v -> In (k, v) o.
Proof.
  unfold JsObject.getOwn. destruct (find _ _) as [[k' v']|] eqn:Hfind; [|discriminate].
  intros [= <-]. apply find_some in Hfind as [Hin Hk].
  unfold JsObject.hasKey in Hk. simpl in *. apply String.eqb_eq in Hk. now subst.
Qed.

Lemma set_present {V : Type} (k : string) (v old : V) (o : JsObject.t V) :
  NoDup (map fst o) ->
  JsObject.getOwn k o = Some old ->
  map fst (JsObject.set k v o) = map fst o
  /\ forall k' v', In (k', v') (JsObject.set k v o) ->
                   (k' = k /\ v' = v) \/ (In (k', v') o /\ k' <> k).
Proof.
  intros Hnodup. unfold JsObject.getOwn, JsObject.set.
  destruct (find (JsObject.hasKey k) o) as [kv|] eqn:Hfind; [|discriminate].
  intros _. split.
  - apply mutateFirst_map_on. intros x Hx. simpl.
    unfold JsObject.hasKey in Hx. apply String.eqb_eq in Hx. congruence.
  - destruct (find_some_split _ _ _ Hfind) as (pre & post & -> & Hpre & Hkv).
    rewrite (mutateFirst_at _ _ pre kv post Hpre Hkv).
    unfold JsObject.hasKey in Hkv. apply String.eqb_eq in Hkv.
    rewrite map_app in Hnodup. simpl in Hnodup. rewrite Hkv in Hnodup.
    pose proof (NoDup_remove_2 _ _ _ Hnodup) as Hnotin.
    intros k' v' Hin. apply in_app_or in Hin as [Hin|[Hin|Hin]].
    + right. split; [apply in_or_app; now left|].
      intros ->. apply Hnotin. apply in_or_app. left.
      now apply (in_map fst) in Hin.
    + left. now injection Hin as <- <-.
    + right. split; [apply in_or_app; right; now right|].
      intros ->. apply Hnotin. apply in_or_app. right.
      now apply (in_map fst) in Hin.
Qed.

Lemma set_absent {V : Type} (k : string) (v : V) (o : JsObject.t V) :
  JsObject.getOwn k o = None -> JsObject.set k v o = (o ++ [(k, v)])%list.
Proof.
  unfold JsObject.getOwn, JsObject.set.
  destruct (find (JsObject.hasKey k) o); [discriminate|reflexivity].
Qed.

Section TopSellingBooks.
Context {C : Number.Carrier} {N : Number.JsNumber}.

Lemma forBook_iff (k : string) (item : Sales.Item.t) :
  Sales.forBook k item = true <-> Sales.Item.bookId item = k.
Proof. unfold Sales.forBook. apply String.eqb_eq. Qed.

Lemma sumsUp_skip k seen x data :
  Sales.Item.bookId x <> k ->
  SalesViews.sumsUp k seen data -> SalesViews.sumsUp k (seen ++ [x]) data.
Proof.
  intros Hne (first & rest & Hfilter & Ht & Ha & Hq & Hr).
  assert (Hx : Sales.forBook k x = false).
  { unfold Sales.forBook. now apply String.eqb_neq. }
  exists first, rest. unfold SalesViews.copiesOf in *.
  rewrite filter_app. simpl. rewrite Hx, app_nil_r. auto.
Qed.

Lemma sumsUp_more seen x data :
  SalesViews.sumsUp (Sales.Item.bookId x) seen data ->
  SalesViews.sumsUp (Sales.Item.bookId x) (seen ++ [x])
    {| SalesViews.title := SalesViews.title data;
       SalesViews.author := SalesViews.author data;
       SalesViews.quantity := SalesViews.quantity data + Sales.Item.quantity x;
       SalesViews.revenue := (SalesViews.revenue data + Sales.Item.subtotal x)%num |}.
Proof.
  intros (first & rest & Hfilter & Ht & Ha & Hq & Hr).
  assert (Hx : Sales.forBook (Sales.Item.bookId x) x = true) by now apply forBook_iff.
  exists first, (rest ++ [x])%list. unfold SalesViews.copiesOf in *.
  rewrite filter_app. simpl. rewrite Hx, Hfilter. simpl.
  repeat split; auto.
  - rewrite Hq, Hfilter. simpl. now rewrite fold_left_app.
  - rewrite Hr. simpl. now rewrite fold_left_app.
Qed.

Lemma sumsUp_first seen x :
  filter (Sales.forBook (Sales.Item.bookId x)) seen = [] ->
  SalesViews.sumsUp (Sales.Item.bookId x) (seen ++ [x])
    {| SalesViews.title := Sales.Item.title x;
       SalesViews.author := Sales.Item.author x;
       SalesViews.quantity := 0 + Sales.Item.quantity x;
       SalesViews.revenue := (Number.ofZ 0 + Sales.Item.subtotal x)%num |}.
Proof.
  intros Hnone.
  assert (Hx : Sales.forBook (Sales.Item.bookId x) x = true) by now apply forBook_iff.
  exists x, []. unfold SalesViews.copiesOf.
  rewrite filter_app. simpl. rewrite Hx, Hnone. simpl. auto.
Qed.

Lemma countItem_tallies seen o x :
  SalesViews.tallies seen o ->
  SalesViews.tallies (seen ++ [x]) (SalesViews.countItem o x).
Proof.
  intros (Hnodup & Hdata & Hkeys). unfold SalesViews.countItem.
  destruct (JsObject.getOwn (Sales.Item.bookId x) o) as [data|] eqn:Hget.
  - destruct (set_present (Sales.Item.bookId x)
                {| SalesViews.title := SalesViews.title data;
                   SalesViews.author := SalesViews.author data;
                   SalesViews.quantity := SalesViews.quantity data + Sales.Item.quantity x;
                   SalesViews.revenue :=
                     (SalesViews.revenue data + Sales.Item.subtotal x)%num |}
                data o Hnodup Hget) as [Hsame Hin].
    destruct (Hdata _ _ (getOwn_some_in _ _ _ Hget)) as [Hinh Hsum].
    split; [now rewrite Hsame|]. split.
    + intros k v Hkv. destruct (Hin k v Hkv) as [[-> ->]|[Hold Hne]].
      * split; auto. now apply sumsUp_more.
      * destruct (Hdata k v Hold). split; auto. apply sumsUp_skip; auto.
    + rewrite Hsame. intros item Hitem Hok.
      apply in_app_or in Hitem as [Hitem|[<-|[]]]; auto.
      apply in_map_iff. exists (Sales.Item.bookId x, data). split; auto.
      now apply getOwn_some_in.
  - pose proof (getOwn_none_not_key _ _ Hget) as Hnotkey.
    destruct (JsObject.inherited (Sales.Item.bookId x)) eqn:Hinh.
    + split; auto. split.
      * intros k v Hkv. destruct (Hdata k v Hkv) as [Hk Hsum]. split; auto.
        apply sumsUp_skip; auto. congruence.
      * intros item Hitem Hok.
        apply in_app_or in Hitem as [Hitem|[<-|[]]]; auto. congruence.
    + rewrite set_absent by exact Hget. split; [|split].
      * rewrite map_app. simpl. now apply NoDup_push.
      * intros k v Hkv. apply in_app_or in Hkv as [Hkv|[Hkv|[]]].
        -- destruct (Hdata k v Hkv) as [Hk Hsum]. split; auto.
           apply sumsUp_skip; auto. intros <-. apply Hnotkey.
           now apply (in_map fst) in Hkv.
        -- injection Hkv as <- <-. split; auto. apply sumsUp_first.
           destruct (filter _ seen) as [|y ys] eqn:Hf; auto.
           assert (Hy : In y (filter (Sales.forBook (Sales.Item.bookId x)) seen))
             by (rewrite Hf; now left).
           apply filter_In in Hy as [Hy Hyx]. apply forBook_iff in Hyx.
           exfalso. apply Hnotkey. rewrite <- Hyx. apply Hkeys; auto. congruence.
      * intros item Hitem Hok. rewrite map_app. apply in_or_app.
        apply in_app_or in Hitem as [Hitem|[<-|[]]]; [left; auto|right; now left].
Qed.

Lemma fold_countItem_tallies l : forall seen o,
  SalesViews.tallies seen o ->
  SalesViews.tallies (seen ++ l) (fold_left SalesViews.countItem l o).
Proof.
  induction l as [|x l IH]; intros seen o Ho; simpl.
  - now rewrite app_nil_r.
  - replace (seen ++ x :: l)%list with ((seen ++ [x]) ++ l)%list
      by now rewrite <- app_assoc.
    apply IH. now apply countItem_tallies.
Qed.

Lemma bookSalesOf_flat (s : Sales.State) :
  SalesViews.bookSalesOf s
  = fold_left SalesViews.countItem (SalesViews.linesSold s) [].
Proof.
  unfold SalesViews.bookSalesOf, SalesViews.linesSold.
  generalize (@nil (string * SalesViews.BookSales)).
  induction (Sales.sales s) as [|sale r IH]; intros o; simpl; auto.
  now rewrite fold_left_app, IH.
Qed.

Lemma bookSalesOf_tallies (s : Sales.State) :
  SalesViews.tallies (SalesViews.linesSold s) (SalesViews.bookSalesOf s).
Proof.
  rewrite bookSalesOf_flat.
  apply (fold_countItem_tallies (SalesViews.linesSold s) [] []).
  split; [constructor|]. split; [intros k v []|intros item []].
Qed.

Lemma filter_split_perm {A : Type} (p : A -> bool) (l : list A) :
  Permutation (filter p l ++ filter (fun x => negb (p x)) l) l.
Proof.
  induction l as [|x r IH]; simpl; auto.
  destruct (p x); simpl.
  - now constructor.
  - rewrite <- Permutation_middle. now constructor.
Qed.

Lemma entries_perm {V : Type} (o : JsObject.t V) :
  Permutation (JsObject.entries o) o.
Proof.
  unfold JsObject.entries. rewrite sort_perm. apply filter_split_perm.
Qed.


Lemma ranked_perm (s : Sales.State) :
  Permutation
    (JsArray.sort SalesViews.byQuantityDescending
       (map SalesViews.toTop (JsObject.entries (SalesViews.bookSalesOf s))))
    (map SalesViews.toTop (SalesViews.bookSalesOf s)).
Proof.
  rewrite sort_perm. apply Permutation_map. apply entries_perm.
Qed.

Lemma Sorted_weaken {A : Type} (R R' : A -> A -> Prop) (l : list A) :
  (forall a b, R a b -> R' a b) -> Sorted R l -> Sorted R' l.
Proof.
  intros HR. induction 1 as [|x r Hr IH Hhd]; constructor; auto.
  destruct Hhd; constructor; auto.
Qed.


Lemma ranked_sorted (l : list SalesViews.Top.t) :
  StronglySorted (fun a b => SalesViews.Top.quantity b <= SalesViews.Top.quantity a)
                 (JsArray.sort SalesViews.byQuantityDescending l).
Proof.
  apply Sorted_StronglySorted.
  - intros a b c Hab Hbc. lia.
  - apply Sorted_weaken
      with (R := fun a b => SalesViews.byQuantityDescending a b <> Gt).
    + intros a b. unfold SalesViews.byQuantityDescending, JsArray.signZ.
      rewrite Z.compare_gt_iff. lia.
    + apply sort_sorted. intros a b.
      unfold SalesViews.byQuantityDescending, JsArray.signZ.
      rewrite !Z.compare_gt_iff. lia.
Qed.

Lemma firstn_NoDup {A : Type} (n : nat) (l : list A) : NoDup l -> NoDup (firstn n l).
Proof.
  intros Hl. rewrite <- (firstn_skipn n l) in Hl.
  now apply NoDup_app_remove_r in Hl.
Qed.


(** X11.  [topSellingBooks] returns at most ten entries, ordered by decreasing
    quantity, with no book twice. *)
Theorem topSellingBooks_is_a_ranking :
  forall s : Sales.State,
    (length (SalesViews.topSellingBooks s) <= 10)%nat
    /\ StronglySorted
         (fun a b => SalesViews.Top.quantity b <= SalesViews.Top.quantity a)
         (SalesViews.topSellingBooks s)
    /\ NoDup (map SalesViews.Top.bookId (SalesViews.topSellingBooks s)).
Proof.
  intros s. unfold SalesViews.topSellingBooks, JsArray.slice0. split; [|split].
  - apply firstn_le_length.
  - apply firstn_StronglySorted, ranked_sorted.
  - rewrite <- firstn_map. apply firstn_NoDup.
    eapply Permutation_NoDup.
    + symmetry. apply Permutation_map. apply ranked_perm.
    + rewrite map_map. simpl.
      destruct (bookSalesOf_tallies s) as [Hnodup _]. exact Hnodup.
Qed.

(** X12.  Every entry of [topSellingBooks] is a book that was sold: its title and
    author are those of the first line sold of that book, its quantity and
    revenue are the sums over all the lines sold of that book.  A book that
    was sold, and whose identifier is not a name that objects inherit, is in
    the result unless the result holds ten books that each sold at least as
    many copies. *)
Theorem topSellingBooks_counts_what_was_sold :
  forall s : Sales.State,
    (forall entry, In entry (SalesViews.topSellingBooks s) ->
        JsObject.inherited (SalesViews.Top.bookId entry) = false
        /\ SalesViews.sumsUp (SalesViews.Top.bookId entry) (SalesViews.linesSold s)
             {| SalesViews.title := SalesViews.Top.title entry;
                SalesViews.author := SalesViews.Top.author entry;
                SalesViews.quantity := SalesViews.Top.quantity entry;
                SalesViews.revenue := SalesViews.Top.revenue entry |})
    /\ (forall item, In item (SalesViews.linesSold s) ->
          JsObject.inherited (Sales.Item.bookId item) = false ->
          (exists entry, In entry (SalesViews.topSellingBooks s)
                         /\ SalesViews.Top.bookId entry = Sales.Item.bookId item)
          \/ (length (SalesViews.topSellingBooks s) = 10%nat
              /\ forall entry, In entry (SalesViews.topSellingBooks s) ->
                   SalesViews.copiesOf (Sales.Item.bookId item) (SalesViews.linesSold s)
                   <= SalesViews.Top.quantity entry)).
Proof.
  intros s. destruct (bookSalesOf_tallies s) as (Hnodup & Hdata & Hkeys).
  unfold SalesViews.topSellingBooks, JsArray.slice0.
  set (ranked := JsArray.sort SalesViews.byQuantityDescending
                   (map SalesViews.toTop (JsObject.entries (SalesViews.bookSalesOf s)))).
  assert (Hperm : Permutation ranked (map SalesViews.toTop (SalesViews.bookSalesOf s)))
    by apply ranked_perm.
  split.
  - intros entry Hin.
    assert (Hranked : In entry ranked).
    { rewrite <- (firstn_skipn 10 ranked). apply in_or_app. now left. }
    apply (Permutation_in _ Hperm) in Hranked.
    apply in_map_iff in Hranked as ([k data] & <- & Hkv).
    destruct (Hdata k data Hkv) as [Hinh Hsum]. split; [exact Hinh|exact Hsum].
  - intros item Hitem Hok.
    pose proof (Hkeys item Hitem Hok) as Hkey.
    apply in_map_iff in Hkey as ([k data] & Hk & Hkv). simpl in Hk. subst k.
    destruct (Hdata _ data Hkv) as [_ (first & rest & _ & _ & _ & Hq & _)].
    assert (Hranked : In (SalesViews.toTop (Sales.Item.bookId item, data)) ranked).
    { apply (Permutation_in _ (Permutation_sym Hperm)). now apply in_map. }
    rewrite <- (firstn_skipn 10 ranked) in Hranked.
    apply in_app_or in Hranked as [Htop|Hrest].
    + left. eexists. split; [exact Htop|reflexivity].
    + right. split.
      * apply firstn_length_le.
        destruct (Nat.le_gt_cases 10 (length ranked)) as [|Hshort]; auto.
        rewrite skipn_all2 in Hrest by lia. contradiction.
      * intros entry Hentry. rewrite <- Hq.
        apply (firstn_before_skipn
                 (fun a b => SalesViews.Top.quantity b <= SalesViews.Top.quantity a)
                 ranked 10 entry
                 (SalesViews.toTop (Sales.Item.bookId item, data))); auto.
        apply ranked_sorted.
Qed.

End TopSellingBooks.

(** The sample list of sales: B2 sold four copies, B1 three, the book 7 one. *)
Example topSellingBooks_scenario :
  map (fun entry => (SalesViews.Top.bookId entry, SalesViews.Top.quantity entry))
      (SalesViews.topSellingBooks Ledger.state)
  = [("B2", 4); ("B1", 3); ("7", 1)].
Proof. vm_compute. reflexivity. Qed.

(** * Further properties of the books store *)

#[local] Existing Instance MemoryTable.table.

(** ** Every book of the catalogue is a mapped row *)

Section RowsOfTheDatabase.
Context {C : Number.Carrier} {N : Number.JsNumber}.

Lemma fromRow_quantity (book : Books.AppBook) :
  Inventory.fromRow book ->
  Books.quantity book = Books.stock book /\ Books.condition book = None.
Proof. intros [row ->]. split; reflexivity. Qed.

End RowsOfTheDatabase.

Section MappedRows.
Context {C : Number.Carrier} {N : Number.JsNumber}.
Context {DB : Type} {remote : Supabase.Remote DB} {table : Inventory.Table DB}.

Lemma mapped_fromRow data : Forall Inventory.fromRow (Inventory.mapped data).
Proof.
  destruct data as [rows|]; simpl; [|constructor].
  induction rows; simpl; constructor; auto. now eexists.
Qed.

(** X13.  The store puts a book in the catalogue only as [mapToAppBook] of a row
    answered by the database.  Starting from a catalogue of such books,
    [loadBooks], [loadMoreBooks], [addBook], [deleteBook], [updateBook] and
    [updateStock] leave a catalogue of such books, whatever the answers of
    the database; for each of them [quantity] equals [stock] and [condition]
    is undefined. *)
Theorem catalogue_holds_mapped_rows :
  forall s : Books.State,
    Forall Inventory.fromRow (Books.books s) ->
    (forall book, In book (Books.books s) ->
        Books.quantity book = Books.stock book /\ Books.condition book = None)
    /\ (forall (db : DB) limit offset,
          Forall Inventory.fromRow
                 (Books.books (snd (Inventory.loadBooks db s limit offset))))
    /\ (forall db : DB,
          Forall Inventory.fromRow (Books.books (snd (Inventory.loadMoreBooks db s))))
    /\ (forall (db : DB) book,
          Forall Inventory.fromRow
                 (Books.books (snd (fst (Inventory.addBook db s book)))))
    /\ (forall (db : DB) i,
          Forall Inventory.fromRow
                 (Books.books (snd (fst (Inventory.deleteBook db s i)))))
    /\ (forall (db : DB) i updates,
          Forall Inventory.fromRow
                 (Books.books (snd (fst (Books.updateBook db s i updates)))))
    /\ (forall (db : DB) i delta,
          Forall Inventory.fromRow
                 (Books.books (snd (fst (Books.updateStock db s i delta))))).
Proof.
  intros s Hs.
  assert (Hload : forall (db : DB) limit offset,
             Forall Inventory.fromRow
                    (Books.books (snd (Inventory.loadBooks db s limit offset)))).
  { intros db limit offset. unfold Inventory.loadBooks.
    destruct (Inventory.selectRange _ _ _) as [db' [e|data]]; simpl; auto.
    destruct (offset =? 0); simpl.
    - apply mapped_fromRow.
    - apply Forall_app. split; auto. apply mapped_fromRow. }
  assert (Hupdate : forall (db : DB) i updates,
             Forall Inventory.fromRow
                    (Books.books (snd (fst (Books.updateBook db s i updates))))).
  { intros db i updates. unfold Books.updateBook.
    destruct (Supabase.updateBookRow _ _ _) as [db' [e|data]]; simpl; auto.
    destruct (Js.findIndex _ _); simpl; auto.
    apply assign_Forall; auto. now eexists. }
  split; [|split; [|split; [|split; [|split; [|split]]]]]; auto.
  - intros book Hin. apply fromRow_quantity.
    rewrite Forall_forall in Hs. now apply Hs.
  - intros db. unfold Inventory.loadMoreBooks.
    destruct (negb (Books.loading s)); simpl; auto.
  - intros db book. unfold Inventory.addBook.
    destruct (Inventory.insertRow _ _) as [db' [e|data]]; simpl; auto.
    constructor; auto. now eexists.
  - intros db i. unfold Inventory.deleteBook.
    destruct (Inventory.deleteRow _ _) as [db' [e|]]; simpl; auto.
    destruct (Js.findIndex _ _); simpl; auto. now apply splice1_Forall.
  - intros db i delta. unfold Books.updateStock.
    destruct (find _ _) as [book|]; simpl; auto.
    specialize (Hupdate db i (Books.stockOnly (Z.max 0 (Books.stock book + delta)))).
    destruct (Books.updateBook _ _ _ _) as [[db' s'] [e|b]]; simpl in *; auto.
Qed.

End MappedRows.

(** The sample catalogue, before and after a stock update and a new book. *)
Lemma catalogue_mapped_rows_scenario :
  (forall book, In book (Books.books Sample.catalogue) ->
      Books.quantity book = Books.stock book /\ Books.condition book = None)
  /\ Forall Inventory.fromRow
            (Books.books (snd (fst (Books.updateStock Sample.db Sample.catalogue "B1" (-2)))))
  /\ map Books.quantity
         (Books.books (snd (fst (Books.updateStock Sample.db Sample.catalogue "B1" (-2)))))
     = [1; 3].
Proof.
  assert (Hs : Forall Inventory.fromRow (Books.books Sample.catalogue)).
  { repeat constructor; eexists; reflexivity. }
  destruct (catalogue_holds_mapped_rows (DB := @MemoryDb.t Binary64.carrier)
              Sample.catalogue Hs)
    as (Hquantity & _ & _ & _ & _ & _ & Hstock).
  split; [exact Hquantity|]. split; [apply Hstock|reflexivity].
Defined.

(** ** Filters *)

Section Filters.
Context {C : Number.Carrier} {N : Number.JsNumber}.

(** X14.  With the filters cleared, [filteredBooks] is the whole catalogue.  With a
    condition selected, it is empty for a catalogue loaded from the database,
    whatever the other filters: the rows carry no condition. *)
Theorem filteredBooks_cleared_and_by_condition :
  forall (toLowerCase : string -> string) (f : Inventory.Filters) (s : Books.State),
    Inventory.filteredBooks toLowerCase (Inventory.clearFilters f) s = Books.books s
    /\ (Forall Inventory.fromRow (Books.books s) ->
        Inventory.selectedCondition f <> "" ->
        Inventory.filteredBooks toLowerCase f s = []).
Proof.
  intros toLowerCase f s. split; [reflexivity|].
  intros Hs Hcondition. unfold Inventory.filteredBooks.
  assert (Htruthy : Inventory.truthy (Inventory.selectedCondition f) = true).
  { unfold Inventory.truthy. apply negb_true_iff. now apply String.eqb_neq. }
  rewrite Htruthy.
  match goal with |- filter _ ?l = [] => assert (Hl : Forall Inventory.fromRow l) end.
  { destruct (Inventory.truthy (Inventory.searchQuery f));
      destruct (Inventory.truthy (Inventory.selectedGenre f));
      rewrite ?Forall_forall in *; intros x Hx;
      repeat (apply filter_In in Hx as [Hx _]); auto. }
  match goal with |- filter _ ?l = [] => induction l as [|x r IH] end; auto.
  apply Forall_cons_iff in Hl as [[row ->] Hr]. simpl. auto.
Qed.

End Filters.

(** The sample catalogue filtered by the condition "used". *)
Lemma filteredBooks_scenario :
  Inventory.filteredBooks Js.toLowerCase
    (Inventory.setConditionFilter
       {| Inventory.searchQuery := ""; Inventory.selectedGenre := "";
          Inventory.selectedCondition := "" |} "used")
    Sample.catalogue = [].
Proof.
  apply (filteredBooks_cleared_and_by_condition Js.toLowerCase).
  - repeat constructor; eexists; reflexivity.
  - discriminate.
Defined.

(** ** Adding and deleting a book *)

Lemma find_splice1_gone {A : Type} (key : A -> string) (k : string) (l : list A) n :
  NoDup (map key l) ->
  Js.findIndex (fun x => String.eqb (key x) k) l = Some n ->
  find (fun x => String.eqb (key x) k) (Js.splice1 n l) = None.
Proof.
  revert n. induction l as [|x r IH]; simpl; intros n Hnodup; [discriminate|].
  apply NoDup_cons_iff in Hnodup as [Hx Hr].
  destruct (String.eqb_spec (key x) k) as [Hk|Hk].
  - intros [= <-]. simpl.
    destruct (find _ r) as [y|] eqn:Hy; auto.
    apply find_some in Hy as [Hin Hky]. apply String.eqb_eq in Hky.
    exfalso. apply Hx. rewrite Hk, <- Hky. now apply in_map.
  - destruct (Js.findIndex _ r) as [m|] eqn:Hm; simpl; [|discriminate].
    intros [= <-]. simpl.
    destruct (String.eqb_spec (key x) k); [contradiction|auto].
Qed.

Section AddDelete.
Context {C : Number.Carrier} {N : Number.JsNumber}.
Context {DB : Type} {table : Inventory.Table DB}.

(** An accepted [addBook] puts the mapped row at the head of the catalogue,
    where [getBookById] finds it, and returns it.  A refused one throws, with
    the catalogue unchanged and the same message in [error]: the message
    about the ISBN exactly when the code of the database is 23505. *)
Theorem addBook_outcomes :
  forall (db db' : DB) (s : Books.State) (book : Books.Updates),
    (forall data,
        Inventory.insertRow db (Books.mapToSupabaseBook book) = (db', inr data) ->
        Inventory.addBook db s book
        = (db',
           {| Books.books := Books.mapToAppBook data :: Books.books s;
              Books.loading := false; Books.error := None |},
           inr (Books.mapToAppBook data))
        /\ Books.getBookById
             {| Books.books := Books.mapToAppBook data :: Books.books s;
                Books.loading := false; Books.error := None |}
             (Supabase.id data)
           = Some (Books.mapToAppBook data))
    /\ (forall refusal,
          Inventory.insertRow db (Books.mapToSupabaseBook book) = (db', inl refusal) ->
          let friendly :=
            if match Js.code refusal with
               | Some c => String.eqb c "23505"
               | None => false
               end
            then "El ISBN ya existe. Por favor ingrese un ISBN único o deje el campo vacío."
            else "Error al agregar libro" in
          Inventory.addBook db s book
          = (db',
             {| Books.books := Books.books s; Books.loading := false;
                Books.error := Some friendly |},
             inl (Js.Error friendly))).
Proof.
  intros db db' s book. unfold Inventory.addBook. split.
  - intros data ->. split; [reflexivity|].
    unfold Books.getBookById, Books.hasId. simpl. now rewrite String.eqb_refl.
  - intros refusal ->. reflexivity.
Qed.

(** X15.  An accepted [deleteBook], on a catalogue without two books of the same
    identifier, leaves no book with that identifier and every other book
    where it was.  A refused one throws with the catalogue unchanged; when
    the code of the database is 23503 the message says that the book has
    sales. *)
Theorem deleteBook_outcomes :
  forall (db db' : DB) (s : Books.State) (i : string),
    (NoDup (map Books.id (Books.books s)) ->
     Inventory.deleteRow db i = (db', None) ->
     exists s',
       Inventory.deleteBook db s i = (db', s', inr tt)
       /\ Books.getBookById s' i = None
       /\ forall j, j <> i -> Books.getBookById s' j = Books.getBookById s j)
    /\ (forall refusal,
          Inventory.deleteRow db i = (db', Some refusal) ->
          exists friendly,
            Inventory.deleteBook db s i
            = (db',
               {| Books.books := Books.books s; Books.loading := false;
                  Books.error := Some friendly |},
               inl (Js.Error friendly))
            /\ (Js.code refusal = Some "23503" ->
                friendly
                = "No se puede eliminar el libro porque tiene ventas asociadas.")).
Proof.
  intros db db' s i. unfold Inventory.deleteBook. split.
  - intros Hnodup ->. eexists. split; [reflexivity|].
    unfold Books.getBookById. simpl.
    destruct (Js.findIndex (Books.hasId i) (Books.books s)) as [n|] eqn:Hn; simpl.
    + split.
      * apply (find_splice1_gone Books.id i); auto.
      * intros j Hj. eapply find_splice1_other; eauto.
        intros x Hx. apply hasId_eq in Hx. unfold Books.hasId. rewrite Hx.
        apply String.eqb_neq. congruence.
    + split; auto.
      destruct (find (Books.hasId i) (Books.books s)) as [x|] eqn:Hx; auto.
      destruct (findIndex_of_find _ _ _ Hx) as (m & Hm & _). congruence.
  - intros refusal ->. eexists. split; [reflexivity|].
    intros Hcode. simpl. now rewrite Hcode.
Qed.

End AddDelete.

(** A new book is added to the sample catalogue, and B1 is deleted from it. *)
Lemma addBook_scenario :
  exists db' data,
    Inventory.addBook Sample.db Sample.catalogue
      {| Books.u_id := None; Books.u_title := Some "Rayuela";
         Books.u_author := Some "Cortazar"; Books.u_isbn := Some "  ";
         Books.u_genre := Some "Drama"; Books.u_price := Some (Number.ofZ 15);
         Books.u_stock := Some 4; Books.u_description := None;
         Books.u_created_at := None; Books.u_updated_at := None;
         Books.u_cost := Some (Number.ofZ 9); Books.u_quantity := Some 4;
         Books.u_publishedYear := Some 1963; Books.u_condition := Some Books.New;
         Books.u_location := Some "A1"; Books.u_dateAdded := None |}
    = (db',
       {| Books.books := Books.mapToAppBook data :: Books.books Sample.catalogue;
          Books.loading := false; Books.error := None |},
       inr (Books.mapToAppBook data))
    /\ Supabase.id data = "book-3"
    /\ Books.condition (Books.mapToAppBook data) = None.
Proof.
  eexists _, _. split.
  - eapply (proj1 (addBook_outcomes Sample.db _ Sample.catalogue _)).
    reflexivity.
  - split; reflexivity.
Defined.

Lemma deleteBook_scenario :
  exists db' s',
    Inventory.deleteBook Sample.db Sample.catalogue "B1" = (db', s', inr tt)
    /\ Books.getBookById s' "B1" = None
    /\ option_map Books.stock (Books.getBookById s' "B2") = Some 3.
Proof.
  destruct (proj1 (deleteBook_outcomes
                     Sample.db (fst (MemoryTable.deleteRow Sample.db "B1"))
                     Sample.catalogue "B1"))
    as (s' & Hrun & Hgone & Hothers).
  - repeat constructor; simpl; intuition discriminate.
  - reflexivity.
  - eexists _, s'. split; [exact Hrun|]. split; [exact Hgone|].
    rewrite Hothers by discriminate. reflexivity.
Defined.

Section AddThenDelete.
Context {C : Number.Carrier} {N : Number.JsNumber}.
Context {DB : Type} {table : Inventory.Table DB}.

(** X16.  Deleting the book that [addBook] has just returned gives back the
    catalogue as it was before the addition, even when the catalogue already
    held a book with the same identifier: the new book is at the head, and
    [deleteBook] removes the first book with the identifier. *)
Theorem addBook_then_deleteBook_restores :
  forall (db db1 db2 : DB) (s s1 : Books.State) (book : Books.Updates)
         (newBook : Books.AppBook),
    Inventory.addBook db s book = (db1, s1, inr newBook) ->
    Inventory.deleteRow db1 (Books.id newBook) = (db2, None) ->
    exists s2,
      Inventory.deleteBook db1 s1 (Books.id newBook) = (db2, s2, inr tt)
      /\ Books.books s2 = Books.books s.
Proof.
  intros db db1 db2 s s1 book newBook. unfold Inventory.addBook.
  destruct (Inventory.insertRow _ _) as [db' [e|data]]; [discriminate|].
  intros [= <- <- <-] Hdelete. unfold Inventory.deleteBook. rewrite Hdelete.
  eexists. split; [reflexivity|]. simpl.
  unfold Books.hasId. simpl. now rewrite String.eqb_refl.
Qed.

End AddThenDelete.

(** A book is added to the sample catalogue and deleted again. *)
Lemma addBook_then_deleteBook_scenario :
  exists db1 s1 newBook db2 s2,
    Inventory.addBook Sample.db Sample.catalogue
      {| Books.u_id := None; Books.u_title := Some "Rayuela";
         Books.u_author := Some "Cortazar"; Books.u_isbn := Some "";
         Books.u_genre := Some "Drama"; Books.u_price := Some (Number.ofZ 15);
         Books.u_stock := None; Books.u_description := None;
         Books.u_created_at := None; Books.u_updated_at := None;
         Books.u_cost := None; Books.u_quantity := Some 4;
         Books.u_publishedYear := None; Books.u_condition := None;
         Books.u_location := None; Books.u_dateAdded := None |}
    = (db1, s1, inr newBook)
    /\ Inventory.deleteBook db1 s1 (Books.id newBook) = (db2, s2, inr tt)
    /\ Books.books s2 = Books.books Sample.catalogue
    /\ length (Books.books s1) = 3%nat.
Proof.
  destruct (Inventory.addBook Sample.db Sample.catalogue
      {| Books.u_id := None; Books.u_title := Some "Rayuela";
         Books.u_author := Some "Cortazar"; Books.u_isbn := Some "";
         Books.u_genre := Some "Drama"; Books.u_price := Some (Number.ofZ 15);
         Books.u_stock := None; Books.u_description := None;
         Books.u_created_at := None; Books.u_updated_at := None;
         Books.u_cost := None; Books.u_quantity := Some 4;
         Books.u_publishedYear := None; Books.u_condition := None;
         Books.u_location := None; Books.u_dateAdded := None |})
    as [[db1 s1] [err|newBook]] eqn:Hadd.
  - vm_compute in Hadd. discriminate.
  - destruct (Inventory.deleteRow (C := Binary64.carrier) db1 (Books.id newBook))
      as [db2 [refusal|]] eqn:Hdel.
    + vm_compute in Hadd. injection Hadd as <- <- <-.
      vm_compute in Hdel. discriminate.
    + destruct (addBook_then_deleteBook_restores _ _ _ _ _ _ _ Hadd Hdel)
        as (s2 & Hrun & Hbooks).
      exists db1, s1, newBook, db2, s2. split; [reflexivity|].
      split; [exact Hrun|]. split; [exact Hbooks|].
      vm_compute in Hadd. now injection Hadd as _ <- _.
Defined.

(** ** Stock totals and alerts *)

Section StockSums.
Context {C : Number.Carrier} {N : Number.JsNumber}.

Lemma fold_stock_shift (l : list Books.AppBook) : forall acc,
  fold_left (fun sum book => sum + Books.stock book) l acc
  = acc + fold_left (fun sum book => sum + Books.stock book) l 0.
Proof.
  induction l as [|x r IH]; intros acc; simpl; [lia|].
  rewrite (IH (acc + Books.stock x)), (IH (Books.stock x)). lia.
Qed.

Lemma fold_stock_assign (l : list Books.AppBook) : forall n old new,
  nth_error l n = Some old ->
  fold_left (fun sum book => sum + Books.stock book) (Js.assign n new l) 0
  = fold_left (fun sum book => sum + Books.stock book) l 0
    - Books.stock old + Books.stock new.
Proof.
  induction l as [|x r IH]; intros [|n] old new; simpl; try discriminate.
  - intros [= ->]. rewrite (fold_stock_shift r (Books.stock new)),
      (fold_stock_shift r (Books.stock old)). lia.
  - intros Hn. rewrite (fold_stock_shift _ (Books.stock x)),
      (fold_stock_shift r (Books.stock x)), (IH n old new Hn). lia.
Qed.

End StockSums.

Section StockTotals.
Context {C : Number.Carrier} {N : Number.JsNumber}.
Context {DB : Type} {remote : Supabase.Remote DB}.
Hypothesis answers : answersWithUpdatedRow.

(** X17.  Every book out of stock is also a book low on stock.  Provided the
    database answers an accepted update with the row asked for, an accepted
    [updateStock] for a book of the catalogue changes [totalBooks] by the
    difference between [max(0, stock + delta)] and the stock before, and when
    the delta takes all the copies the book is listed as out of stock. *)
Theorem stock_totals_follow_updateStock :
  forall (db db' : DB) (s s' : Books.State) (i : string) (delta : Z)
         (book : Books.AppBook),
    incl (Inventory.outOfStockBooks s) (Inventory.lowStockBooks s)
    /\ (Books.getBookById s i = Some book ->
        Books.updateStock db s i delta = (db', s', inr tt) ->
        Inventory.totalBooks s'
        = Inventory.totalBooks s - Books.stock book
          + Z.max 0 (Books.stock book + delta)
        /\ (Books.stock book + delta <= 0 ->
            exists book', In book' (Inventory.outOfStockBooks s')
                          /\ Books.id book' = i)).
Proof.
  intros db db' s s' i delta book. split.
  - intros x Hx. unfold Inventory.outOfStockBooks, Inventory.lowStockBooks in *.
    apply filter_In in Hx as [Hin Hzero]. apply filter_In. split; auto.
    apply Z.eqb_eq in Hzero. apply Z.leb_le. lia.
  - intros Hbook Hrun.
    destruct (updateStock_effect answers _ _ _ _ _ _ _ Hbook Hrun)
      as (book' & Hfound & Hstock).
    split.
    + revert Hrun. unfold Books.getBookById in Hbook.
      unfold Books.updateStock, Books.updateBook. rewrite Hbook.
      destruct (Supabase.updateBookRow _ _ _) as [db1 [e|data]] eqn:Hrow;
        [discriminate|].
      destruct (answers _ _ _ _ _ Hrow) as [_ Hdata].
      destruct (findIndex_of_find _ _ _ Hbook) as (n & Hn & Hnth).
      simpl. rewrite Hn. intros [= _ <-]. unfold Inventory.totalBooks. simpl.
      rewrite (fold_stock_assign _ _ _ _ Hnth). simpl.
      now rewrite (Hdata _ eq_refl).
    + intros Hall. exists book'. unfold Books.getBookById in Hfound.
      apply find_some in Hfound as [Hin Hid]. split.
      * apply filter_In. split; auto. apply Z.eqb_eq. lia.
      * now apply hasId_eq.
Qed.

End StockTotals.

(** The three copies of B1 are taken out of the sample catalogue. *)
Lemma stock_totals_scenario :
  exists db' s',
    Books.updateStock Sample.db Sample.catalogue "B1" (-3) = (db', s', inr tt)
    /\ Inventory.totalBooks Sample.catalogue = 6
    /\ Inventory.totalBooks s' = 6 - 3 + Z.max 0 (3 + -3)
    /\ exists book', In book' (Inventory.outOfStockBooks s') /\ Books.id book' = "B1".
Proof.
  destruct (Books.updateStock Sample.db Sample.catalogue "B1" (-3))
    as [[db' s'] [err|[]]] eqn:Hrun.
  - vm_compute in Hrun. discriminate.
  - exists db', s'. split; [reflexivity|]. split; [reflexivity|].
    destruct (stock_totals_follow_updateStock memoryDb_answers
                Sample.db db' Sample.catalogue s' "B1" (-3)
                (Books.mapToAppBook (Sample.book "B1" Sample.ten 3)))
      as [_ Hupdate].
    destruct (Hupdate eq_refl Hrun) as [Htotal Hout].
    split; [exact Htotal|]. apply Hout. simpl. lia.
Defined.

(** ** Genres *)

Lemma existsb_eqb_In (x : string) (l : list string) :
  existsb (String.eqb x) l = true <-> In x l.
Proof.
  rewrite existsb_exists. split.
  - intros (y & Hy & Hxy). apply String.eqb_eq in Hxy. now subst.
  - intros Hx. exists x. split; auto. apply String.eqb_refl.
Qed.

Lemma uniq_fold (l : list string) : forall seen,
  NoDup seen ->
  NoDup (fold_left (fun seen x =>
                      if existsb (String.eqb x) seen then seen else (seen ++ [x])%list)
                   l seen)
  /\ forall g,
       In g (fold_left (fun seen x =>
                          if existsb (String.eqb x) seen then seen
                          else (seen ++ [x])%list) l seen)
       <-> In g seen \/ In g l.
Proof.
  induction l as [|x l IH]; intros seen Hseen; simpl.
  - split; auto. intros g. tauto.
  - destruct (existsb (String.eqb x) seen) eqn:Hx.
    + destruct (IH seen Hseen) as [Hnodup Hin]. split; auto.
      intros g. rewrite Hin. apply existsb_eqb_In in Hx.
      split; [tauto|]. intros [H|[<-|H]]; auto.
    + assert (Hnot : ~ In x seen).
      { intros H. apply existsb_eqb_In in H. congruence. }
      destruct (IH (seen ++ [x])%list (NoDup_push _ _ Hseen Hnot)) as [Hnodup Hin].
      split; auto. intros g. rewrite Hin, in_app_iff. simpl. tauto.
Qed.

Section Genres.
Context {C : Number.Carrier} {N : Number.JsNumber}.

(** X18.  [genres] lists every genre of the catalogue once: it has no duplicate,
    and a genre is in it exactly when some book of the catalogue has it. *)
Theorem genres_lists_each_genre_once :
  forall s : Books.State,
    NoDup (Inventory.genres s)
    /\ forall genre,
         In genre (Inventory.genres s)
         <-> exists book, In book (Books.books s) /\ Books.genre book = genre.
Proof.
  intros s. unfold Inventory.genres, JsArray.uniq.
  destruct (uniq_fold (map Books.genre (Books.books s)) [] (NoDup_nil _))
    as [Hnodup Hin].
  split; auto. intros genre. rewrite Hin, in_map_iff. simpl.
  split.
  - intros [[]|(book & Hg & Hb)]. now exists book.
  - intros (book & Hb & Hg). right. now exists book.
Qed.

End Genres.

(** ** Loading pages *)

Section Paging.
Context {C : Number.Carrier} {N : Number.JsNumber}.
Context {DB : Type} {table : Inventory.Table DB}.

(** X19.  [loadMoreBooks] does nothing while a request is loading.  Otherwise it
    asks for the 100 rows that follow the books already loaded, and on an
    answer the catalogue is the old one followed by the mapped rows, also
    when the catalogue was empty; on an error the catalogue is unchanged and
    the error recorded, nothing being thrown. *)
Theorem loadMoreBooks_appends_a_page :
  forall (db : DB) (s : Books.State),
    (Books.loading s = true -> Inventory.loadMoreBooks db s = (db, s))
    /\ (Books.loading s = false ->
        let offset := Z.of_nat (length (Books.books s)) in
        match Inventory.selectRange db offset (offset + 100 - 1) with
        | (db', inr data) =>
            Inventory.loadMoreBooks db s
            = (db',
               {| Books.books := (Books.books s ++ Inventory.mapped data)%list;
                  Books.loading := false; Books.error := None |})
        | (db', inl refusal) =>
            Inventory.loadMoreBooks db s
            = (db',
               {| Books.books := Books.books s; Books.loading := false;
                  Books.error :=
                    Some (Js.messageOr "Error al cargar libros" (Js.Thrown refusal)) |})
        end).
Proof.
  intros db s. unfold Inventory.loadMoreBooks. split.
  - now intros ->.
  - intros Hidle. rewrite Hidle. cbv zeta. cbn [negb]. unfold Inventory.loadBooks.
    destruct (Inventory.selectRange db _ _) as [db' [refusal|data]]; [reflexivity|].
    destruct (Z.eqb_spec (Z.of_nat (length (Books.books s))) 0) as [Hzero|Hnonzero];
      [|reflexivity].
    assert (Hempty : Books.books s = []).
    { destruct (Books.books s); [reflexivity|]. simpl in Hzero. lia. }
    simpl. now rewrite Hempty.
Qed.

End Paging.

(** The sample catalogue holds two books and the database a third one,
    older: the next page brings it. *)
Lemma loadMoreBooks_scenario :
  let db :=
    {| MemoryDb.bookRows := (Sample.rows ++ [Sample.book "B0" (Number.ofZ 7) 1])%list;
       MemoryDb.saleRows := []; MemoryDb.saleItemRows := [];
       MemoryDb.online := true; MemoryDb.clock := "2024-06-01T12:00:00+00:00" |} in
  map Books.id (Books.books (snd (Inventory.loadMoreBooks db Sample.catalogue)))
  = ["B1"; "B2"; "B0"]
  /\ Inventory.loadMoreBooks db (Books.setLoading true Sample.catalogue)
     = (db, Books.setLoading true Sample.catalogue).
Proof.
  intros db. split; [reflexivity|].
  apply (proj1 (loadMoreBooks_appends_a_page db (Books.setLoading true Sample.catalogue))).
  reflexivity.
Defined.

(** ** The edit form *)

Section EditForm.
Context {C : Number.Carrier} {N : Number.JsNumber}.

(** X20.  The edit form, opened on a book loaded from the database and saved
    unchanged, asks the database to write back the columns of the row as they
    are, an ISBN of white space only being written as [null]; [id],
    [created_at] and [updated_at] are not sent.  Whatever the form holds, the
    stock written is the [quantity] of the form when it has one: its [stock]
    is then ignored. *)
Theorem edit_form_writes_back_the_row :
  (forall row : Supabase.Book,
      Books.mapToSupabaseBook (Inventory.spread (Books.mapToAppBook row))
      = {| Supabase.set_title := Some (Supabase.title row);
           Supabase.set_author := Some (Supabase.author row);
           Supabase.set_isbn :=
             Some (if Js.isBlank (Supabase.isbn row) then None
                   else Some (Supabase.isbn row));
           Supabase.set_genre := Some (Supabase.genre row);
           Supabase.set_price := Some (Supabase.price row);
           Supabase.set_stock := Some (Supabase.stock row);
           Supabase.set_description := Supabase.description row |})
  /\ (forall (form : Books.Updates) (quantity : Z),
         Books.u_quantity form = Some quantity ->
         Supabase.set_stock (Books.mapToSupabaseBook form) = Some quantity).
Proof.
  split.
  - intros row. unfold Books.mapToSupabaseBook. simpl.
    now destruct (Js.isBlank (Supabase.isbn row)).
  - intros form quantity Hq. unfold Books.mapToSupabaseBook. simpl. now rewrite Hq.
Qed.

End EditForm.

(** The form is opened on B1, whose stock is 3, and saved with a quantity of
    8; and a row whose ISBN is one no-break space (U+00A0) is written back
    with no ISBN. *)
Lemma edit_form_scenario :
  Supabase.set_stock
    (Books.mapToSupabaseBook
       {| Books.u_id := Some "B1"; Books.u_title := Some "Title B1";
          Books.u_author := Some "Author B1"; Books.u_isbn := Some "isbn-B1";
          Books.u_genre := Some "Fiction"; Books.u_price := Some Sample.ten;
          Books.u_stock := Some 3; Books.u_description := None;
          Books.u_created_at := None; Books.u_updated_at := None;
          Books.u_cost := None; Books.u_quantity := Some 8;
          Books.u_publishedYear := None; Books.u_condition := None;
          Books.u_location := None; Books.u_dateAdded := None |})
  = Some 8
  /\ Supabase.set_isbn
       (Books.mapToSupabaseBook
          (Inventory.spread
             (Books.mapToAppBook
                {| Supabase.id := "B9"; Supabase.title := "Title B9";
                   Supabase.author := "Author B9";
                   Supabase.isbn := String "194" (String "160" "");
                   Supabase.genre := "Fiction"; Supabase.price := Sample.ten;
                   Supabase.stock := 1; Supabase.description := None;
                   Supabase.created_at := None; Supabase.updated_at := None |})))
     = Some None.
Proof.
  split.
  - apply (proj2 edit_form_writes_back_the_row). reflexivity.
  - rewrite (proj1 edit_form_writes_back_the_row). reflexivity.
Defined.

(** * Properties of the customers store *)

Lemma orZeroQ_some (q : Q) : (Customers.orZeroQ (Some q) == q)%Q.
Proof.
  unfold Customers.orZeroQ. destruct (Qeq_bool q 0) eqn:Hq; [|reflexivity].
  apply Qeq_bool_iff in Hq. now rewrite Hq.
Qed.

Lemma customer_hasId_exclusive i j x :
  j <> i -> Customers.hasId i x = true -> Customers.hasId j x = false.
Proof.
  unfold Customers.hasId. intros Hne Hx. apply String.eqb_eq in Hx.
  apply String.eqb_neq. congruence.
Qed.

Lemma recordPurchase_step customers i amount nowIso customer :
  Customers.getCustomerById customers i = Some customer ->
  Customers.getCustomerById (Customers.recordPurchase customers i amount nowIso) i
  = Some (Customers.purchased amount nowIso customer)
  /\ forall j, j <> i ->
       Customers.getCustomerById (Customers.recordPurchase customers i amount nowIso) j
       = Customers.getCustomerById customers j.
Proof.
  unfold Customers.getCustomerById, Customers.recordPurchase. intros Hfind.
  rewrite Hfind. split.
  - apply find_mutateFirst_same; auto.
    apply find_some in Hfind as [_ Hid]. exact Hid.
  - intros j Hj. apply find_mutateFirst_other.
    intros x Hx. split; eapply customer_hasId_exclusive; eauto.
Qed.

Lemma recordAll_spec i purchases : forall customers customer count,
  Customers.getCustomerById customers i = Some customer ->
  Customers.totalPurchases customer = Some count ->
  Customers.isRegular customer = Some (3 <=? count) ->
  exists customer',
    Customers.getCustomerById (Customers.recordAll customers i purchases) i
    = Some customer'
    /\ Customers.totalPurchases customer'
       = Some (count + Z.of_nat (length purchases))
    /\ Customers.isRegular customer'
       = Some (3 <=? count + Z.of_nat (length purchases))
    /\ (Customers.orZeroQ (Customers.totalSpent customer')
        == Customers.orZeroQ (Customers.totalSpent customer)
           + fold_left Qplus (map fst purchases) 0)%Q
    /\ Customers.name customer' = Customers.name customer
    /\ Customers.preferredGenres customer' = Customers.preferredGenres customer
    /\ forall j, j <> i ->
         Customers.getCustomerById (Customers.recordAll customers i purchases) j
         = Customers.getCustomerById customers j.
Proof.
  induction purchases as [|[amount nowIso] purchases IH];
    intros customers customer count Hfind Hcount Hregular.
  - exists customer. simpl. rewrite Z.add_0_r. repeat split; auto. ring.
  - destruct (recordPurchase_step customers i amount nowIso customer Hfind)
      as [Hstep Hothers].
    destruct (IH _ (Customers.purchased amount nowIso customer) (count + 1) Hstep)
      as (customer' & Hfind' & Hcount' & Hregular' & Hspent' & Hname' & Hgenres'
          & Hothers').
    + simpl. now rewrite Hcount.
    + simpl. rewrite Hcount, Hregular. simpl.
      destruct (Z.leb_spec 3 (count + 1)); auto.
      destruct (Z.leb_spec 3 count); auto. lia.
    + exists customer'. unfold Customers.recordAll in *. simpl.
      split; [exact Hfind'|].
      split; [rewrite Hcount'; f_equal; lia|].
      split; [rewrite Hregular'; do 2 f_equal; lia|].
      split.
      * rewrite Hspent'. simpl Customers.totalSpent. rewrite orZeroQ_some.
        assert (Hshift : forall l acc,
                   (fold_left Qplus l acc == acc + fold_left Qplus l 0)%Q).
        { clear. induction l as [|x l IHl]; intros acc; simpl; [ring|].
          rewrite (IHl (acc + x)%Q), (IHl (0 + x)%Q). ring. }
        rewrite (Hshift _ (0 + amount)%Q). ring.
      * split; [exact Hname'|]. split; [exact Hgenres'|].
        intros j Hj. rewrite Hothers' by exact Hj. now apply Hothers.
Qed.

(** X21.  For a customer as loaded from the database and found by its identifier:
    after any sequence of [recordPurchase] calls for it, the number of
    purchases is the length of the sequence, the total spent is the sum of the
    amounts, and the customer is regular exactly when there were three
    purchases or more; every other customer is found as before.  For an
    unknown identifier [recordPurchase] changes nothing. *)
Theorem recordPurchase_counts_purchases :
  forall (customers : list Customers.AppCustomer) (i : string)
         (purchases : list (Q * string)),
    (forall row,
        Customers.getCustomerById customers i = Some (Customers.mapToAppCustomer row) ->
        exists customer',
          Customers.getCustomerById (Customers.recordAll customers i purchases) i
          = Some customer'
          /\ Customers.totalPurchases customer' = Some (Z.of_nat (length purchases))
          /\ Customers.isRegular customer'
             = Some (3 <=? Z.of_nat (length purchases))
          /\ (Customers.orZeroQ (Customers.totalSpent customer')
              == fold_left Qplus (map fst purchases) 0)%Q
          /\ forall j, j <> i ->
               Customers.getCustomerById (Customers.recordAll customers i purchases) j
               = Customers.getCustomerById customers j)
    /\ (Customers.getCustomerById customers i = None ->
        forall amount nowIso,
          Customers.recordPurchase customers i amount nowIso = customers).
Proof.
  intros customers i purchases. split.
  - intros row Hfind.
    destruct (recordAll_spec i purchases customers _ 0 Hfind eq_refl eq_refl)
      as (customer' & Hfind' & Hcount & Hregular & Hspent & _ & _ & Hothers).
    exists customer'. split; [exact Hfind'|]. split; [exact Hcount|].
    split; [exact Hregular|]. split; [|exact Hothers].
    rewrite Hspent. simpl. ring.
  - intros Hnone amount nowIso. unfold Customers.recordPurchase.
    unfold Customers.getCustomerById in Hnone. now rewrite Hnone.
Qed.

(** Three purchases of the first sample customer. *)
Lemma recordPurchase_scenario :
  exists customer',
    Customers.getCustomerById
      (Customers.recordAll Customers.sample "C1"
         [(20%Q, "2024-06-01T10:00:00.000Z"); ((5 # 2)%Q, "2024-06-02T10:00:00.000Z");
          (10%Q, "2024-06-03T10:00:00.000Z")]) "C1"
    = Some customer'
    /\ Customers.totalPurchases customer' = Some 3
    /\ Customers.isRegular customer' = Some true
    /\ (Customers.orZeroQ (Customers.totalSpent customer') == 65 # 2)%Q
    /\ Customers.lastPurchase customer' = Some "2024-06-03".
Proof.
  destruct (proj1 (recordPurchase_counts_purchases Customers.sample "C1"
                     [(20%Q, "2024-06-01T10:00:00.000Z");
                      ((5 # 2)%Q, "2024-06-02T10:00:00.000Z");
                      (10%Q, "2024-06-03T10:00:00.000Z")])
              {| Customers.row_id := "C1"; Customers.row_name := "Ana";
                 Customers.row_email := "ana@example.org";
                 Customers.row_phone := "555-0101";
                 Customers.row_address := "Calle 1";
                 Customers.row_created_at := Some "2024-01-05T09:00:00+00:00";
                 Customers.row_updated_at := None |} eq_refl)
    as (customer' & Hfind & Hcount & Hregular & Hspent & _).
  exists customer'. split; [exact Hfind|]. split; [exact Hcount|].
  split; [exact Hregular|]. split.
  - rewrite Hspent. vm_compute. reflexivity.
  - vm_compute in Hfind. now injection Hfind as <-.
Defined.

(** ** Preferred genres *)

Lemma findIndex_last {A : Type} (p : A -> bool) (l : list A) (x : A) :
  Forall (fun y => p y = false) l -> p x = true ->
  Js.findIndex p (l ++ [x]) = Some (length l).
Proof.
  intros Hl Hx. induction Hl as [|y l Hy _ IH]; simpl.
  - now rewrite Hx.
  - now rewrite Hy, IH.
Qed.

Lemma splice1_last {A : Type} (l : list A) (x : A) :
  Js.splice1 (length l) (l ++ [x]) = l.
Proof. induction l as [|y l IH]; simpl; [reflexivity|now rewrite IH]. Qed.

Lemma withGenres_same customer genres :
  Customers.preferredGenres customer = Some genres ->
  Customers.withGenres (Some genres) customer = customer.
Proof. destruct customer; simpl. now intros ->. Qed.

(** X22.  For a customer found by its identifier whose preferred genres have no
    duplicate: after [addPreferredGenre] the genres still have no duplicate
    and are the old ones and the added one; adding the same genre again
    changes nothing; and removing a genre that was added new gives back the
    list of customers as it was. *)
Theorem preferred_genres_stay_distinct :
  forall (customers : list Customers.AppCustomer) (i genre : string)
         (customer : Customers.AppCustomer) (genres : list string),
    Customers.getCustomerById customers i = Some customer ->
    Customers.preferredGenres customer = Some genres ->
    NoDup genres ->
    let added := Customers.addPreferredGenre customers i genre in
    (exists customer' genres',
        Customers.getCustomerById added i = Some customer'
        /\ Customers.preferredGenres customer' = Some genres'
        /\ NoDup genres'
        /\ forall g, In g genres' <-> g = genre \/ In g genres)
    /\ Customers.addPreferredGenre added i genre = added
    /\ (~ In genre genres ->
        Customers.removePreferredGenre added i genre = customers).
Proof.
  intros customers i genre customer genres Hfind Hgenres Hnodup added.
  unfold Customers.getCustomerById in Hfind.
  destruct (find_some_split _ _ _ Hfind) as (pre & post & Hsplit & Hpre & Hid).
  set (genres' := if JsArray.includes genre genres then genres
                  else (genres ++ [genre])%list).
  assert (Hadded : added = (pre ++ Customers.withGenres (Some genres') customer
                                :: post)%list).
  { subst added. unfold Customers.addPreferredGenre. rewrite Hfind, Hsplit.
    rewrite (mutateFirst_at _ _ pre customer post Hpre Hid). rewrite Hgenres.
    subst genres'. now destruct (JsArray.includes genre genres). }
  assert (Hfind' : find (Customers.hasId i) added
                   = Some (Customers.withGenres (Some genres') customer)).
  { rewrite Hadded. rewrite find_app_none.
    - simpl. unfold Customers.hasId in *. simpl. now rewrite Hid.
    - clear -Hpre. induction Hpre as [|y l Hy _ IH]; simpl; auto. now rewrite Hy. }
  assert (Hin : JsArray.includes genre genres' = true).
  { subst genres'. unfold JsArray.includes.
    destruct (existsb (String.eqb genre) genres) eqn:He; auto.
    rewrite existsb_app. simpl. rewrite String.eqb_refl. apply orb_true_r. }
  split; [|split].
  - exists (Customers.withGenres (Some genres') customer), genres'.
    split; [exact Hfind'|]. split; [reflexivity|].
    subst genres'. unfold JsArray.includes.
    destruct (existsb (String.eqb genre) genres) eqn:He.
    + split; auto. intros g. apply existsb_eqb_In in He.
      split; [tauto|]. intros [->|H]; auto.
    + split.
      * apply NoDup_push; auto. intros H. apply existsb_eqb_In in H. congruence.
      * intros g. rewrite in_app_iff. simpl. intuition.
  - unfold Customers.addPreferredGenre at 1. rewrite Hfind'.
    rewrite Hadded at 1.
    rewrite (mutateFirst_at _ _ pre _ post Hpre); [|exact Hid].
    simpl. rewrite Hin. now rewrite Hadded.
  - intros Hnew. unfold Customers.removePreferredGenre. rewrite Hfind'.
    rewrite Hadded.
    rewrite (mutateFirst_at _ _ pre _ post Hpre); [|exact Hid].
    simpl. rewrite Hsplit. do 2 f_equal.
    assert (Hgs : genres' = (genres ++ [genre])%list).
    { subst genres'. unfold JsArray.includes.
      destruct (existsb (String.eqb genre) genres) eqn:He; auto.
      apply existsb_eqb_In in He. contradiction. }
    rewrite Hgs. unfold JsArray.indexOf.
    rewrite findIndex_last.
    + rewrite splice1_last. destruct customer; simpl in *. now rewrite Hgenres.
    + rewrite Forall_forall. intros y Hy. apply String.eqb_neq. congruence.
    + apply String.eqb_refl.
Qed.

(** A genre is added twice to the second sample customer, then removed. *)
Lemma preferred_genres_scenario :
  let added := Customers.addPreferredGenre Customers.sample "C2" "Drama" in
  option_map Customers.preferredGenres (Customers.getCustomerById added "C2")
  = Some (Some ["Drama"])
  /\ Customers.addPreferredGenre added "C2" "Drama" = added
  /\ Customers.removePreferredGenre added "C2" "Drama" = Customers.sample.
Proof.
  intros added.
  destruct (preferred_genres_stay_distinct Customers.sample "C2" "Drama"
              {| Customers.id := "C2"; Customers.name := "Luis";
                 Customers.email := "luis@example.org";
                 Customers.phone := "555-0102"; Customers.address := "Calle 2";
                 Customers.created_at := Some "2024-02-07T09:00:00+00:00";
                 Customers.updated_at := None;
                 Customers.dateJoined := Some "2024-02-07";
                 Customers.totalPurchases := Some 0;
                 Customers.totalSpent := Some 0%Q;
                 Customers.lastPurchase := None; Customers.notes := None;
                 Customers.isRegular := Some false;
                 Customers.preferredGenres := Some [] |} [] eq_refl eq_refl
              (NoDup_nil _))
    as (_ & Hagain & Hremove).
  split; [reflexivity|]. split; [exact Hagain|].
  apply Hremove. intros [].
Defined.

(** ** Top customers *)

Lemma bySpent_sorted (l : list Customers.AppCustomer) :
  StronglySorted
    (fun a b => (Customers.orZeroQ (Customers.totalSpent b)
                 <= Customers.orZeroQ (Customers.totalSpent a))%Q)
    (JsArray.sort Customers.bySpentDescending l).
Proof.
  apply Sorted_StronglySorted.
  - intros a b c Hab Hbc. lra.
  - apply Sorted_weaken
      with (R := fun a b => Customers.bySpentDescending a b <> Gt).
    + intros a b. unfold Customers.bySpentDescending, JsArray.signQ.
      rewrite <- Qgt_alt. intros H. apply Qnot_lt_le in H. lra.
    + apply sort_sorted. intros a b.
      unfold Customers.bySpentDescending, JsArray.signQ.
      rewrite <- !Qgt_alt. lra.
Qed.

(** X23.  [topCustomers] returns at most ten customers of the list, by decreasing
    total spent (a missing total counting as 0); a customer of the list is in
    it unless it holds ten customers who each spent at least as much. *)
Theorem topCustomers_is_a_ranking :
  forall customers : list Customers.AppCustomer,
    let top := Customers.topCustomers customers in
    (length top <= 10)%nat
    /\ StronglySorted
         (fun a b => (Customers.orZeroQ (Customers.totalSpent b)
                      <= Customers.orZeroQ (Customers.totalSpent a))%Q) top
    /\ incl top customers
    /\ forall customer, In customer customers ->
         In customer top
         \/ (length top = 10%nat
             /\ forall listed, In listed top ->
                  (Customers.orZeroQ (Customers.totalSpent customer)
                   <= Customers.orZeroQ (Customers.totalSpent listed))%Q).
Proof.
  intros customers top. subst top. unfold Customers.topCustomers, JsArray.slice0.
  set (ranked := JsArray.sort Customers.bySpentDescending customers).
  assert (Hperm : Permutation ranked customers) by apply sort_perm.
  split; [apply firstn_le_length|].
  split; [apply firstn_StronglySorted, bySpent_sorted|].
  split.
  - intros x Hx. apply (Permutation_in _ Hperm).
    rewrite <- (firstn_skipn 10 ranked). apply in_or_app. now left.
  - intros customer Hin.
    apply (Permutation_in _ (Permutation_sym Hperm)) in Hin.
    rewrite <- (firstn_skipn 10 ranked) in Hin.
    apply in_app_or in Hin as [Htop|Hrest]; [now left|right]. split.
    + apply firstn_length_le.
      destruct (Nat.le_gt_cases 10 (length ranked)) as [|Hshort]; auto.
      rewrite skipn_all2 in Hrest by lia. contradiction.
    + intros listed Hlisted.
      apply (firstn_before_skipn
               (fun a b => (Customers.orZeroQ (Customers.totalSpent b)
                            <= Customers.orZeroQ (Customers.totalSpent a))%Q)
               ranked 10 listed customer); auto.
      apply bySpent_sorted.
Qed.

(** * Properties of the sale screen *)

Section ScreenQuantity.
Context {C : Number.Carrier} {N : Number.JsNumber}.

(** X24.  The guard of the screen's [updateQuantity] adds nothing: for every draft,
    book and quantity it does what [updateItemQuantity] of the store does. *)
Theorem screen_updateQuantity_is_updateItemQuantity :
  forall (s : Sales.State) (bookId : string) (quantity : Z),
    SaleScreen.updateQuantity s bookId quantity
    = Sales.updateItemQuantity s bookId quantity.
Proof.
  intros s bookId quantity. unfold SaleScreen.updateQuantity, SaleScreen.removeFromSale.
  destruct (Z.leb_spec quantity 0); [|reflexivity].
  symmetry. now apply setQuantity_nonpositive_removes.
Qed.

End ScreenQuantity.

(** ** The button that completes the sale *)

(** X25.  The button that completes the sale is enabled exactly when the draft
    has a line and the total of the screen, [subtotal + subtotal * 0.08] as
    the code computes it, is at most the amount paid.  In doubles the change
    shown, [Math.max(0, amountPaid - total)], is never negative: it is [+0]
    or positive, or [NaN] when the difference is [NaN]; and with the
    discount at 0, where the screen leaves it, the total that the store
    records is the total of the screen, unless the subtotal is [-0] or
    infinite.  Seven copies at 1.00 make a total of 7.5600000000000005 in
    doubles: 7.56 does not enable the button, 7.57 does; over exact numbers
    the total is 7.56, which 7.56 covers. *)
Theorem canCompleteSale_covers_the_total :
  (forall (C : Number.Carrier) (N : Number.JsNumber)
          (f : SaleScreen.Form) (s : Sales.State),
      SaleScreen.canCompleteSale f s = true
      <-> Cart.items s <> []
          /\ (Sales.currentSaleSubtotal s
               + Sales.currentSaleSubtotal s * Number.decimal 8 2
               <=? SaleScreen.amountPaid f)%num = true)
  /\ (forall (f : @SaleScreen.Form Binary64.carrier) (s : Sales.State),
         match SaleScreen.change f s with
         | S754_nan =>
             (SaleScreen.amountPaid f - SaleScreen.total s)%num = S754_nan
         | S754_zero sign | S754_infinity sign | S754_finite sign _ _ =>
             sign = false
         end)
  /\ (forall s : @Sales.State Binary64.carrier,
         Sales.Draft.discount (Sales.currentSale s) = Number.ofZ 0 ->
         match Sales.currentSaleSubtotal s with
         | S754_zero true | S754_infinity _ => True
         | _ => Sales.currentSaleTotal s = SaleScreen.total s
         end)
  /\ (SaleScreen.total Sample.sevenAt1 = S754_finite false 8511803295730238 (-50)
      /\ Number.decimal 756 2 = S754_finite false 8511803295730237 (-50)
      /\ SaleScreen.canCompleteSale
           (SaleScreen.setAmountPaid (Number.decimal 756 2) SaleScreen.initial)
           Sample.sevenAt1
         = false
      /\ SaleScreen.canCompleteSale
           (SaleScreen.setAmountPaid (Number.decimal 757 2) SaleScreen.initial)
           Sample.sevenAt1
         = true
      /\ SaleScreen.canCompleteSale
           (SaleScreen.setAmountPaid (Number.decimal 756 2) SaleScreen.initial)
           (@Samples.sevenAt1 Exact.carrier _)
         = true).
Proof.
  split; [|split; [|split]].
  - intros C N f s. unfold SaleScreen.canCompleteSale, Cart.items.
    fold (SaleScreen.subtotal s). fold (SaleScreen.tax s). fold (SaleScreen.total s).
    rewrite andb_true_iff.
    destruct (Sales.Draft.items (Sales.currentSale s)); simpl.
    + split; [intros [[=] _]|intros [H _]; congruence].
    + split; intros [_ H]; (split; [congruence || reflexivity|exact H]).
  - intros f s. unfold SaleScreen.change.
    apply (max_zero_is_not_negative (SaleScreen.amountPaid f - SaleScreen.total s)%num).
  - intros s Hdiscount.
    unfold Sales.currentSaleTotal, SaleScreen.total, SaleScreen.tax,
      SaleScreen.subtotal.
    rewrite Hdiscount.
    destruct (Sales.currentSaleSubtotal s) as [[|]|[|]| |sign m e]; auto.
  - vm_compute. repeat split.
Qed.

(** ** The quick-amount buttons *)

(** X26.  Read over exact numbers: each of the two quick-amount buttons,
    pressed on a draft with a line, enables the button that completes the
    sale, and the change is then below 1 for the first and below 5 for the
    second. *)
Theorem quick_amounts_cover_the_total :
  forall (f : @SaleScreen.Form Exact.carrier) (s : @Sales.State Exact.carrier),
    Cart.items s <> [] ->
    (SaleScreen.canCompleteSale (SaleScreen.payCeil f s) s = true
     /\ (SaleScreen.change (SaleScreen.payCeil f s) s < 1)%Q)
    /\ (SaleScreen.canCompleteSale (SaleScreen.payCeilToFive f s) s = true
        /\ (SaleScreen.change (SaleScreen.payCeilToFive f s) s < 5)%Q).
Proof.
  intros f s Hitems.
  assert (Hlen : (0 <? length (Sales.Draft.items (Sales.currentSale s)))%nat = true).
  { unfold Cart.items in Hitems.
    destruct (Sales.Draft.items (Sales.currentSale s)); [congruence|reflexivity]. }
  unfold SaleScreen.canCompleteSale, SaleScreen.change. rewrite Hlen.
  unfold SaleScreen.payCeil, SaleScreen.payCeilToFive, SaleScreen.setAmountPaid.
  cbn [SaleScreen.amountPaid andb].
  set (total := SaleScreen.total s : Q).
  cbn [Number.leb Number.max Number.sub Number.mul Number.div Number.ceil
       Number.ofZ Exact.numbers].
  unfold Exact.ceil.
  change (inject_Z 0) with 0%Q. change (inject_Z 5) with 5%Q.
  pose proof (Qle_ceiling total) as Hup.
  pose proof (Qceiling_lt total) as Hdown.
  pose proof (Qle_ceiling (total / 5)) as Hup5.
  pose proof (Qceiling_lt (total / 5)) as Hdown5.
  unfold Z.sub in Hdown, Hdown5.
  rewrite inject_Z_plus, inject_Z_opp in Hdown, Hdown5.
  change (inject_Z 1) with 1%Q in Hdown, Hdown5.
  assert (Hfive : (total == total / 5 * 5)%Q) by field.
  set (fifth := (total / 5)%Q) in *.
  split; split.
  - apply Qle_bool_iff. exact Hup.
  - apply Q.max_lub_lt; lra.
  - apply Qle_bool_iff. lra.
  - apply Q.max_lub_lt; lra.
Qed.

(** Three books at 10.00: the total is 32.40, the buttons offer 33 and 35. *)
Lemma quick_amounts_scenario :
  let s : @Sales.State Exact.carrier := Samples.threeOfB1 in
  (SaleScreen.amountPaid (SaleScreen.payCeil SaleScreen.initial s) == 33)%Q
  /\ (SaleScreen.amountPaid (SaleScreen.payCeilToFive SaleScreen.initial s) == 35)%Q
  /\ SaleScreen.canCompleteSale (SaleScreen.payCeilToFive SaleScreen.initial s) s
     = true.
Proof.
  intros s.
  split; [vm_compute; reflexivity|]. split; [vm_compute; reflexivity|].
  apply (quick_amounts_cover_the_total SaleScreen.initial s).
  discriminate.
Defined.

(** In doubles, on the same draft, the total is 32.4 and the buttons offer
    33 and 35 as well. *)
Example quick_amounts_in_doubles :
  SaleScreen.total Sample.threeOfB1 = Number.decimal 324 1
  /\ SaleScreen.amountPaid (SaleScreen.payCeil SaleScreen.initial Sample.threeOfB1)
     = Number.ofZ 33
  /\ SaleScreen.amountPaid
       (SaleScreen.payCeilToFive SaleScreen.initial Sample.threeOfB1)
     = Number.ofZ 35.
Proof. vm_compute. repeat split. Qed.

Section PlusButton.
Context {C : Number.Carrier} {N : Number.JsNumber}.

(** X27.  The [+] button of a line never takes it above the stock: when the button
    is enabled on a line of a non-negative quantity whose book was loaded
    from the database, pressing it adds one copy to that line and the new
    quantity is at most the stock of the book. *)
Theorem plus_button_stays_within_stock :
  forall (booksStore : Books.State) (s : Sales.State) (line : Sales.Item.t)
         (book : Books.AppBook),
    find (Sales.forBook (Sales.Item.bookId line)) (Cart.items s) = Some line ->
    Books.getBookById booksStore (Sales.Item.bookId line) = Some book ->
    Inventory.fromRow book ->
    0 <= Sales.Item.quantity line ->
    SaleScreen.plusDisabled booksStore line = false ->
    exists line',
      find (Sales.forBook (Sales.Item.bookId line))
           (Cart.items (SaleScreen.updateQuantity s (Sales.Item.bookId line)
                           (Sales.Item.quantity line + 1)))
      = Some line'
      /\ Sales.Item.quantity line' = Sales.Item.quantity line + 1
      /\ Sales.Item.quantity line' <= Books.stock book.
Proof.
  intros booksStore s line book Hline Hbook Hrow Hq Hplus.
  unfold SaleScreen.plusDisabled in Hplus. rewrite Hbook in Hplus.
  apply Z.leb_gt in Hplus.
  destruct (fromRow_quantity book Hrow) as [Hmirror _].
  unfold SaleScreen.updateQuantity.
  destruct (Z.leb_spec (Sales.Item.quantity line + 1) 0); [lia|].
  unfold Sales.updateItemQuantity. unfold Cart.items in *. rewrite Hline.
  destruct (Z.leb_spec (Sales.Item.quantity line + 1) 0); [lia|]. simpl.
  eexists. split.
  - apply find_mutateFirst_same; [exact Hline|].
    apply find_some in Hline as [_ Hid]. exact Hid.
  - simpl. split; [reflexivity|lia].
Qed.

End PlusButton.

(** Two copies of B1 in the draft, three in stock: one more can be added,
    and then the button is disabled. *)
Lemma plus_button_scenario :
  exists line',
    find (Sales.forBook "B1")
         (Cart.items (SaleScreen.updateQuantity Sample.twoLines "B1" (2 + 1)))
    = Some line'
    /\ Sales.Item.quantity line' = 2 + 1
    /\ Sales.Item.quantity line' <= 3
    /\ SaleScreen.plusDisabled Sample.catalogue line' = true.
Proof.
  destruct (plus_button_stays_within_stock Sample.catalogue Sample.twoLines
              (Ledger.line "B1" 10 2) (Books.mapToAppBook (Sample.book "B1" Sample.ten 3)))
    as (line' & Hfind & Hq & Hle).
  - reflexivity.
  - reflexivity.
  - eexists; reflexivity.
  - simpl. lia.
  - reflexivity.
  - exists line'. split; [exact Hfind|]. split; [exact Hq|]. split; [exact Hle|].
    vm_compute in Hfind. now injection Hfind as <-.
Defined.

Section ScreenCheckout.
Context {C : Number.Carrier} {N : Number.JsNumber}.
Context {DB : Type} {remote : Supabase.Remote DB}.

Lemma completeSale_throw_keeps_draft_and_sales_aux
    now (db db' : DB) booksStore booksStore' s s' err :
  Sales.completeSale now db booksStore s = (db', booksStore', s', inl err) ->
  Sales.currentSale s' = Sales.currentSale s /\ Sales.sales s' = Sales.sales s.
Proof.
  unfold Sales.completeSale.
  destruct (Sales.Draft.items (Sales.currentSale s)) as [|i l] eqn:Hitems.
  - now intros [= _ _ <- _].
  - unfold Sales.completeSaleTry.
    destruct (Supabase.insertSale db _) as [db1 [saleErr|saleRow]].
    + now intros [= _ _ <- _].
    + destruct (if (0 <? _)%nat then _ else _) as [db2 [itemsErr|]].
      * now intros [= _ _ <- _].
      * destruct (Sales.updateStocks db2 booksStore _) as [[db3 bs3] [e|[]]];
          [|discriminate].
        now intros [= _ _ <- _].
Qed.

(** X28.  The screen's [completeSale].  With the button disabled it only shows an
    alert: no request is sent and the stores are unchanged.  Otherwise it
    hands the draft to the store with the customer selected in the form, if
    the customers store has it, and the payment method of the form.  When
    the store returns, the draft is empty, the form is reset, the receipt is
    shown and [getSaleById] with the identifier kept for the receipt finds
    the very sale that was returned; when the store throws, an alert is
    shown and the lines of the draft, the list of sales and the amount paid
    are kept. *)
Theorem screen_completeSale_outcomes :
  forall (now : Js.Date) (db : DB) (booksStore : Books.State)
         (customers : list Customers.AppCustomer) (f : SaleScreen.Form)
         (s : Sales.State),
    (SaleScreen.canCompleteSale f s = false ->
     exists f',
       SaleScreen.completeSale now db booksStore customers f s
       = (db, booksStore, f', s)
       /\ length (SaleScreen.alerts f') = S (length (SaleScreen.alerts f)))
    /\ (SaleScreen.canCompleteSale f s = true ->
        match Sales.completeSale now db booksStore (SaleScreen.prepared customers f s) with
        | (db', booksStore', _, inr sale) =>
            exists f' s',
              SaleScreen.completeSale now db booksStore customers f s
              = (db', booksStore', f', s')
              /\ Sales.currentSale s' = Sales.emptyDraft
              /\ SaleScreen.amountPaid f' = Number.ofZ 0
              /\ SaleScreen.selectedCustomer f' = ""
              /\ SaleScreen.showReceiptModal f' = true
              /\ SaleScreen.lastAmountPaid f' = SaleScreen.amountPaid f
              /\ SalesViews.getSaleById s' (SaleScreen.lastSaleId f') = Some sale
              /\ Sales.Sale.items sale = Cart.items s
              /\ Sales.Sale.paymentMethod sale = SaleScreen.paymentMethod f
              /\ Sales.Sale.customerId sale
                 = (if Inventory.truthy (SaleScreen.selectedCustomer f)
                    then option_map Customers.id
                           (Customers.getCustomerById customers
                              (SaleScreen.selectedCustomer f))
                    else None)
        | (db', booksStore', _, inl _) =>
            exists f' s',
              SaleScreen.completeSale now db booksStore customers f s
              = (db', booksStore', f', s')
              /\ Cart.items s' = Cart.items s
              /\ Sales.sales s' = Sales.sales s
              /\ SaleScreen.amountPaid f' = SaleScreen.amountPaid f
              /\ length (SaleScreen.alerts f') = S (length (SaleScreen.alerts f))
        end).
Proof.
  intros now db booksStore customers f s. unfold SaleScreen.completeSale. split.
  - intros ->. eexists. split; reflexivity.
  - intros ->. cbn [negb].
    destruct (Sales.completeSale now db booksStore (SaleScreen.prepared customers f s))
      as [[[db' booksStore'] s1] [err|sale]] eqn:Hrun.
    + destruct (completeSale_throw_keeps_draft_and_sales_aux _ _ _ _ _ _ _ _ Hrun)
        as [Hdraft Hsales].
      eexists _, _. split; [reflexivity|].
      split; [unfold Cart.items; now rewrite Hdraft|].
      split; [exact Hsales|]. split; reflexivity.
    + destruct (completeSale_returns_inv _ _ _ _ _ _ _ _ Hrun)
        as (db1 & db2 & saleRow & _ & _ & _ & Hsale & Hsales & Hdraft).
      eexists _, _. split; [reflexivity|].
      split; [reflexivity|]. split; [reflexivity|]. split; [reflexivity|].
      split; [reflexivity|]. split; [reflexivity|]. split.
      * unfold SalesViews.getSaleById. simpl. rewrite Hsales. simpl.
        unfold SalesViews.hasId. now rewrite String.eqb_refl.
      * rewrite Hsale. simpl. repeat split.
        destruct (Inventory.truthy (SaleScreen.selectedCustomer f)); reflexivity.
Qed.

End ScreenCheckout.

(** Two lines for the first sample customer, paid with 40.00; the same
    draft with nothing paid; and seven copies at 1.00 with 7.56 paid, which
    in doubles is below the total of 7.5600000000000005: the screen only
    shows the alert. *)
Lemma screen_completeSale_scenario :
  let f :=
    {| SaleScreen.searchQuery := ""; SaleScreen.selectedCustomer := "C1";
       SaleScreen.paymentMethod := Sales.card;
       SaleScreen.amountPaid := Number.ofZ 40;
       SaleScreen.showReceiptModal := false; SaleScreen.lastSaleId := "";
       SaleScreen.lastAmountPaid := Number.ofZ 0; SaleScreen.alerts := [] |} in
  (exists db' booksStore' f' s' sale,
      SaleScreen.completeSale Sample.now Sample.db Sample.catalogue Customers.sample
                              f Sample.twoLines
      = (db', booksStore', f', s')
      /\ Sales.currentSale s' = Sales.emptyDraft
      /\ SalesViews.getSaleById s' (SaleScreen.lastSaleId f') = Some sale
      /\ Sales.Sale.customerId sale = Some "C1"
      /\ Sales.Sale.paymentMethod sale = Sales.card)
  /\ (exists f',
       SaleScreen.completeSale Sample.now Sample.db Sample.catalogue Customers.sample
                               SaleScreen.initial Sample.twoLines
       = (Sample.db, Sample.catalogue, f', Sample.twoLines)
       /\ length (SaleScreen.alerts f') = 1%nat)
  /\ exists f',
       SaleScreen.completeSale
         Sample.now Sample.dbAtOne Sample.atOne Customers.sample
         (SaleScreen.setAmountPaid (Number.decimal 756 2) SaleScreen.initial)
         Sample.sevenAt1
       = (Sample.dbAtOne, Sample.atOne, f', Sample.sevenAt1)
       /\ length (SaleScreen.alerts f') = 1%nat.
Proof.
  intros f. split; [|split].
  - assert (Hcan : SaleScreen.canCompleteSale f Sample.twoLines = true)
      by (vm_compute; reflexivity).
    pose proof (proj2 (screen_completeSale_outcomes
                         Sample.now Sample.db Sample.catalogue Customers.sample
                         f Sample.twoLines) Hcan) as H.
    destruct (Sales.completeSale Sample.now Sample.db Sample.catalogue
                (SaleScreen.prepared Customers.sample f Sample.twoLines))
      as [[[db' booksStore'] s1] [err|sale]] eqn:Hrun.
    + vm_compute in Hrun. discriminate.
    + destruct H as (f' & s' & Hscreen & Hdraft & _ & _ & _ & _ & Hfind & _ & Hpay
                     & Hcustomer).
      exists db', booksStore', f', s', sale. split; [exact Hscreen|].
      split; [exact Hdraft|]. split; [exact Hfind|].
      split; [rewrite Hcustomer; vm_compute; reflexivity|exact Hpay].
  - assert (Hcannot : SaleScreen.canCompleteSale SaleScreen.initial Sample.twoLines
                      = false) by (vm_compute; reflexivity).
    apply (proj1 (screen_completeSale_outcomes
                    Sample.now Sample.db Sample.catalogue Customers.sample
                    SaleScreen.initial Sample.twoLines) Hcannot).
  - assert (Hcannot : SaleScreen.canCompleteSale
                        (SaleScreen.setAmountPaid (Number.decimal 756 2)
                                                  SaleScreen.initial)
                        Sample.sevenAt1
                      = false) by (vm_compute; reflexivity).
    apply (proj1 (screen_completeSale_outcomes
                    Sample.now Sample.dbAtOne Sample.atOne Customers.sample
                    (SaleScreen.setAmountPaid (Number.decimal 756 2)
                                              SaleScreen.initial)
                    Sample.sevenAt1) Hcannot).
Defined.
